(** * TaxJar CLI: a shallow embedding of [src/config.js], [src/api.js] and
      [src/index.js], and the properties of the specification checked on it.

    Layout:
    - [JS]      the JavaScript built-ins the program calls (strings, numbers,
                truthiness, [parseFloat], [JSON.stringify], [slice], ...);
    - the effect monad [M] (reader of the outside world, writer of the
      observable events, exceptions and [process.exit]);
    - [config.js], [api.js], [index.js] function by function;
    - the theorems.

    Strings are sequences of code units below 256 ([ascii]); numbers are kept
    as the shortest decimal that denotes them (what [Number.prototype.toString]
    prints), which identifies a finite binary64 value uniquely.  A numeric
    literal is rounded to the nearest binary64 value, with the rounding of
    the Standard Library's [SpecFloat], before its shortest decimal is
    taken. *)

From Stdlib Require Import String Ascii List ZArith NArith Bool Lia DecimalString.
From Stdlib Require SpecFloat.
Import ListNotations.
Set Warnings "-register-all".
Open Scope string_scope.

(* ------------------------------------------------------------------------- *)
(** ** JavaScript built-ins *)

Module JS.

(** A JavaScript number: [Dec neg m e] is (-1)^neg * m * 10^e with [m] free
    of trailing zeros ([m = 0] forces [e = 0]; [Dec true 0 0] is -0). *)
Inductive number : Type :=
| NaN
| Infinity (neg : bool)
| Dec (neg : bool) (m : N) (e : Z).

Inductive value : Type :=
| VUndef
| VNull
| VBool (b : bool)
| VNum (n : number)
| VStr (s : string)
| VArr (items : list value)
| VObj (fields : list (string * value)).

(** *** Strings *)

Definition chr (n : nat) : string := String (ascii_of_nat n) EmptyString.

Definition quote : string := chr 34.
Definition backslash : string := chr 92.
Definition newline : string := chr 10.

Fixpoint repeat_str (s : string) (n : nat) : string :=
  match n with
  | O => ""
  | S k => s ++ repeat_str s k
  end.

(** [String.prototype.padEnd(width)] with the default filler, a space. *)
Definition padEnd (s : string) (width : nat) : string :=
  s ++ repeat_str " " (width - String.length s).

(** [Array.prototype.join] on strings. *)
Fixpoint join (sep : string) (l : list string) : string :=
  match l with
  | [] => ""
  | [x] => x
  | x :: rest => x ++ sep ++ join sep rest
  end.

(** [String.prototype.slice(start, end)]; [None] is an omitted [end]. *)
Definition clamp_index (len i : Z) : Z :=
  if (i <? 0)%Z then Z.max (len + i) 0 else Z.min i len.

Definition slice (s : string) (start : Z) (stop : option Z) : string :=
  let chars := list_ascii_of_string s in
  let len := Z.of_nat (List.length chars) in
  let from := clamp_index len start in
  let to := match stop with None => len | Some e => clamp_index len e end in
  let span := Z.max (to - from) 0 in
  string_of_list_ascii (firstn (Z.to_nat span) (skipn (Z.to_nat from) chars)).

(** [haystack.includes(needle)]. *)
Fixpoint includes (haystack needle : string) : bool :=
  if prefix needle haystack then true
  else match haystack with
       | EmptyString => false
       | String _ rest => includes rest needle
       end.

(** [String.prototype.trim]: only the code units below 256 that are white
    space or line terminators. *)
Definition is_space (c : ascii) : bool :=
  let n := nat_of_ascii c in
  ((n =? 9) || (n =? 10) || (n =? 11) || (n =? 12) || (n =? 13) || (n =? 32)
   || (n =? 160))%nat.

Fixpoint trimStart (s : string) : string :=
  match s with
  | String c rest => if is_space c then trimStart rest else s
  | EmptyString => ""
  end.

Fixpoint rev_string (s acc : string) : string :=
  match s with
  | EmptyString => acc
  | String c rest => rev_string rest (String c acc)
  end.

Definition trim (s : string) : string :=
  rev_string (trimStart (rev_string (trimStart s) "")) "".

(** *** Numbers *)

Definition is_digit (c : ascii) : bool :=
  let n := nat_of_ascii c in ((48 <=? n) && (n <=? 57))%nat.

Definition digit_val (c : ascii) : N := N.of_nat (nat_of_ascii c - 48).

Fixpoint digits_val (acc : N) (ds : list ascii) : N :=
  match ds with
  | [] => acc
  | d :: rest => digits_val (10 * acc + digit_val d) rest
  end.

Definition is_zero_digit (c : ascii) : bool := (nat_of_ascii c =? 48)%nat.

(** Moves trailing zeros of [m] into the exponent. *)
Fixpoint strip10 (fuel : nat) (m : N) (e : Z) : N * Z :=
  match fuel with
  | O => (m, e)
  | S f =>
      if ((m mod 10 =? 0) && negb (m =? 0))%N then strip10 f (m / 10) (e + 1)%Z
      else (m, e)
  end.

(** The number [m * 10^e] in normal form; [fuel] bounds the zeros of [m]. *)
Definition normal (neg : bool) (fuel : nat) (m : N) (e : Z) : number :=
  let (m', e') := strip10 fuel m e in
  if (m' =? 0)%N then Dec neg 0 0 else Dec neg m' e'.

Definition string_of_N (n : N) : string := NilEmpty.string_of_uint (N.to_uint n).

(** The number of decimal digits of [n]. *)
Definition digits10 (n : Z) : Z :=
  Z.of_nat (String.length (string_of_N (Z.to_N n))).

(** *** binary64.  A number of the program is an IEEE 754 binary64 value:
    53 bits of precision, exponents up to 1024. *)

(** The binary64 value nearest to [p / q], ties to even, for positive [p]
    and [q]: the quotient and the position of the remainder, rounded as
    [SpecFloat] rounds a division. *)
Definition nearest64 (neg : bool) (p q : Z) : SpecFloat.spec_float :=
  let '(m, e, l) := SpecFloat.SFdiv_core_binary 53 1024 p 0 q 0 in
  SpecFloat.binary_round_aux 53 1024 neg m e l.

(** [m * 10^e] as a fraction. *)
Definition fraction (m e : Z) : Z * Z :=
  if (0 <=? e)%Z then (m * 10 ^ e, 1)%Z else (m, 10 ^ (- e))%Z.

Definition nearest64_decimal (neg : bool) (m e : Z) : SpecFloat.spec_float :=
  let (p, q) := fraction m e in nearest64 neg p q.

(** The same finite value, whatever the sign. *)
Definition same64 (x y : SpecFloat.spec_float) : bool :=
  match x, y with
  | SpecFloat.S754_finite _ mx ex, SpecFloat.S754_finite _ my ey =>
      (Pos.eqb mx my && Z.eqb ex ey)%bool
  | _, _ => false
  end.

(** [Number::toString], step 5: the digits and the exponent of the shortest
    decimal that reads back as [x = p / q], tried with [k], [k + 1], ...
    digits; of two decimals of one length the nearer to [x], the even one
    when they are as near.  [n] is such that [10^(n-1) <= x < 10^n]. *)
Fixpoint shortest (fuel : nat) (k : Z) (x : SpecFloat.spec_float) (p q n : Z)
  : Z * Z :=
  let j := (n - k)%Z in
  let (num, den) :=
    if (0 <=? j)%Z then (p, q * 10 ^ j)%Z else (p * 10 ^ (- j), q)%Z in
  let lo := (num / den)%Z in
  let hi := (lo + 1)%Z in
  let lo_ok := same64 (nearest64_decimal false lo j) x in
  let hi_ok := same64 (nearest64_decimal false hi j) x in
  let nearer :=
    match (2 * (num mod den) ?= den)%Z with
    | Lt => lo
    | Gt => hi
    | Eq => if Z.even lo then lo else hi
    end in
  match fuel with
  | O => (nearer, j)
  | S f =>
      if (lo_ok && hi_ok)%bool then (nearer, j)
      else if lo_ok then (lo, j)
      else if hi_ok then (hi, j)
      else shortest f (k + 1)%Z x p q n
  end.

Definition magnitude10 (p q : Z) : Z :=
  if (q <=? p)%Z then digits10 (p / q)
  else
    let j := digits10 (q / p) in
    if (q <=? p * 10 ^ (j - 1))%Z then (2 - j)%Z else (1 - j)%Z.

(** A binary64 value as the shortest decimal that denotes it (17 digits
    always do). *)
Definition of_binary64 (x : SpecFloat.spec_float) : number :=
  match x with
  | SpecFloat.S754_zero neg => Dec neg 0 0
  | SpecFloat.S754_infinity neg => Infinity neg
  | SpecFloat.S754_nan => NaN
  | SpecFloat.S754_finite neg m e =>
      let (p, q) :=
        if (0 <=? e)%Z then (Zpos m * 2 ^ e, 1)%Z else (Zpos m, 2 ^ (- e))%Z in
      let (s, j) := shortest 17 1 x p q (magnitude10 p q) in
      normal neg 18 (Z.to_N s) j
  end.

(** The binary64 value of the decimal [m * 10^e]: the nearest one,
    [Infinity] beyond the largest, 0 below half the smallest.  (A decimal
    of more than 310 digits before the point is beyond the largest value,
    one that starts more than 330 places behind it is below half the
    smallest.) *)
Definition binary64_of_decimal (neg : bool) (m : N) (e : Z)
  : SpecFloat.spec_float :=
  if (m =? 0)%N then SpecFloat.S754_zero neg
  else
    let size := (digits10 (Z.of_N m) + e)%Z in
    if (310 <? size)%Z then SpecFloat.S754_infinity neg
    else if (size <? -330)%Z then SpecFloat.S754_zero neg
    else nearest64_decimal neg (Z.of_N m) e.

(** The number a decimal literal denotes. *)
Definition decimal (neg : bool) (m : N) (e : Z) : number :=
  of_binary64 (binary64_of_decimal neg m e).

(** The number written by the digits [ds] scaled by [10^e]. *)
Definition of_digits (neg : bool) (ds : list ascii) (e : Z) : number :=
  decimal neg (digits_val 0 ds) e.

Definition string_of_Z (z : Z) : string :=
  if (z <? 0)%Z then "-" ++ string_of_N (Z.to_N (- z)) else string_of_N (Z.to_N z).

(** The number of a count or a status, which is an integer below 2^53 and
    so a binary64 value as it is. *)
Definition of_N (n : N) : number := normal false (N.to_nat (N.size n)) n 0.

Definition of_nat (n : nat) : number := of_N (N.of_nat n).

Definition of_Z (z : Z) : number :=
  normal (z <? 0)%Z (N.to_nat (N.size (Z.abs_N z))) (Z.abs_N z) 0.

(** [Number::toString] (radix 10): [k] digits, decimal point after [n]. *)
Definition number_to_string (x : number) : string :=
  match x with
  | NaN => "NaN"
  | Infinity neg => if neg then "-Infinity" else "Infinity"
  | Dec neg m e =>
      if (m =? 0)%N then "0"
      else
        let s := string_of_N m in
        let k := Z.of_nat (String.length s) in
        let n := (k + e)%Z in
        let body :=
          if ((k <=? n) && (n <=? 21))%Z then
            s ++ repeat_str "0" (Z.to_nat (n - k))
          else if ((0 <? n) && (n <=? 21))%Z then
            substring 0 (Z.to_nat n) s ++ "." ++
            substring (Z.to_nat n) (Z.to_nat (k - n)) s
          else if ((-6 <? n) && (n <=? 0))%Z then
            "0." ++ repeat_str "0" (Z.to_nat (- n)) ++ s
          else
            let ex := (n - 1)%Z in
            let sign := if (ex <? 0)%Z then "-" else "+" in
            let mant :=
              if (k =? 1)%Z then s
              else substring 0 1 s ++ "." ++ substring 1 (Z.to_nat (k - 1)) s in
            mant ++ "e" ++ sign ++ string_of_N (Z.abs_N ex)
        in if neg then "-" ++ body else body
  end.

(** *** Numeric literals.  [parseFloat] takes the longest prefix of the
    trimmed text that is a decimal literal and gives [NaN] when there is none;
    [Number(text)] wants the whole trimmed text to be a literal.  The
    literal denotes the binary64 value nearest to it ([decimal]). *)

Fixpoint span_digits (s : string) : list ascii * string :=
  match s with
  | String c rest =>
      if is_digit c then let (ds, r) := span_digits rest in (c :: ds, r)
      else ([], s)
  | EmptyString => ([], "")
  end.

Definition parse_sign (s : string) : bool * string :=
  match s with
  | String c rest =>
      if (nat_of_ascii c =? 45)%nat then (true, rest)
      else if (nat_of_ascii c =? 43)%nat then (false, rest)
      else (false, s)
  | EmptyString => (false, "")
  end.

Definition is_dot (c : ascii) : bool := (nat_of_ascii c =? 46)%nat.
Definition is_e (c : ascii) : bool :=
  ((nat_of_ascii c =? 101) || (nat_of_ascii c =? 69))%nat.

Definition parse_fraction (s : string) : list ascii * string :=
  match s with
  | String c rest => if is_dot c then span_digits rest else ([], s)
  | EmptyString => ([], "")
  end.

(** An exponent part counts only when it has digits. *)
Definition parse_exponent (s : string) : Z * string :=
  match s with
  | String c rest =>
      if is_e c then
        let (neg, r) := parse_sign rest in
        let (ds, r') := span_digits r in
        match ds with
        | [] => (0%Z, s)
        | _ =>
            let v := Z.of_N (digits_val 0 ds) in
            ((if neg then (- v)%Z else v), r')
        end
      else (0%Z, s)
  | EmptyString => (0%Z, "")
  end.

(** The longest decimal literal at the head of [s], and what follows it. *)
Definition parse_decimal (s : string) : option (number * string) :=
  let (neg, body) := parse_sign s in
  if prefix "Infinity" body then
    Some (Infinity neg, substring 8 (String.length body - 8) body)
  else
    let (ip, r1) := span_digits body in
    let (fp, r2) := parse_fraction r1 in
    match (ip ++ fp)%list with
    | [] => None
    | ds =>
        let (ex, r3) := parse_exponent r2 in
        Some (of_digits neg ds (ex - Z.of_nat (List.length fp)), r3)
    end.

Definition parseFloat (text : string) : number :=
  match parse_decimal (trimStart text) with
  | Some (x, _) => x
  | None => NaN
  end.

(** *** Values *)

(** [ToBoolean]. *)
Definition truthy (v : value) : bool :=
  match v with
  | VUndef | VNull => false
  | VBool b => b
  | VNum NaN => false
  | VNum (Dec _ m _) => negb (m =? 0)%N
  | VNum (Infinity _) => true
  | VStr s => negb (s =? "")
  | VArr _ | VObj _ => true
  end.

(** [a || b] and [a ?? b]. *)
Definition or_else (a b : value) : value := if truthy a then a else b.

Definition nullish (v : value) : bool :=
  match v with VUndef | VNull => true | _ => false end.

Definition coalesce (a b : value) : value := if nullish a then b else a.

(** [ToString]; an array is its items joined by commas. *)
Fixpoint to_string (v : value) : string :=
  match v with
  | VUndef => "undefined"
  | VNull => "null"
  | VBool b => if b then "true" else "false"
  | VNum n => number_to_string n
  | VStr s => s
  | VArr items =>
      join "," (map (fun x => if nullish x then "" else to_string x) items)
  | VObj _ => "[object Object]"
  end.

(** Own-property lookup in an object literal or a parsed JSON object. *)
Fixpoint assoc {A} (k : string) (fields : list (string * A)) : option A :=
  match fields with
  | [] => None
  | (k', v) :: rest => if k' =? k then Some v else assoc k rest
  end.

(** [obj[k] = v]: replaces in place, appends a new key at the end. *)
Fixpoint assign {A} (k : string) (v : A) (fields : list (string * A))
  : list (string * A) :=
  match fields with
  | [] => [(k, v)]
  | (k', v') :: rest =>
      if k' =? k then (k, v) :: rest else (k', v') :: assign k v rest
  end.

(** [v[k]] for the property names this program reads: [None] is the
    TypeError of reading a property of [undefined] or [null]. *)
Definition get (v : value) (k : string) : option value :=
  match v with
  | VUndef | VNull => None
  | VObj fields =>
      Some (match assoc k fields with Some x => x | None => VUndef end)
  | VArr items =>
      Some (if k =? "length" then VNum (of_nat (List.length items)) else VUndef)
  | VStr s =>
      Some (if k =? "length" then VNum (of_nat (String.length s)) else VUndef)
  | VBool _ | VNum _ => Some VUndef
  end.

(** [v?.k]. *)
Definition get_opt (v : value) (k : string) : value :=
  match get v k with Some x => x | None => VUndef end.

(** [ToNumber]: a string must be a numeric literal as a whole. *)
Definition radix_digit (base : N) (c : ascii) : option N :=
  let n := nat_of_ascii c in
  let d :=
    if ((48 <=? n) && (n <=? 57))%nat then Some (N.of_nat (n - 48))
    else if ((97 <=? n) && (n <=? 102))%nat then Some (N.of_nat (n - 87))
    else if ((65 <=? n) && (n <=? 70))%nat then Some (N.of_nat (n - 55))
    else None in
  match d with
  | Some v => if (v <? base)%N then Some v else None
  | None => None
  end.

Fixpoint radix_val (base acc : N) (s : string) : option N :=
  match s with
  | EmptyString => Some acc
  | String c rest =>
      match radix_digit base c with
      | Some d => radix_val base (base * acc + d) rest
      | None => None
      end
  end.

Definition radix_of (c : ascii) : option N :=
  let n := nat_of_ascii c in
  if ((n =? 120) || (n =? 88))%nat then Some 16%N
  else if ((n =? 111) || (n =? 79))%nat then Some 8%N
  else if ((n =? 98) || (n =? 66))%nat then Some 2%N
  else None.

Definition parse_radix (s : string) : option number :=
  match s with
  | String z (String x (String c rest)) =>
      if is_zero_digit z then
        match radix_of x with
        | Some base =>
            match radix_val base 0 (String c rest) with
            | Some n => Some (decimal false n 0)
            | None => None
            end
        | None => None
        end
      else None
  | _ => None
  end.

Definition string_to_number (s : string) : number :=
  let t := trim s in
  if t =? "" then Dec false 0 0
  else match parse_radix t with
       | Some n => n
       | None =>
           match parse_decimal t with
           | Some (x, EmptyString) => x
           | _ => NaN
           end
       end.

Definition to_number (v : value) : number :=
  match v with
  | VUndef => NaN
  | VNull => Dec false 0 0
  | VBool b => if b then Dec false 1 0 else Dec false 0 0
  | VNum n => n
  | VStr s => string_to_number s
  | VArr _ => string_to_number (to_string v)
  | VObj _ => NaN
  end.

(** [v > 0] and [v === 0]. *)
Definition gt_zero (v : value) : bool :=
  match to_number v with
  | Dec false m _ => (0 <? m)%N
  | Infinity false => true
  | _ => false
  end.

Definition is_zero (v : value) : bool :=
  match v with
  | VNum (Dec _ m _) => (m =? 0)%N
  | _ => false
  end.

(** *** [(x * 100).toFixed(4)] *)

Definition to_binary64 (x : number) : SpecFloat.spec_float :=
  match x with
  | NaN => SpecFloat.S754_nan
  | Infinity neg => SpecFloat.S754_infinity neg
  | Dec neg m e => binary64_of_decimal neg m e
  end.

(** The number 100, [25 * 2^2], with its 53 bits. *)
Definition hundred : SpecFloat.spec_float :=
  SpecFloat.S754_finite false 7036874417766400 (-46).

(** [Number.prototype.toFixed(4)]: below 10^21 the integer [n] nearest to
    [x * 10^4], the larger of two that are as near, with a point before its
    last four digits; [ToString] from 10^21 on. *)
Definition toFixed4 (x : SpecFloat.spec_float) : string :=
  match x with
  | SpecFloat.S754_nan => "NaN"
  | SpecFloat.S754_infinity neg => if neg then "-Infinity" else "Infinity"
  | SpecFloat.S754_zero _ => "0.0000"
  | SpecFloat.S754_finite neg m e =>
      let (p, q) :=
        if (0 <=? e)%Z then (Zpos m * 2 ^ e, 1)%Z else (Zpos m, 2 ^ (- e))%Z in
      if (10 ^ 21 * q <=? p)%Z then number_to_string (of_binary64 x)
      else
        let n := ((2 * p * 10 ^ 4 + q) / (2 * q))%Z in
        let digits := string_of_N (Z.to_N n) in
        let padded := repeat_str "0" (5 - String.length digits) ++ digits in
        let whole := String.length padded - 4 in
        (if neg then "-" else "")
        ++ substring 0 whole padded ++ "." ++ substring whole 4 padded
  end.

(** [(v * 100).toFixed(4)]: the product is rounded to binary64 before its
    digits are taken. *)
Definition times100_toFixed4 (v : value) : string :=
  toFixed4 (SpecFloat.SFmul 53 1024 (to_binary64 (to_number v)) hundred).

(** *** [JSON.stringify] *)

Definition hex_digit (n : nat) : string :=
  substring n 1 "0123456789abcdef".

Definition quote_char (c : ascii) : string :=
  let n := nat_of_ascii c in
  if (n =? 8)%nat then backslash ++ "b"
  else if (n =? 9)%nat then backslash ++ "t"
  else if (n =? 10)%nat then backslash ++ "n"
  else if (n =? 12)%nat then backslash ++ "f"
  else if (n =? 13)%nat then backslash ++ "r"
  else if (n =? 34)%nat then backslash ++ quote
  else if (n =? 92)%nat then backslash ++ backslash
  else if (n <? 32)%nat then
    backslash ++ "u00" ++ hex_digit (n / 16) ++ hex_digit (n mod 16)
  else String c EmptyString.

Fixpoint quote_body (s : string) : string :=
  match s with
  | EmptyString => ""
  | String c rest => quote_char c ++ quote_body rest
  end.

Definition quote_json (s : string) : string := quote ++ quote_body s ++ quote.

Definition json_number (n : number) : string :=
  match n with
  | Dec _ _ _ => number_to_string n
  | _ => "null"
  end.

(** [stringify gap indent v]: [None] is [undefined] (nothing to serialise);
    [gap] is the indentation unit, empty for the compact form. *)
Fixpoint stringify (gap indent : string) (v : value) : option string :=
  match v with
  | VUndef => None
  | VNull => Some "null"
  | VBool b => Some (if b then "true" else "false")
  | VNum n => Some (json_number n)
  | VStr s => Some (quote_json s)
  | VArr items =>
      let inner := indent ++ gap in
      let parts :=
        map (fun x => match stringify gap inner x with
                      | Some t => t
                      | None => "null"
                      end) items in
      Some (match parts with
            | [] => "[]"
            | _ =>
                if gap =? "" then "[" ++ join "," parts ++ "]"
                else "[" ++ newline ++ inner
                     ++ join ("," ++ newline ++ inner) parts
                     ++ newline ++ indent ++ "]"
            end)
  | VObj fields =>
      let inner := indent ++ gap in
      let parts :=
        flat_map (fun kv =>
                    match stringify gap inner (snd kv) with
                    | Some t =>
                        [quote_json (fst kv) ++ ":"
                         ++ (if gap =? "" then "" else " ") ++ t]
                    | None => []
                    end) fields in
      Some (match parts with
            | [] => "{}"
            | _ =>
                if gap =? "" then "{" ++ join "," parts ++ "}"
                else "{" ++ newline ++ inner
                     ++ join ("," ++ newline ++ inner) parts
                     ++ newline ++ indent ++ "}"
            end)
  end.

(** [JSON.stringify(v)] and [JSON.stringify(v, null, 2)]. *)
Definition JSON_stringify (v : value) : option string := stringify "" "" v.
Definition JSON_stringify_2 (v : value) : option string := stringify "  " "" v.

(** A template literal [`${x}`] of a value that may be [undefined]. *)
Definition template (o : option string) : string :=
  match o with Some s => s | None => "undefined" end.

(** [encodeURIComponent] on code units below 256. *)
Definition HEX (n : nat) : string := substring n 1 "0123456789ABCDEF".

Definition percent (n : nat) : string := "%" ++ HEX (n / 16) ++ HEX (n mod 16).

Definition is_unreserved (c : ascii) : bool :=
  let n := nat_of_ascii c in
  (((65 <=? n) && (n <=? 90)) || ((97 <=? n) && (n <=? 122)) || is_digit c
   || (n =? 45) || (n =? 95) || (n =? 46) || (n =? 33) || (n =? 126)
   || (n =? 42) || (n =? 39) || (n =? 40) || (n =? 41))%nat.

Definition encode_char (c : ascii) : string :=
  let n := nat_of_ascii c in
  if is_unreserved c then String c EmptyString
  else if (n <? 128)%nat then percent n
  else percent (192 + n / 64) ++ percent (128 + n mod 64).

Fixpoint encodeURIComponent (s : string) : string :=
  match s with
  | EmptyString => ""
  | String c rest => encode_char c ++ encodeURIComponent rest
  end.

End JS.

Import JS.

(* ------------------------------------------------------------------------- *)
(** ** The outside world and the effects of the program *)

Inductive method : Type := GET | POST | PUT | DELETE.

(** What [axios] is asked to send: the client configuration of
    [createClient] together with the arguments of the call. *)
Record request : Type := {
  req_method : method;
  req_baseURL : string;
  req_url : string;
  req_headers : list (string * string);
  req_timeout : Z;
  req_params : option value;  (* the query, [{ params }] *)
  req_data : option value     (* the body *)
}.

(** What comes back for a request: an answer with a status and a parsed
    body, nothing at all (the request went out: time-out, broken
    connection), or a failure before anything was sent. *)
Inductive wire : Type :=
| Answered (status : Z) (data : value)
| Silent (message : string)
| Unsent (message : string).

Inductive style : Type := red | yellow | cyan | green | white | dim | bold.

(** Everything the process reads from outside: the environment, the
    configuration file of [conf] ([None]: the key is absent from the file),
    the remote service, the colour support of the terminal, and the engine's
    [(x * 100).toFixed(4)], taken as it is given: [times100_toFixed4] in
    the worlds defined below. *)
Record world : Type := {
  env_TAXJAR_API_KEY : option string;
  env_TAXJAR_BASE_URL : option string;
  stored_apiKey : option string;
  stored_baseUrl : option string;
  config_path : string;
  respond : request -> wire;
  color_level : nat;
  percent4 : value -> string
}.

(** The object thrown and caught: the fields [handleError] looks at. *)
Record error : Type := {
  err_response : option (Z * value);  (* [error.response]: status, data *)
  err_request : bool;                 (* [error.request] is set *)
  err_message : string
}.

(** [new Error(message)], and the engine's TypeError. *)
Definition Error (message : string) : error :=
  {| err_response := None; err_request := false; err_message := message |}.

(** What commander writes by itself, before any action of the program
    runs; the wording is commander's. *)
Inductive notice : Type :=
| ShowVersion                       (* stdout: the text of .version(...) *)
| ShowHelp                          (* stdout: the help of the command *)
| MissingOption (flags : string)    (* stderr: required option not specified *)
| UnknownOption (name : string)     (* stderr: unknown option *)
| MissingArgument (name : string).  (* stderr: missing required argument *)

Inductive event : Type :=
| Log (line : string)               (* console.log *)
| LogError (line : string)          (* console.error *)
| SpinnerStart (text : string)      (* ora(text).start() *)
| SpinnerSucceed (text : string)
| SpinnerFail (text : string)
| Saved (key : string)              (* config.set('apiKey', key) *)
| Axios (req : request)             (* the call handed to axios *)
| Commander (n : notice).           (* what commander writes *)

Inductive outcome (A : Type) : Type :=
| Return (a : A)
| Throw (e : error)
| Exit (code : Z).                  (* process.exit(code) *)

Arguments Return {A} a.
Arguments Throw {A} e.
Arguments Exit {A} code.

(** A computation: the events it produced, in order, and how it ended. *)
Definition M (A : Type) : Type := list event * outcome A.

Definition ret {A} (a : A) : M A := ([], Return a).
Definition throw {A} (e : error) : M A := ([], Throw e).
Definition process_exit {A} (code : Z) : M A := ([], Exit code).
Definition emit (e : event) : M unit := ([e], Return tt).

Definition bind {A B} (m : M A) (f : A -> M B) : M B :=
  match m with
  | (tr, Return a) => let (tr', r) := f a in ((tr ++ tr')%list, r)
  | (tr, Throw e) => (tr, Throw e)
  | (tr, Exit c) => (tr, Exit c)
  end.

(** [try { body } catch (error) { handler(error) }]. *)
Definition try_catch {A} (body : M A) (handler : error -> M A) : M A :=
  match body with
  | (tr, Throw e) => let (tr', r) := handler e in ((tr ++ tr')%list, r)
  | other => other
  end.

Declare Scope js_scope.
Delimit Scope js_scope with js.
Notation "x <- m ;; k" := (bind m (fun x => k))
  (at level 61, m at next level, right associativity) : js_scope.
Notation "m ;; k" := (bind m (fun _ => k))
  (at level 61, right associativity) : js_scope.
Open Scope js_scope.

Definition trace {A} (m : M A) : list event := fst m.
Definition result {A} (m : M A) : outcome A := snd m.

(** The status the process ends with: an uncaught exception ends it with 1. *)
Definition exit_status {A} (m : M A) : Z :=
  match result m with
  | Return _ => 0%Z
  | Throw _ => 1%Z
  | Exit c => c
  end.

Definition requests {A} (m : M A) : list request :=
  flat_map (fun e => match e with Axios r => [r] | _ => [] end) (trace m).

Definition logged {A} (m : M A) : list string :=
  flat_map (fun e => match e with Log l => [l] | _ => [] end) (trace m).

Definition console_log (line : string) : M unit := emit (Log line).
Definition console_error (line : string) : M unit := emit (LogError line).

(** Reading a property in a place where [undefined] and [null] raise. *)
Definition prop (v : value) (k : string) : M value :=
  match get v k with
  | Some x => ret x
  | None =>
      throw (Error ("Cannot read properties of " ++ to_string v
                    ++ " (reading '" ++ k ++ "')"))
  end.

(** [x || fallback] where [x] is a string or [undefined]. *)
Definition or_str (x : option string) (fallback : string) : string :=
  match x with
  | Some s => if s =? "" then fallback else s
  | None => fallback
  end.

(* ------------------------------------------------------------------------- *)
(** ** chalk: a chain of styles wraps the text in its escape codes *)

Definition codes (st : style) : nat * nat :=
  match st with
  | red => (31, 39)
  | yellow => (33, 39)
  | cyan => (36, 39)
  | green => (32, 39)
  | white => (37, 39)
  | dim => (2, 22)
  | bold => (1, 22)
  end.

Definition sgr (n : nat) : string :=
  chr 27 ++ "[" ++ string_of_N (N.of_nat n) ++ "m".

Definition open_all (styles : list style) : string :=
  String.concat "" (map (fun st => sgr (fst (codes st))) styles).

Definition close_all (styles : list style) : string :=
  String.concat "" (map (fun st => sgr (snd (codes st))) (rev styles)).

(** Puts [ins] behind every occurrence of [sub]; [left] counts the code
    units of the occurrence being copied. *)
Fixpoint insert_after (sub ins : string) (left : nat) (s : string) : string :=
  match s with
  | EmptyString => ""
  | String c rest =>
      let n :=
        match left with
        | O => if prefix sub s then String.length sub else O
        | _ => left
        end in
      match n with
      | O => String c (insert_after sub ins O rest)
      | S O => String c (ins ++ insert_after sub ins O rest)
      | S k => String c (insert_after sub ins k rest)
      end
  end.

(** Styles are closed before a line break and opened again after it. *)
Fixpoint encase_lines (pre post : string) (after_cr : bool) (s : string)
  : string :=
  match s with
  | EmptyString => ""
  | String c rest =>
      if (nat_of_ascii c =? 10)%nat then
        (if after_cr then newline ++ post else pre ++ newline ++ post)
        ++ encase_lines pre post false rest
      else if ((nat_of_ascii c =? 13)%nat && prefix newline rest)%bool then
        pre ++ chr 13 ++ encase_lines pre post true rest
      else String c (encase_lines pre post false rest)
  end.

Definition chalk_at (level : nat) (styles : list style) (text : string)
  : string :=
  if ((level =? 0)%nat || (text =? ""))%bool then text
  else
    let reopened :=
      if includes text (chr 27) then
        fold_left (fun t st =>
                     insert_after (sgr (snd (codes st))) (sgr (fst (codes st)))
                                  O t)
                  (rev styles) text
      else text in
    open_all styles
    ++ encase_lines (close_all styles) (open_all styles) false reopened
    ++ close_all styles.

(* ------------------------------------------------------------------------- *)
(** ** The program, in a fixed world *)

Section Program.

Variable w : world.

Definition chalk (styles : list style) (text : string) : string :=
  chalk_at (color_level w) styles text.

(** *** config.js *)

(** [config.get(key)]: the value in the file, else the schema's default. *)
Definition config_get_apiKey : string :=
  match stored_apiKey w with Some s => s | None => "" end.

Definition config_get_baseUrl : string :=
  match stored_baseUrl w with
  | Some s => s
  | None => "https://api.taxjar.com/v2"
  end.

(** config.js, lines 18-28. *)
Definition getApiKey : M string :=
  let apiKey := or_str (env_TAXJAR_API_KEY w) config_get_apiKey in
  if apiKey =? "" then
    console_error (chalk [red] "Error: No API key configured.") ;;
    console_error (chalk [yellow] "Set your API key with:") ;;
    console_error (chalk [cyan] "  taxjar config set --api-key <your-api-key>") ;;
    console_error
      (chalk [yellow] "Or set the TAXJAR_API_KEY environment variable.") ;;
    process_exit 1
  else ret apiKey.

(** config.js, lines 30-32: the write is an event of the run; nothing reads
    the file again within the same run.  [stored_after] is what the file
    holds afterwards. *)
Definition setApiKey (key : string) : M unit := emit (Saved key).

Definition stored_after (events : list event) : option string :=
  fold_left (fun stored e => match e with Saved key => Some key | _ => stored end)
            events (stored_apiKey w).

Definition getBaseUrl : string :=
  or_str (env_TAXJAR_BASE_URL w) config_get_baseUrl.

Record shown : Type := {
  shown_apiKey : string;
  shown_baseUrl : string;
  shown_configPath : string
}.

(** config.js, lines 38-47.  The masked text of a non-empty key: *)
Definition mask (apiKey : string) : string :=
  slice apiKey 0 (Some 4%Z) ++ "****" ++ slice apiKey (-4) None.

Definition showConfig : shown :=
  let apiKey :=
    or_str (Some config_get_apiKey) (or_str (env_TAXJAR_API_KEY w) "") in
  let baseUrl := getBaseUrl in
  let masked := if apiKey =? "" then "(not set)" else mask apiKey in
  {| shown_apiKey := masked;
     shown_baseUrl := baseUrl;
     shown_configPath := config_path w |}.

(** *** api.js *)

Record client : Type := {
  baseURL : string;
  headers : list (string * string);
  timeout : Z
}.

(** api.js, lines 4-16. *)
Definition createClient : M client :=
  apiKey <- getApiKey ;;
  let baseUrl := getBaseUrl in
  ret {| baseURL := baseUrl;
         headers := [("Authorization", "Bearer " ++ apiKey);
                     ("Content-Type", "application/json")];
         timeout := 30000 |}.

Record response : Type := { status : Z; data : value }.

(** One call of the axios instance: the promise resolves on a 2xx answer
    and rejects otherwise. *)
Definition axios (c : client) (m : method) (url : string)
           (params body : option value) : M response :=
  let req := {| req_method := m; req_baseURL := baseURL c; req_url := url;
                req_headers := headers c; req_timeout := timeout c;
                req_params := params; req_data := body |} in
  emit (Axios req) ;;
  match respond w req with
  | Answered st d =>
      if ((200 <=? st) && (st <? 300))%Z then ret {| status := st; data := d |}
      else throw {| err_response := Some (st, d); err_request := true;
                    err_message :=
                      "Request failed with status code " ++ string_of_Z st |}
  | Silent msg =>
      throw {| err_response := None; err_request := true;
               err_message := msg |}
  | Unsent msg => throw (Error msg)
  end.

Definition client_get (c : client) (url : string) (params : option value) :=
  axios c GET url params None.
Definition client_post (c : client) (url : string) (body : value) :=
  axios c POST url None (Some body).
Definition client_put (c : client) (url : string) (body : value) :=
  axios c PUT url None (Some body).
Definition client_delete (c : client) (url : string) :=
  axios c DELETE url None None.

(** api.js, lines 18-28.  The message of the error thrown for an answer: *)
Definition api_error_message (st : Z) (d : value) : string :=
  let found := or_else (get_opt d "detail") (get_opt d "error") in
  let message :=
    if truthy found then to_string found else template (JSON_stringify d) in
  "TaxJar API Error (" ++ string_of_Z st ++ "): " ++ message.

Definition network_error_message : string :=
  "Network error: No response received from TaxJar API. Check your internet connection.".

Definition handleError {A} (e : error) : M A :=
  match err_response e with
  | Some (st, d) => throw (Error (api_error_message st d))
  | None =>
      if err_request e then throw (Error network_error_message)
      else throw (Error ("Request error: " ++ err_message e))
  end.

(** api.js, lines 31-186.  The shape every exported function has: a
    client (outside the [try]), one call, one field of [response.data], any
    failure through [handleError]. *)
Definition unwrap (field : string) (call : client -> M response) : M value :=
  c <- createClient ;;
  try_catch (r <- call c ;; prop (data r) field) handleError.

Definition calculateTax (params : value) : M value :=
  unwrap "tax" (fun c => client_post c "/taxes" params).

Definition getRates (zip : string) (params : value) : M value :=
  unwrap "rate"
    (fun c => client_get c ("/rates/" ++ encodeURIComponent zip) (Some params)).

Definition getNexusRegions : M value :=
  unwrap "regions" (fun c => client_get c "/nexus/regions" None).

Definition getCategories : M value :=
  unwrap "categories" (fun c => client_get c "/categories" None).

Definition listOrders (params : value) : M value :=
  unwrap "orders" (fun c => client_get c "/transactions/orders" (Some params)).

Definition getOrder (transactionId : string) : M value :=
  unwrap "order"
    (fun c => client_get c ("/transactions/orders/"
                            ++ encodeURIComponent transactionId) None).

Definition createOrder (params : value) : M value :=
  unwrap "order" (fun c => client_post c "/transactions/orders" params).

Definition updateOrder (transactionId : string) (params : value) : M value :=
  unwrap "order"
    (fun c => client_put c ("/transactions/orders/"
                            ++ encodeURIComponent transactionId) params).

Definition deleteOrder (transactionId : string) : M value :=
  unwrap "order"
    (fun c => client_delete c ("/transactions/orders/"
                               ++ encodeURIComponent transactionId)).

Definition listRefunds (params : value) : M value :=
  unwrap "refunds"
    (fun c => client_get c "/transactions/refunds" (Some params)).

Definition getRefund (transactionId : string) : M value :=
  unwrap "refund"
    (fun c => client_get c ("/transactions/refunds/"
                            ++ encodeURIComponent transactionId) None).

Definition createRefund (params : value) : M value :=
  unwrap "refund" (fun c => client_post c "/transactions/refunds" params).

Definition validateAddress (params : value) : M value :=
  unwrap "addresses" (fun c => client_post c "/addresses/validate" params).

Definition validateVat (vat : string) : M value :=
  unwrap "validation"
    (fun c => client_get c "/validation" (Some (VObj [("vat", VStr vat)]))).

Definition getSummaryRates : M value :=
  unwrap "summary_rates" (fun c => client_get c "/summary_rates" None).

(** *** index.js *)

Definition box : string := chr 226 ++ chr 148 ++ chr 128.   (* U+2500 *)
Definition rule (n : nat) : string := repeat_str box n.
Definition check_mark : string := chr 226 ++ chr 156 ++ chr 147.  (* U+2713 *)

Definition spinner_start (text : string) : M unit := emit (SpinnerStart text).
Definition spinner_succeed (text : string) : M unit :=
  emit (SpinnerSucceed text).
Definition spinner_fail (text : string) : M unit := emit (SpinnerFail text).

Definition when (b : bool) (m : M unit) : M unit := if b then m else ret tt.

Fixpoint mapM {A B} (f : A -> M B) (l : list A) : M (list B) :=
  match l with
  | [] => ret []
  | x :: rest => y <- f x ;; ys <- mapM f rest ;; ret (y :: ys)
  end.

Fixpoint forEach {A} (f : A -> M unit) (l : list A) : M unit :=
  match l with
  | [] => ret tt
  | x :: rest => f x ;; forEach f rest
  end.

(** The items of [v] for [v.forEach] and [v.map]: only an array has them. *)
Definition items_for (name method_name : string) (v : value)
  : M (list value) :=
  match v with
  | VArr items => ret items
  | _ => throw (Error (name ++ "." ++ method_name ++ " is not a function"))
  end.

(** index.js, lines 25-31. *)
Definition printJson (data : value) : M unit :=
  console_log (template (JSON_stringify_2 data)).

Definition printSuccess (message : string) : M unit :=
  console_log (chalk [green] check_mark ++ " " ++ message).

(** index.js, lines 33-56: [printTable]. *)
Record column : Type := { key : string; label : string }.

Definition width_of (colWidths : list (string * nat)) (k : string) : nat :=
  match assoc k colWidths with Some n => n | None => O end.

(** [String(row[col.key] ?? '')]. *)
Definition cell (row : value) (col : column) : M string :=
  v <- prop row (key col) ;; ret (to_string (coalesce v (VStr ""))).

Fixpoint widen (col : column) (rows : list value)
         (colWidths : list (string * nat)) : M (list (string * nat)) :=
  match rows with
  | [] => ret colWidths
  | row :: rest =>
      val <- cell row col ;;
      widen col rest
        (assign (key col)
                (Nat.max (width_of colWidths (key col)) (String.length val))
                colWidths)
  end.

Fixpoint measure (data : value) (columns : list column)
         (colWidths : list (string * nat)) : M (list (string * nat)) :=
  match columns with
  | [] => ret colWidths
  | col :: rest =>
      let colWidths := assign (key col) (String.length (label col)) colWidths in
      rows <- items_for "data" "forEach" data ;;
      colWidths <- widen col rows colWidths ;;
      measure data rest colWidths
  end.

Definition printTable (data : value) (columns : list column) : M unit :=
  if (negb (truthy data) || is_zero (get_opt data "length"))%bool then
    console_log (chalk [yellow] "No results found.")
  else
    colWidths <- measure data columns [] ;;
    let header :=
      join "  " (map (fun col => padEnd (label col) (width_of colWidths (key col)))
                     columns) in
    let separator :=
      join "  " (map (fun col => repeat_str "-" (width_of colWidths (key col)))
                     columns) in
    console_log (chalk [bold; cyan] header) ;;
    console_log (chalk [dim] separator) ;;
    rows <- items_for "data" "forEach" data ;;
    forEach (fun row =>
               cells <- mapM (fun col =>
                                val <- cell row col ;;
                                ret (padEnd val (width_of colWidths (key col))))
                             columns ;;
               console_log (join "  " cells))
            rows.

(** The options object commander hands to an action. *)
Definition options : Type := list (string * value).

Definition opt (o : options) (k : string) : value :=
  match assoc k o with Some v => v | None => VUndef end.

(** [if (v) params.k = v]. *)
Definition assign_if (k : string) (v : value) (params : list (string * value))
  : list (string * value) :=
  if truthy v then assign k v params else params.

(** [if (v) params.k = parseFloat(v)]. *)
Definition assign_float_if (k : string) (v : value)
           (params : list (string * value)) : list (string * value) :=
  if truthy v then assign k (VNum (parseFloat (to_string v))) params
  else params.

(** The [catch] block every action ends with. *)
Definition fail_with (text : string) (e : error) : M unit :=
  spinner_fail text ;;
  console_error (chalk [red] (err_message e)) ;;
  process_exit 1.

(** [if (obj.field) console.log(line(obj.field))]. *)
Definition log_if (obj : value) (field : string) (line : value -> string)
  : M unit :=
  v <- prop obj field ;; when (truthy v) (console_log (line v)).

Definition yes_no (v : value) : string := if truthy v then "Yes" else "No".

Definition float_of (v : value) : value := VNum (parseFloat (to_string v)).

(** index.js, lines 62-82. *)
Definition config_set (o : options) : M unit :=
  setApiKey (to_string (opt o "apiKey")) ;;
  printSuccess "API key saved successfully." ;;
  console_log
    (chalk [dim] "You can also set TAXJAR_API_KEY as an environment variable.").

Definition config_show : M unit :=
  let cfg := showConfig in
  console_log (chalk [bold] "TaxJar CLI Configuration") ;;
  console_log (chalk [dim] (rule 25)) ;;
  console_log ("API Key:     " ++ chalk [cyan] (shown_apiKey cfg)) ;;
  console_log ("Base URL:    " ++ chalk [cyan] (shown_baseUrl cfg)) ;;
  console_log ("Config file: " ++ chalk [dim] (shown_configPath cfg)).

(** index.js, lines 88-163: [tax calculate]. *)
Definition tax_calculate_params (o : options) : value :=
  let params :=
    [("from_country", opt o "fromCountry");
     ("from_zip", opt o "fromZip");
     ("from_state", opt o "fromState");
     ("to_country", opt o "toCountry");
     ("to_zip", opt o "toZip");
     ("to_state", opt o "toState");
     ("amount", float_of (opt o "amount"));
     ("shipping", float_of (opt o "shipping"))] in
  let params := assign_if "from_city" (opt o "fromCity") params in
  let params := assign_if "from_street" (opt o "fromStreet") params in
  let params := assign_if "to_city" (opt o "toCity") params in
  let params := assign_if "to_street" (opt o "toStreet") params in
  VObj params.

Definition tax_breakdown (breakdown : value) : M unit :=
  console_log "" ;;
  console_log (chalk [bold] "Breakdown") ;;
  console_log (chalk [dim] (rule 9)) ;;
  log_if breakdown "state_tax_collectable"
    (fun v => "State Tax:          " ++ chalk [white] ("$" ++ to_string v)) ;;
  log_if breakdown "county_tax_collectable"
    (fun v => "County Tax:         " ++ chalk [white] ("$" ++ to_string v)) ;;
  log_if breakdown "city_tax_collectable"
    (fun v => "City Tax:           " ++ chalk [white] ("$" ++ to_string v)) ;;
  log_if breakdown "special_district_tax_collectable"
    (fun v => "Special District:   " ++ chalk [white] ("$" ++ to_string v)).

Definition tax_calculate (o : options) : M unit :=
  spinner_start "Calculating tax..." ;;
  try_catch
    (let params := tax_calculate_params o in
     result <- calculateTax params ;;
     spinner_succeed "Tax calculated" ;;
     if truthy (opt o "json") then printJson result
     else
       console_log "" ;;
       console_log (chalk [bold] "Tax Calculation Result") ;;
       console_log (chalk [dim] (rule 22)) ;;
       console_log ("Order Amount:       "
                    ++ chalk [white] ("$" ++ to_string (opt o "amount"))) ;;
       taxable_amount <- prop result "taxable_amount" ;;
       console_log ("Taxable Amount:     "
                    ++ chalk [white] ("$" ++ to_string taxable_amount)) ;;
       console_log ("Shipping:           "
                    ++ chalk [white] ("$" ++ to_string (opt o "shipping"))) ;;
       freight_taxable <- prop result "freight_taxable" ;;
       console_log ("Freight Taxable:    "
                    ++ chalk [white] (yes_no freight_taxable)) ;;
       rate <- prop result "rate" ;;
       console_log ("Tax Rate:           "
                    ++ chalk [cyan] (percent4 w rate ++ "%")) ;;
       amount_to_collect <- prop result "amount_to_collect" ;;
       console_log ("Tax to Collect:     "
                    ++ chalk [green; bold] ("$" ++ to_string amount_to_collect)) ;;
       has_nexus <- prop result "has_nexus" ;;
       console_log ("Has Nexus:          " ++ chalk [white] (yes_no has_nexus)) ;;
       breakdown <- prop result "breakdown" ;;
       when (truthy breakdown) (tax_breakdown breakdown))
    (fail_with "Tax calculation failed").

(** index.js, lines 169-214: [rates get]. *)
Definition rates_get_params (o : options) : value :=
  let params := [("country", opt o "country")] in
  let params := assign_if "city" (opt o "city") params in
  let params := assign_if "street" (opt o "street") params in
  let params := assign_if "state" (opt o "state") params in
  VObj params.

Definition rate_line (text : string) (styles : list style) (v : value)
  : string :=
  text ++ chalk styles (percent4 w (float_of v) ++ "%").

Definition rates_get (o : options) : M unit :=
  spinner_start ("Fetching rates for " ++ to_string (opt o "zip") ++ "...") ;;
  try_catch
    (let params := rates_get_params o in
     rate <- getRates (to_string (opt o "zip")) params ;;
     spinner_succeed "Rates retrieved" ;;
     if truthy (opt o "json") then printJson rate
     else
       console_log "" ;;
       console_log (chalk [bold] ("Tax Rates for " ++ to_string (opt o "zip")
                                  ++ " (" ++ to_string (opt o "country") ++ ")")) ;;
       console_log (chalk [dim] (rule 34)) ;;
       log_if rate "city"
         (fun v => "City:               " ++ chalk [white] (to_string v)) ;;
       log_if rate "state"
         (fun v => "State:              " ++ chalk [white] (to_string v)) ;;
       log_if rate "county"
         (fun v => "County:             " ++ chalk [white] (to_string v)) ;;
       console_log "" ;;
       log_if rate "state_rate" (rate_line "State Rate:         " [cyan]) ;;
       log_if rate "county_rate" (rate_line "County Rate:        " [cyan]) ;;
       log_if rate "city_rate" (rate_line "City Rate:          " [cyan]) ;;
       log_if rate "combined_district_rate"
         (rate_line "District Rate:      " [cyan]) ;;
       combined_rate <- prop rate "combined_rate" ;;
       console_log (rate_line "Combined Rate:      " [green; bold] combined_rate) ;;
       freight_taxable <- prop rate "freight_taxable" ;;
       when (match freight_taxable with VUndef => false | _ => true end)
            (console_log ("Freight Taxable:    "
                          ++ chalk [white] (yes_no freight_taxable))))
    (fail_with "Failed to fetch rates").

(** index.js, lines 216-244: [rates summary] and its columns. *)
Definition summary_columns : list column :=
  [ {| key := "country_code"; label := "Country" |};
    {| key := "country"; label := "Country Name" |};
    {| key := "region_code"; label := "Region" |};
    {| key := "region"; label := "Region Name" |};
    {| key := "minimum_rate.rate"; label := "Min Rate" |};
    {| key := "average_rate.rate"; label := "Avg Rate" |} ].

Definition rates_summary (o : options) : M unit :=
  spinner_start "Fetching summary rates..." ;;
  try_catch
    (rates <- getSummaryRates ;;
     len <- prop rates "length" ;;
     spinner_succeed ("Retrieved " ++ to_string len ++ " region summaries") ;;
     if truthy (opt o "json") then printJson rates
     else printTable rates summary_columns)
    (fail_with "Failed to fetch summary rates").

(** index.js, lines 250-276 and 282-307. *)
Definition nexus_list (o : options) : M unit :=
  spinner_start "Fetching nexus regions..." ;;
  try_catch
    (regions <- getNexusRegions ;;
     len <- prop regions "length" ;;
     spinner_succeed ("Found " ++ to_string len ++ " nexus region(s)") ;;
     if truthy (opt o "json") then printJson regions
     else
       printTable regions
         [ {| key := "country_code"; label := "Country" |};
           {| key := "country"; label := "Country Name" |};
           {| key := "region_code"; label := "State/Region" |};
           {| key := "region"; label := "Region Name" |} ])
    (fail_with "Failed to fetch nexus regions").

Definition categories_list (o : options) : M unit :=
  spinner_start "Fetching categories..." ;;
  try_catch
    (categories <- getCategories ;;
     len <- prop categories "length" ;;
     spinner_succeed ("Found " ++ to_string len ++ " categories") ;;
     if truthy (opt o "json") then printJson categories
     else
       printTable categories
         [ {| key := "product_tax_code"; label := "Tax Code" |};
           {| key := "name"; label := "Name" |};
           {| key := "description"; label := "Description" |} ])
    (fail_with "Failed to fetch categories").

(** [list.map(id => ({ transaction_id: id }))]. *)
Definition as_transaction_rows (name : string) (list : value) : M value :=
  ids <- items_for name "map" list ;;
  ret (VArr (map (fun id => VObj [("transaction_id", id)]) ids)).

(** index.js, lines 313-350: [orders list]. *)
Definition orders_list_params (o : options) : value :=
  let params := [] in
  let params := assign_if "from_transaction_date" (opt o "fromDate") params in
  let params := assign_if "to_transaction_date" (opt o "toDate") params in
  let params := assign_if "status" (opt o "status") params in
  VObj params.

Definition orders_list (o : options) : M unit :=
  spinner_start "Fetching orders..." ;;
  try_catch
    (let params := orders_list_params o in
     orders <- listOrders params ;;
     len <- prop orders "length" ;;
     spinner_succeed ("Found " ++ to_string len ++ " order(s)") ;;
     if truthy (opt o "json") then printJson orders
     else if is_zero len then
       console_log (chalk [yellow] "No orders found for the given criteria.")
     else
       rows <- as_transaction_rows "orders" orders ;;
       printTable rows [ {| key := "transaction_id"; label := "Transaction ID" |} ] ;;
       console_log
         (chalk [dim]
            (newline
             ++ "Use `taxjar orders get <transaction-id>` to see order details.")))
    (fail_with "Failed to fetch orders").

(** [`${o.city || ''}, ${o.state || ''} ${o.zip || ''} ${o.country}`.trim()]. *)
Definition place (order : value) (side : string) : string :=
  let part k := to_string (or_else (get_opt order (side ++ k)) (VStr "")) in
  trim (part "_city" ++ ", " ++ part "_state" ++ " " ++ part "_zip" ++ " "
        ++ to_string (get_opt order (side ++ "_country"))).

(** index.js, lines 352-394: [orders get]. *)
Definition orders_get (transactionId : string) (o : options) : M unit :=
  spinner_start ("Fetching order " ++ transactionId ++ "...") ;;
  try_catch
    (order <- getOrder transactionId ;;
     spinner_succeed "Order retrieved" ;;
     if truthy (opt o "json") then printJson order
     else
       console_log "" ;;
       transaction_id <- prop order "transaction_id" ;;
       console_log (chalk [bold] ("Order: " ++ to_string transaction_id)) ;;
       console_log (chalk [dim] (rule 34)) ;;
       transaction_date <- prop order "transaction_date" ;;
       console_log ("Transaction Date:   "
                    ++ chalk [white] (to_string transaction_date)) ;;
       amount <- prop order "amount" ;;
       console_log ("Amount:             "
                    ++ chalk [white] ("$" ++ to_string amount)) ;;
       shipping <- prop order "shipping" ;;
       console_log ("Shipping:           "
                    ++ chalk [white] ("$" ++ to_string shipping)) ;;
       sales_tax <- prop order "sales_tax" ;;
       console_log ("Sales Tax:          "
                    ++ chalk [green] ("$" ++ to_string sales_tax)) ;;
       log_if order "to_country"
         (fun _ => "Destination:        " ++ chalk [white] (place order "to")) ;;
       log_if order "from_country"
         (fun _ => "Origin:             " ++ chalk [white] (place order "from")) ;;
       line_items <- prop order "line_items" ;;
       when (truthy line_items && gt_zero (get_opt line_items "length"))%bool
            (console_log "" ;;
             console_log (chalk [bold] "Line Items") ;;
             console_log (chalk [dim] (rule 10)) ;;
             printTable line_items
               [ {| key := "id"; label := "ID" |};
                 {| key := "description"; label := "Description" |};
                 {| key := "quantity"; label := "Qty" |};
                 {| key := "unit_price"; label := "Unit Price" |};
                 {| key := "sales_tax"; label := "Sales Tax" |} ]))
    (fail_with "Failed to fetch order").

(** The three lines printed for a created or updated transaction. *)
Definition transaction_summary (amount_label : string) (t : value) : M unit :=
  transaction_id <- prop t "transaction_id" ;;
  console_log ("Transaction ID:  " ++ chalk [cyan] (to_string transaction_id)) ;;
  amount <- prop t "amount" ;;
  console_log (amount_label ++ chalk [white] ("$" ++ to_string amount)) ;;
  sales_tax <- prop t "sales_tax" ;;
  console_log ("Sales Tax:       " ++ chalk [green] ("$" ++ to_string sales_tax)).

(** index.js, lines 396-448: [orders create]. *)
Definition orders_create_params (o : options) : value :=
  let params :=
    [("transaction_id", opt o "transactionId");
     ("transaction_date", opt o "transactionDate");
     ("to_country", opt o "toCountry");
     ("to_zip", opt o "toZip");
     ("to_state", opt o "toState");
     ("amount", float_of (opt o "amount"));
     ("shipping", float_of (opt o "shipping"));
     ("sales_tax", float_of (opt o "salesTax"))] in
  let params := assign_if "from_country" (opt o "fromCountry") params in
  let params := assign_if "from_zip" (opt o "fromZip") params in
  let params := assign_if "from_state" (opt o "fromState") params in
  let params := assign_if "to_city" (opt o "toCity") params in
  let params := assign_if "from_city" (opt o "fromCity") params in
  VObj params.

Definition orders_create (o : options) : M unit :=
  spinner_start "Creating order..." ;;
  try_catch
    (let params := orders_create_params o in
     order <- createOrder params ;;
     spinner_succeed "Order created successfully" ;;
     if truthy (opt o "json") then printJson order
     else transaction_summary "Amount:          " order)
    (fail_with "Failed to create order").

(** index.js, lines 450-483: [orders update]. *)
Definition orders_update_params (transactionId : string) (o : options)
  : value :=
  let params := [("transaction_id", VStr transactionId)] in
  let params := assign_float_if "amount" (opt o "amount") params in
  let params := assign_float_if "shipping" (opt o "shipping") params in
  let params := assign_float_if "sales_tax" (opt o "salesTax") params in
  let params := assign_if "transaction_date" (opt o "transactionDate") params in
  VObj params.

Definition orders_update (transactionId : string) (o : options) : M unit :=
  spinner_start ("Updating order " ++ transactionId ++ "...") ;;
  try_catch
    (let params := orders_update_params transactionId o in
     order <- updateOrder transactionId params ;;
     spinner_succeed "Order updated successfully" ;;
     if truthy (opt o "json") then printJson order
     else transaction_summary "Amount:          " order)
    (fail_with "Failed to update order").

(** index.js, lines 485-506: [orders delete]. *)
Definition orders_delete (transactionId : string) (o : options) : M unit :=
  spinner_start ("Deleting order " ++ transactionId ++ "...") ;;
  try_catch
    (order <- deleteOrder transactionId ;;
     spinner_succeed "Order deleted successfully" ;;
     if truthy (opt o "json") then printJson order
     else console_log ("Deleted transaction: " ++ chalk [cyan] transactionId))
    (fail_with "Failed to delete order").

(** index.js, lines 512-620: the refunds. *)
Definition refunds_list_params (o : options) : value :=
  let params := [] in
  let params := assign_if "from_transaction_date" (opt o "fromDate") params in
  let params := assign_if "to_transaction_date" (opt o "toDate") params in
  VObj params.

Definition refunds_list (o : options) : M unit :=
  spinner_start "Fetching refunds..." ;;
  try_catch
    (let params := refunds_list_params o in
     refunds <- listRefunds params ;;
     len <- prop refunds "length" ;;
     spinner_succeed ("Found " ++ to_string len ++ " refund(s)") ;;
     if truthy (opt o "json") then printJson refunds
     else if is_zero len then
       console_log (chalk [yellow] "No refunds found for the given criteria.")
     else
       rows <- as_transaction_rows "refunds" refunds ;;
       printTable rows [ {| key := "transaction_id"; label := "Transaction ID" |} ])
    (fail_with "Failed to fetch refunds").

Definition refunds_get (transactionId : string) (o : options) : M unit :=
  spinner_start ("Fetching refund " ++ transactionId ++ "...") ;;
  try_catch
    (refund <- getRefund transactionId ;;
     spinner_succeed "Refund retrieved" ;;
     if truthy (opt o "json") then printJson refund
     else
       console_log "" ;;
       transaction_id <- prop refund "transaction_id" ;;
       console_log (chalk [bold] ("Refund: " ++ to_string transaction_id)) ;;
       console_log (chalk [dim] (rule 34)) ;;
       transaction_date <- prop refund "transaction_date" ;;
       console_log ("Transaction Date:   "
                    ++ chalk [white] (to_string transaction_date)) ;;
       amount <- prop refund "amount" ;;
       console_log ("Refund Amount:      "
                    ++ chalk [white] ("$" ++ to_string amount)) ;;
       sales_tax <- prop refund "sales_tax" ;;
       console_log ("Sales Tax Refund:   "
                    ++ chalk [green] ("$" ++ to_string sales_tax)))
    (fail_with "Failed to fetch refund").

Definition refunds_create_params (o : options) : value :=
  VObj
    [("transaction_id", opt o "transactionId");
     ("transaction_date", opt o "transactionDate");
     ("transaction_reference_id", opt o "transactionReferenceId");
     ("to_country", opt o "toCountry");
     ("to_zip", opt o "toZip");
     ("to_state", opt o "toState");
     ("amount", float_of (opt o "amount"));
     ("shipping", float_of (opt o "shipping"));
     ("sales_tax", float_of (opt o "salesTax"))].

Definition refunds_create (o : options) : M unit :=
  spinner_start "Creating refund..." ;;
  try_catch
    (let params := refunds_create_params o in
     refund <- createRefund params ;;
     spinner_succeed "Refund created successfully" ;;
     if truthy (opt o "json") then printJson refund
     else transaction_summary "Refund Amount:   " refund)
    (fail_with "Failed to create refund").

(** index.js, lines 626-695: [validate address] and [validate vat]. *)
Definition validate_address_params (o : options) : value :=
  let params := [("country", opt o "country")] in
  let params := assign_if "state" (opt o "state") params in
  let params := assign_if "zip" (opt o "zip") params in
  let params := assign_if "city" (opt o "city") params in
  let params := assign_if "street" (opt o "street") params in
  VObj params.

(** [addresses.forEach((addr, i) => ...)], [i] counted from [from]. *)
Fixpoint print_matches (from : nat) (addresses : list value) : M unit :=
  match addresses with
  | [] => ret tt
  | addr :: rest =>
      console_log "" ;;
      console_log (chalk [bold]
                     ("Match " ++ number_to_string (of_nat (from + 1)) ++ ":")) ;;
      log_if addr "street"
        (fun v => "Street:  " ++ chalk [white] (to_string v)) ;;
      log_if addr "city" (fun v => "City:    " ++ chalk [white] (to_string v)) ;;
      log_if addr "state" (fun v => "State:   " ++ chalk [white] (to_string v)) ;;
      log_if addr "zip" (fun v => "ZIP:     " ++ chalk [white] (to_string v)) ;;
      log_if addr "country"
        (fun v => "Country: " ++ chalk [white] (to_string v)) ;;
      print_matches (S from) rest
  end.

Definition validate_address (o : options) : M unit :=
  spinner_start "Validating address..." ;;
  try_catch
    (let params := validate_address_params o in
     addresses <- validateAddress params ;;
     len <- prop addresses "length" ;;
     spinner_succeed ("Found " ++ to_string len ++ " address match(es)") ;;
     if truthy (opt o "json") then printJson addresses
     else
       items <- items_for "addresses" "forEach" addresses ;;
       print_matches 0 items)
    (fail_with "Address validation failed").

Definition validate_vat (vatNumber : string) (o : options) : M unit :=
  spinner_start ("Validating VAT: " ++ vatNumber ++ "...") ;;
  try_catch
    (result <- validateVat vatNumber ;;
     spinner_succeed "VAT validation complete" ;;
     if truthy (opt o "json") then printJson result
     else
       console_log "" ;;
       console_log (chalk [bold] "VAT Validation Result") ;;
       console_log (chalk [dim] (rule 21)) ;;
       vat_number <- prop result "vat_number" ;;
       console_log ("VAT Number:  " ++ chalk [white] (to_string vat_number)) ;;
       valid <- prop result "valid" ;;
       console_log ("Valid:       "
                    ++ (if truthy valid then chalk [green] "Yes"
                        else chalk [red] "No")) ;;
       log_if result "name"
         (fun v => "Name:        " ++ chalk [white] (to_string v)) ;;
       log_if result "country_code"
         (fun v => "Country:     " ++ chalk [white] (to_string v)))
    (fail_with "VAT validation failed").

(** *** The command tree: what commander is told, and what it does with it

    commander is a dependency of the program and its code is no part of
    the sources.  [declared] is what index.js tells it, call by call;
    [parseOptions] and [with_argument] are a model of what commander does
    with a command line and these declarations before it calls the action
    ([Command._parseCommand]): the program's [--version] and the command's
    [--help] are answered first and end the process with status 0; then a
    missing option of [requiredOption], then an option that is not
    declared, then a missing positional argument end it with status 1 and
    one line on stderr.  An option written more than once keeps its last
    text. *)

Inductive command : Type :=
| ConfigSet | ConfigShow
| TaxCalculate
| RatesGet | RatesSummary
| NexusList
| CategoriesList
| OrdersList | OrdersGet | OrdersCreate | OrdersUpdate | OrdersDelete
| RefundsList | RefundsGet | RefundsCreate
| ValidateAddress | ValidateVat.

(** [.requiredOption(flags)] and [.option(flags, description, default)]. *)
Inductive declaration : Type :=
| requiredOption (flags : string)
| option_ (flags : string) (default : option string).

Definition flags_of (d : declaration) : string :=
  match d with requiredOption f => f | option_ f _ => f end.

Definition is_required (d : declaration) : bool :=
  match d with requiredOption _ => true | option_ _ _ => false end.

Definition default_of (d : declaration) : value :=
  match d with
  | option_ _ (Some text) => VStr text
  | _ => VUndef
  end.

(** The long name is the text before the first space: [--from-zip]. *)
Fixpoint first_word (s : string) : string :=
  match s with
  | EmptyString => ""
  | String c rest =>
      if (nat_of_ascii c =? 32)%nat then "" else String c (first_word rest)
  end.

Definition long_name (d : declaration) : string := first_word (flags_of d).

Definition upper (c : ascii) : ascii :=
  let n := nat_of_ascii c in
  if ((97 <=? n) && (n <=? 122))%nat then ascii_of_nat (n - 32) else c.

Fixpoint camelcase (up : bool) (s : string) : string :=
  match s with
  | EmptyString => ""
  | String c rest =>
      if (nat_of_ascii c =? 45)%nat then camelcase true rest
      else String (if up then upper c else c) (camelcase false rest)
  end.

(** The property of the options object: [--from-zip] is [fromZip]. *)
Definition attribute (d : declaration) : string :=
  let long := long_name d in
  camelcase false (substring 2 (String.length long - 2) long).

Definition json_flag : declaration := option_ "--json" None.

Definition declared (c : command) : list declaration :=
  match c with
  | ConfigSet => [requiredOption "--api-key <key>"]
  | ConfigShow => []
  | TaxCalculate =>
      [requiredOption "--from-country <code>";
       requiredOption "--from-zip <zip>";
       requiredOption "--from-state <state>";
       requiredOption "--to-country <code>";
       requiredOption "--to-zip <zip>";
       requiredOption "--to-state <state>";
       requiredOption "--amount <amount>";
       option_ "--shipping <amount>" (Some "0");
       option_ "--from-city <city>" None;
       option_ "--from-street <street>" None;
       option_ "--to-city <city>" None;
       option_ "--to-street <street>" None;
       json_flag]
  | RatesGet =>
      [requiredOption "--zip <zip>";
       option_ "--country <code>" (Some "US");
       option_ "--city <city>" None;
       option_ "--street <street>" None;
       option_ "--state <state>" None;
       json_flag]
  | RatesSummary | NexusList | CategoriesList => [json_flag]
  | OrdersList =>
      [option_ "--from-date <date>" None;
       option_ "--to-date <date>" None;
       option_ "--status <status>" None;
       json_flag]
  | OrdersGet | OrdersDelete | RefundsGet | ValidateVat => [json_flag]
  | OrdersCreate =>
      [requiredOption "--transaction-id <id>";
       requiredOption "--transaction-date <date>";
       requiredOption "--to-country <code>";
       requiredOption "--to-zip <zip>";
       requiredOption "--to-state <state>";
       requiredOption "--amount <amount>";
       requiredOption "--shipping <amount>";
       requiredOption "--sales-tax <tax>";
       option_ "--from-country <code>" None;
       option_ "--from-zip <zip>" None;
       option_ "--from-state <state>" None;
       option_ "--to-city <city>" None;
       option_ "--from-city <city>" None;
       json_flag]
  | OrdersUpdate =>
      [option_ "--amount <amount>" None;
       option_ "--shipping <amount>" None;
       option_ "--sales-tax <tax>" None;
       option_ "--transaction-date <date>" None;
       json_flag]
  | RefundsList =>
      [option_ "--from-date <date>" None;
       option_ "--to-date <date>" None;
       json_flag]
  | RefundsCreate =>
      [requiredOption "--transaction-id <id>";
       requiredOption "--transaction-date <date>";
       requiredOption "--transaction-reference-id <id>";
       requiredOption "--to-country <code>";
       requiredOption "--to-zip <zip>";
       requiredOption "--to-state <state>";
       requiredOption "--amount <amount>";
       requiredOption "--shipping <amount>";
       requiredOption "--sales-tax <tax>";
       json_flag]
  | ValidateAddress =>
      [requiredOption "--country <code>";
       option_ "--state <state>" None;
       option_ "--zip <zip>" None;
       option_ "--city <city>" None;
       option_ "--street <street>" None;
       json_flag]
  end.

(** The name of the positional argument, for the commands that take one. *)
Definition argument_of (c : command) : option string :=
  match c with
  | OrdersGet | OrdersUpdate | OrdersDelete | RefundsGet =>
      Some "transaction-id"
  | ValidateVat => Some "vat-number"
  | _ => None
  end.

(** A command line as commander reads it: the command it names, the
    positional argument if one was written, and the flags in the order
    they were written, each with the text that follows it ([VBool true]
    for a flag that takes none). *)
Record invocation : Type := {
  inv_command : command;
  inv_argument : option string;
  inv_flags : list (string * value)
}.

(** commander writes and ends the process: [process.exit(code)]. *)
Definition commander_exit (n : notice) (code : Z) {A} : M A :=
  emit (Commander n) ;; process_exit code.

Definition commander_error (n : notice) {A} : M A := commander_exit n 1.

(** The text a flag has on the command line: commander sets the option at
    every occurrence of the flag, so the text of the last one stays. *)
Fixpoint written {A} (name : string) (given : list (string * A)) : option A :=
  match given with
  | [] => None
  | (name', v) :: rest =>
      match written name rest with
      | Some later => Some later
      | None => if name' =? name then Some v else None
      end
  end.

(** The value of a declared flag: what was written, else its default. *)
Definition flag_value (given : list (string * value)) (d : declaration)
  : value :=
  match written (long_name d) given with
  | Some v => v
  | None => default_of d
  end.

Definition is_undefined (v : value) : bool :=
  match v with VUndef => true | _ => false end.

Definition collect (decls : list declaration) (given : list (string * value))
  : options :=
  flat_map (fun d =>
              let v := flag_value given d in
              if is_undefined v then [] else [(attribute d, v)])
           decls.

Definition is_declared (decls : list declaration) (name : string) : bool :=
  existsb (fun d => long_name d =? name) decls.

(** The flags commander answers by itself: [.version('1.0.0')] gives the
    program [-V] and [--version], and every command has [-h] and [--help]. *)
Definition is_version_flag (name : string) : bool :=
  ((name =? "-V") || (name =? "--version"))%bool.

Definition is_help_flag (name : string) : bool :=
  ((name =? "-h") || (name =? "--help"))%bool.

Definition asks_version (given : list (string * value)) : bool :=
  existsb (fun g => is_version_flag (fst g)) given.

Definition asks_help (given : list (string * value)) : bool :=
  existsb (fun g => is_help_flag (fst g)) given.

Definition parseOptions (decls : list declaration)
           (given : list (string * value)) : M options :=
  if asks_version given then commander_exit ShowVersion 0
  else if asks_help given then commander_exit ShowHelp 0
  else
    match find (fun d => (is_required d
                          && is_undefined (flag_value given d))%bool) decls with
    | Some d => commander_error (MissingOption (flags_of d))
    | None =>
        match find (fun g => negb (is_declared decls (fst g))) given with
        | Some (name, _) => commander_error (UnknownOption name)
        | None => ret (collect decls given)
        end
    end.

Definition with_argument (c : command) (arg : option string)
           (action : string -> M unit) : M unit :=
  match arg with
  | Some text => action text
  | None =>
      commander_error
        (MissingArgument match argument_of c with Some n => n | None => "" end)
  end.

Definition action (c : command) (arg : option string) (o : options) : M unit :=
  match c with
  | ConfigSet => config_set o
  | ConfigShow => config_show
  | TaxCalculate => tax_calculate o
  | RatesGet => rates_get o
  | RatesSummary => rates_summary o
  | NexusList => nexus_list o
  | CategoriesList => categories_list o
  | OrdersList => orders_list o
  | OrdersGet => with_argument c arg (fun id => orders_get id o)
  | OrdersCreate => orders_create o
  | OrdersUpdate => with_argument c arg (fun id => orders_update id o)
  | OrdersDelete => with_argument c arg (fun id => orders_delete id o)
  | RefundsList => refunds_list o
  | RefundsGet => with_argument c arg (fun id => refunds_get id o)
  | RefundsCreate => refunds_create o
  | ValidateAddress => validate_address o
  | ValidateVat => with_argument c arg (fun vat => validate_vat vat o)
  end.

(** One run of the program: commander reads the command line, then calls
    the action of the command. *)
Definition run (inv : invocation) : M unit :=
  o <- parseOptions (declared (inv_command inv)) (inv_flags inv) ;;
  action (inv_command inv) (inv_argument inv) o.

End Program.

(* ------------------------------------------------------------------------- *)
(** ** What the specification talks about, in terms of the model *)

(** The payload of a request: its body, or else its query. *)
Definition payload (r : request) : option value :=
  match req_data r with
  | Some body => Some body
  | None => req_params r
  end.

(** A field of the payload. *)
Definition sent_field (r : request) (k : string) : option value :=
  match payload r with
  | Some (VObj fields) => assoc k fields
  | _ => None
  end.

(** The names of the fields of the payload, in order. *)
Definition sent_names (r : request) : list string :=
  match payload r with
  | Some (VObj fields) => map fst fields
  | _ => []
  end.

(** The request [createClient] and the call of an API function put together. *)
Definition request_of (w : world) (apiKey : string) (m : method)
           (url : string) (params body : option value) : request :=
  {| req_method := m; req_baseURL := getBaseUrl w; req_url := url;
     req_headers := [("Authorization", "Bearer " ++ apiKey);
                     ("Content-Type", "application/json")];
     req_timeout := 30000;
     req_params := params; req_data := body |}.

(** The commands that call the API, and the single request each one makes
    from its positional argument and its options object. *)
Definition calls_api (c : command) : bool :=
  match c with ConfigSet | ConfigShow => false | _ => true end.

Definition text_of (arg : option string) : string :=
  match arg with Some text => text | None => "" end.

Definition request_for (w : world) (apiKey : string) (c : command)
           (arg : option string) (o : options) : request :=
  let mk := request_of w apiKey in
  let id := encodeURIComponent (text_of arg) in
  match c with
  | TaxCalculate => mk POST "/taxes" None (Some (tax_calculate_params o))
  | RatesGet =>
      mk GET ("/rates/" ++ encodeURIComponent (to_string (opt o "zip")))
         (Some (rates_get_params o)) None
  | RatesSummary => mk GET "/summary_rates" None None
  | NexusList => mk GET "/nexus/regions" None None
  | CategoriesList => mk GET "/categories" None None
  | OrdersList => mk GET "/transactions/orders" (Some (orders_list_params o)) None
  | OrdersGet => mk GET ("/transactions/orders/" ++ id) None None
  | OrdersCreate =>
      mk POST "/transactions/orders" None (Some (orders_create_params o))
  | OrdersUpdate =>
      mk PUT ("/transactions/orders/" ++ id) None
         (Some (orders_update_params (text_of arg) o))
  | OrdersDelete => mk DELETE ("/transactions/orders/" ++ id) None None
  | RefundsList =>
      mk GET "/transactions/refunds" (Some (refunds_list_params o)) None
  | RefundsGet => mk GET ("/transactions/refunds/" ++ id) None None
  | RefundsCreate =>
      mk POST "/transactions/refunds" None (Some (refunds_create_params o))
  | ValidateAddress =>
      mk POST "/addresses/validate" None (Some (validate_address_params o))
  | ValidateVat =>
      mk GET "/validation" (Some (VObj [("vat", VStr (text_of arg))])) None
  | ConfigSet | ConfigShow => mk GET "" None None
  end.

(** The positional argument is there when the command wants one. *)
Definition argument_given (c : command) (arg : option string) : Prop :=
  argument_of c <> None -> arg <> None.

(** A credential is configured: [getApiKey] returns [apiKey]. *)
Definition configured (w : world) (apiKey : string) : Prop :=
  getApiKey w = ret apiKey.

(** *** The API functions as one type, for statements about all of them *)

Inductive operation : Type :=
| op_calculateTax (params : value)
| op_getRates (zip : string) (params : value)
| op_getNexusRegions
| op_getCategories
| op_listOrders (params : value)
| op_getOrder (transactionId : string)
| op_createOrder (params : value)
| op_updateOrder (transactionId : string) (params : value)
| op_deleteOrder (transactionId : string)
| op_listRefunds (params : value)
| op_getRefund (transactionId : string)
| op_createRefund (params : value)
| op_validateAddress (params : value)
| op_validateVat (vat : string)
| op_getSummaryRates.

Definition perform (w : world) (op : operation) : M value :=
  match op with
  | op_calculateTax params => calculateTax w params
  | op_getRates zip params => getRates w zip params
  | op_getNexusRegions => getNexusRegions w
  | op_getCategories => getCategories w
  | op_listOrders params => listOrders w params
  | op_getOrder id => getOrder w id
  | op_createOrder params => createOrder w params
  | op_updateOrder id params => updateOrder w id params
  | op_deleteOrder id => deleteOrder w id
  | op_listRefunds params => listRefunds w params
  | op_getRefund id => getRefund w id
  | op_createRefund params => createRefund w params
  | op_validateAddress params => validateAddress w params
  | op_validateVat vat => validateVat w vat
  | op_getSummaryRates => getSummaryRates w
  end.

(** The field of the response envelope each one unwraps. *)
Definition envelope (op : operation) : string :=
  match op with
  | op_calculateTax _ => "tax"
  | op_getRates _ _ => "rate"
  | op_getNexusRegions => "regions"
  | op_getCategories => "categories"
  | op_listOrders _ => "orders"
  | op_getOrder _ | op_createOrder _ | op_updateOrder _ _ | op_deleteOrder _ =>
      "order"
  | op_listRefunds _ => "refunds"
  | op_getRefund _ | op_createRefund _ => "refund"
  | op_validateAddress _ => "addresses"
  | op_validateVat _ => "validation"
  | op_getSummaryRates => "summary_rates"
  end.

Definition op_request (w : world) (apiKey : string) (op : operation)
  : request :=
  let mk := request_of w apiKey in
  match op with
  | op_calculateTax params => mk POST "/taxes" None (Some params)
  | op_getRates zip params =>
      mk GET ("/rates/" ++ encodeURIComponent zip) (Some params) None
  | op_getNexusRegions => mk GET "/nexus/regions" None None
  | op_getCategories => mk GET "/categories" None None
  | op_listOrders params => mk GET "/transactions/orders" (Some params) None
  | op_getOrder id =>
      mk GET ("/transactions/orders/" ++ encodeURIComponent id) None None
  | op_createOrder params => mk POST "/transactions/orders" None (Some params)
  | op_updateOrder id params =>
      mk PUT ("/transactions/orders/" ++ encodeURIComponent id) None
         (Some params)
  | op_deleteOrder id =>
      mk DELETE ("/transactions/orders/" ++ encodeURIComponent id) None None
  | op_listRefunds params => mk GET "/transactions/refunds" (Some params) None
  | op_getRefund id =>
      mk GET ("/transactions/refunds/" ++ encodeURIComponent id) None None
  | op_createRefund params =>
      mk POST "/transactions/refunds" None (Some params)
  | op_validateAddress params =>
      mk POST "/addresses/validate" None (Some params)
  | op_validateVat vat =>
      mk GET "/validation" (Some (VObj [("vat", VStr vat)])) None
  | op_getSummaryRates => mk GET "/summary_rates" None None
  end.

(** *** The error taxonomy of the specification *)

Inductive failure : Type :=
| ApiError (status : Z) (message : string)
| NetworkError
| RequestError (message : string).

(** The JavaScript error that stands for each kind. *)
Definition thrown (f : failure) : error :=
  Error
    match f with
    | ApiError st message =>
        "TaxJar API Error (" ++ string_of_Z st ++ "): " ++ message
    | NetworkError => network_error_message
    | RequestError message => "Request error: " ++ message
    end.

(** The message of an [ApiError], in the specification's words: the
    [detail] field, else the [error] field, else the raw body. *)
Definition body_message (d : value) : string :=
  if truthy (get_opt d "detail") then to_string (get_opt d "detail")
  else if truthy (get_opt d "error") then to_string (get_opt d "error")
  else template (JSON_stringify d).

Definition is_2xx (st : Z) : bool := ((200 <=? st) && (st <? 300))%Z.

(** How an operation that unwraps [field] must end, for each thing that
    can come back. *)
Definition translated (field : string) (back : wire) : outcome value :=
  match back with
  | Answered st d =>
      if is_2xx st then
        match get d field with
        | Some v => Return v
        | None =>
            Throw (thrown (RequestError
                             ("Cannot read properties of " ++ to_string d
                              ++ " (reading '" ++ field ++ "')")))
        end
      else Throw (thrown (ApiError st (body_message d)))
  | Silent _ => Throw (thrown NetworkError)
  | Unsent message => Throw (thrown (RequestError message))
  end.

(** Which kind an error caught by an API function belongs to. *)
Definition classify (e : error) : failure :=
  match err_response e with
  | Some (st, d) => ApiError st (body_message d)
  | None => if err_request e then NetworkError else RequestError (err_message e)
  end.

(** *** Numeric flags *)

(** The field of the payload a numeric flag is sent as. *)
Definition numeric_field (long : string) : option string :=
  if long =? "--amount" then Some "amount"
  else if long =? "--shipping" then Some "shipping"
  else if long =? "--sales-tax" then Some "sales_tax"
  else None.

(** The numeric flags a command declares, each with its field. *)
Definition numeric_flags (c : command) : list (declaration * string) :=
  flat_map (fun d => match numeric_field (long_name d) with
                     | Some field => [(d, field)]
                     | None => []
                     end)
           (declared c).

(** The commands that set their numeric fields under [if]: the field is
    there only for a text that is not empty. *)
Definition sets_under_if (c : command) : bool :=
  match c with OrdersUpdate => true | _ => false end.

(** commander lets the command line through to the action. *)
Definition accepted (inv : invocation) : Prop :=
  (exists o, parseOptions (declared (inv_command inv)) (inv_flags inv) = ret o)
  /\ argument_given (inv_command inv) (inv_argument inv).

(** *** The smallest command line of a command: a text for every required
    flag, no optional flag. *)

Definition required_flags (c : command) (text : string -> string)
  : list (string * value) :=
  flat_map (fun d => if is_required d
                     then [(long_name d, VStr (text (long_name d)))]
                     else [])
           (declared c).

Definition minimal (c : command) (arg : option string)
           (text : string -> string) : invocation :=
  {| inv_command := c; inv_argument := arg;
     inv_flags := required_flags c text |}.

(** What the smallest command line sends: [s] is the text of a required
    flag, [n] that text through [parseFloat]. *)
Definition minimal_payload (c : command) (arg : option string)
           (text : string -> string) : option value :=
  let s flag := VStr (text flag) in
  let n flag := VNum (parseFloat (text flag)) in
  match c with
  | TaxCalculate =>
      Some (VObj [("from_country", s "--from-country");
                  ("from_zip", s "--from-zip");
                  ("from_state", s "--from-state");
                  ("to_country", s "--to-country");
                  ("to_zip", s "--to-zip");
                  ("to_state", s "--to-state");
                  ("amount", n "--amount");
                  ("shipping", VNum (Dec false 0 0))])
  | RatesGet => Some (VObj [("country", VStr "US")])
  | OrdersList | RefundsList => Some (VObj [])
  | OrdersCreate =>
      Some (VObj [("transaction_id", s "--transaction-id");
                  ("transaction_date", s "--transaction-date");
                  ("to_country", s "--to-country");
                  ("to_zip", s "--to-zip");
                  ("to_state", s "--to-state");
                  ("amount", n "--amount");
                  ("shipping", n "--shipping");
                  ("sales_tax", n "--sales-tax")])
  | OrdersUpdate => Some (VObj [("transaction_id", VStr (text_of arg))])
  | RefundsCreate =>
      Some (VObj [("transaction_id", s "--transaction-id");
                  ("transaction_date", s "--transaction-date");
                  ("transaction_reference_id", s "--transaction-reference-id");
                  ("to_country", s "--to-country");
                  ("to_zip", s "--to-zip");
                  ("to_state", s "--to-state");
                  ("amount", n "--amount");
                  ("shipping", n "--shipping");
                  ("sales_tax", n "--sales-tax")])
  | ValidateAddress => Some (VObj [("country", s "--country")])
  | ValidateVat => Some (VObj [("vat", VStr (text_of arg))])
  | _ => None
  end.

(** *** Worlds to run the program in *)

(** A world with a key in the environment and nothing stored, where the
    remote service answers every request with [back]. *)
Definition demo_world (back : wire) : world :=
  {| env_TAXJAR_API_KEY := Some "0123456789abcdef";
     env_TAXJAR_BASE_URL := None;
     stored_apiKey := None;
     stored_baseUrl := None;
     config_path := "/home/user/.config/taxjar-cli-nodejs/config.json";
     respond := fun _ => back;
     color_level := 0;
     percent4 := times100_toFixed4 |}.

(** A world that differs by what is stored and what the environment holds. *)
Definition key_world (env stored : option string) : world :=
  {| env_TAXJAR_API_KEY := env;
     env_TAXJAR_BASE_URL := None;
     stored_apiKey := stored;
     stored_baseUrl := None;
     config_path := "/home/user/.config/taxjar-cli-nodejs/config.json";
     respond := fun _ => Silent "timeout of 30000ms exceeded";
     color_level := 0;
     percent4 := times100_toFixed4 |}.

Definition flags_of_texts (l : list (string * string))
  : list (string * value) :=
  map (fun p => (fst p, VStr (snd p))) l.

(** [tax calculate] with an amount that is no number, answered with a tax
    of nothing. *)
Definition no_tax : wire :=
  Answered 200 (VObj [("tax", VObj [("amount_to_collect", VNum (Dec false 0 0))])]).

Definition calculate_abc : invocation :=
  {| inv_command := TaxCalculate;
     inv_argument := None;
     inv_flags :=
       flags_of_texts
         [("--from-country", "US"); ("--from-zip", "94025");
          ("--from-state", "CA"); ("--to-country", "US");
          ("--to-zip", "10001"); ("--to-state", "NY");
          ("--amount", "abc")] |}.

(** [tax calculate] with its seven required flags and nothing else. *)
Definition calculate_required_only : invocation :=
  {| inv_command := TaxCalculate;
     inv_argument := None;
     inv_flags :=
       flags_of_texts
         [("--from-country", "US"); ("--from-zip", "94025");
          ("--from-state", "CA"); ("--to-country", "US");
          ("--to-zip", "10001"); ("--to-state", "NY");
          ("--amount", "100.00")] |}.

(** A variable or a stored value that is missing or empty. *)
Definition absent (x : option string) : Prop := x = None \/ x = Some "".

(** What [getApiKey] prints before it ends the process. *)
Definition missing_key_report (w : world) : list event :=
  [LogError (chalk w [red] "Error: No API key configured.");
   LogError (chalk w [yellow] "Set your API key with:");
   LogError (chalk w [cyan] "  taxjar config set --api-key <your-api-key>");
   LogError (chalk w [yellow] "Or set the TAXJAR_API_KEY environment variable.")].

(** *** Scenario A: [tax calculate], Menlo Park to New York *)

Definition scenario_A (from_country to_country : string) : invocation :=
  {| inv_command := TaxCalculate;
     inv_argument := None;
     inv_flags :=
       flags_of_texts
         [("--from-country", from_country); ("--from-zip", "94025");
          ("--from-state", "CA"); ("--to-country", to_country);
          ("--to-zip", "10001"); ("--to-state", "NY");
          ("--amount", "100.00"); ("--shipping", "5.00")] |}.

Definition scenario_A_body (from_country to_country : string) : value :=
  VObj [("from_country", VStr from_country);
        ("from_zip", VStr "94025");
        ("from_state", VStr "CA");
        ("to_country", VStr to_country);
        ("to_zip", VStr "10001");
        ("to_state", VStr "NY");
        ("amount", VNum (of_Z 100));
        ("shipping", VNum (of_Z 5))].

(** The number 8.88. *)
Definition n_8_88 : number := Dec false 888 (-2).

Definition tax_of_8_88 : wire :=
  Answered 200
    (VObj [("tax", VObj [("taxable_amount", VNum (of_Z 105));
                         ("amount_to_collect", VNum n_8_88);
                         ("rate", VNum (Dec false 8875 (-5)));
                         ("has_nexus", VBool true);
                         ("freight_taxable", VBool true)])]).

(** *** Commands that return a list *)

(** The field of the envelope that holds the list. *)
Definition listing (c : command) : option string :=
  match c with
  | RatesSummary => Some "summary_rates"
  | NexusList => Some "regions"
  | CategoriesList => Some "categories"
  | OrdersList => Some "orders"
  | RefundsList => Some "refunds"
  | ValidateAddress => Some "addresses"
  | _ => None
  end.

(** The commands that print the list they get as a table. *)
Definition prints_a_table (c : command) : bool :=
  match c with
  | RatesSummary | NexusList | CategoriesList | OrdersList | RefundsList => true
  | _ => false
  end.

(** What [console.log] prints for an empty list without [--json]. *)
Definition empty_report (w : world) (c : command) : list string :=
  match c with
  | RatesSummary | NexusList | CategoriesList =>
      [chalk w [yellow] "No results found."]
  | OrdersList => [chalk w [yellow] "No orders found for the given criteria."]
  | RefundsList => [chalk w [yellow] "No refunds found for the given criteria."]
  | _ => []
  end.

Definition nothing_found : wire :=
  Answered 200 (VObj [("addresses", VArr []); ("orders", VArr [])]).

Definition validate_us : invocation :=
  {| inv_command := ValidateAddress;
     inv_argument := None;
     inv_flags := flags_of_texts [("--country", "US")] |}.

Definition orders_list_plain : invocation :=
  {| inv_command := OrdersList; inv_argument := None; inv_flags := [] |}.

(** *** Tables *)

(** The text of a cell: [String(row[k] ?? '')] for a row that has
    properties. *)
Definition text_at (row : value) (k : string) : string :=
  to_string (coalesce (get_opt row k) (VStr "")).

(** The width of a column: its label or its longest cell. *)
Definition column_width (rows : list value) (col : column) : nat :=
  fold_left (fun acc row => Nat.max acc (String.length (text_at row (key col))))
            rows (String.length (label col)).


(** A row of the summary as the service sends it: an object that has no
    property whose name is the dotted text [minimum_rate.rate] or
    [average_rate.rate] (the rates sit one level down, in the objects under
    [minimum_rate] and [average_rate]). *)
Definition summary_row (row : value) : Prop :=
  exists fields,
    row = VObj fields
    /\ assoc "minimum_rate.rate" fields = None
    /\ assoc "average_rate.rate" fields = None.

Definition summary_of_two : wire :=
  Answered 200
    (VObj [("summary_rates",
            VArr [VObj [("country_code", VStr "US"); ("country", VStr "United States");
                        ("region_code", VStr "CA"); ("region", VStr "California");
                        ("minimum_rate",
                         VObj [("label", VStr "State Tax");
                               ("rate", VNum (Dec false 725 (-4)))]);
                        ("average_rate",
                         VObj [("label", VStr "Tax");
                               ("rate", VNum (Dec false 827 (-4)))])];
                  VObj [("country_code", VStr "CA"); ("country", VStr "Canada");
                        ("region_code", VStr "BC");
                        ("region", VStr "British Columbia");
                        ("minimum_rate",
                         VObj [("label", VStr "GST");
                               ("rate", VNum (Dec false 5 (-2)))]);
                        ("average_rate",
                         VObj [("label", VStr "PST");
                               ("rate", VNum (Dec false 12 (-2)))])]])]).

(** A row [printTable] can read properties of. *)
Definition has_properties (row : value) : Prop := nullish row = false.

(** A computation that hands nothing to axios. *)
Definition quiet {A} (m : M A) : Prop := requests m = [].

(** *** The texts and the envelope field of each command that calls the API *)

(** The field of the answer the command's API function unwraps. *)
Definition command_envelope (c : command) : string :=
  match c with
  | TaxCalculate => "tax"
  | RatesGet => "rate"
  | RatesSummary => "summary_rates"
  | NexusList => "regions"
  | CategoriesList => "categories"
  | OrdersList => "orders"
  | OrdersGet | OrdersCreate | OrdersUpdate | OrdersDelete => "order"
  | RefundsList => "refunds"
  | RefundsGet | RefundsCreate => "refund"
  | ValidateAddress => "addresses"
  | ValidateVat => "validation"
  | ConfigSet | ConfigShow => ""
  end.

(** The text the spinner starts with. *)
Definition start_text (c : command) (arg : option string) (o : options)
  : string :=
  match c with
  | TaxCalculate => "Calculating tax..."
  | RatesGet => "Fetching rates for " ++ to_string (opt o "zip") ++ "..."
  | RatesSummary => "Fetching summary rates..."
  | NexusList => "Fetching nexus regions..."
  | CategoriesList => "Fetching categories..."
  | OrdersList => "Fetching orders..."
  | OrdersGet => "Fetching order " ++ text_of arg ++ "..."
  | OrdersCreate => "Creating order..."
  | OrdersUpdate => "Updating order " ++ text_of arg ++ "..."
  | OrdersDelete => "Deleting order " ++ text_of arg ++ "..."
  | RefundsList => "Fetching refunds..."
  | RefundsGet => "Fetching refund " ++ text_of arg ++ "..."
  | RefundsCreate => "Creating refund..."
  | ValidateAddress => "Validating address..."
  | ValidateVat => "Validating VAT: " ++ text_of arg ++ "..."
  | ConfigSet | ConfigShow => ""
  end.

(** The text the spinner fails with. *)
Definition fail_text (c : command) : string :=
  match c with
  | TaxCalculate => "Tax calculation failed"
  | RatesGet => "Failed to fetch rates"
  | RatesSummary => "Failed to fetch summary rates"
  | NexusList => "Failed to fetch nexus regions"
  | CategoriesList => "Failed to fetch categories"
  | OrdersList => "Failed to fetch orders"
  | OrdersGet => "Failed to fetch order"
  | OrdersCreate => "Failed to create order"
  | OrdersUpdate => "Failed to update order"
  | OrdersDelete => "Failed to delete order"
  | RefundsList => "Failed to fetch refunds"
  | RefundsGet => "Failed to fetch refund"
  | RefundsCreate => "Failed to create refund"
  | ValidateAddress => "Address validation failed"
  | ValidateVat => "VAT validation failed"
  | ConfigSet | ConfigShow => ""
  end.

(** The command line asks for the version of the program or for the help
    of the command, which commander answers by itself. *)
Definition answered_by_commander (inv : invocation) : bool :=
  (asks_version (inv_flags inv) || asks_help (inv_flags inv))%bool.

(** A computation that, when it ends the process, ends it with status 1. *)
Definition exits_with_1 {A} (m : M A) : Prop :=
  forall code, result m = Exit code -> code = 1%Z.

(** A computation that lets no exception out and ends the process with
    status 1 if it ends it. *)
Definition handled {A} (m : M A) : Prop :=
  match result m with
  | Return _ => True
  | Throw _ => False
  | Exit code => code = 1%Z
  end.

(** The text the spinner succeeds with, for the commands whose text does
    not depend on the answer. *)
Definition succeed_text (c : command) : string :=
  match c with
  | TaxCalculate => "Tax calculated"
  | RatesGet => "Rates retrieved"
  | OrdersGet => "Order retrieved"
  | OrdersCreate => "Order created successfully"
  | OrdersUpdate => "Order updated successfully"
  | OrdersDelete => "Order deleted successfully"
  | RefundsGet => "Refund retrieved"
  | RefundsCreate => "Refund created successfully"
  | ValidateVat => "VAT validation complete"
  | _ => ""
  end.

(** The first property of the unwrapped value a command reads when it
    prints for a reader, for the commands that print fields of one entity. *)
Definition first_read (c : command) : option string :=
  match c with
  | TaxCalculate => Some "taxable_amount"
  | RatesGet => Some "city"
  | OrdersGet | OrdersCreate | OrdersUpdate | RefundsGet | RefundsCreate =>
      Some "transaction_id"
  | ValidateVat => Some "vat_number"
  | _ => None
  end.

(** *** The lists of transactions *)

(** The text of a transaction id in the table: [String(id ?? '')]. *)
Definition id_text (id : value) : string := to_string (coalesce id (VStr "")).

(** The width of the one column: its label, 14 code units, or the longest
    id. *)
Definition id_width (ids : list value) : nat :=
  fold_left (fun acc id => Nat.max acc (String.length (id_text id))) ids 14.

(** The line [orders list] adds below its table. *)
Definition list_hint (w : world) (c : command) : list string :=
  match c with
  | OrdersList =>
      [chalk w [dim]
         (newline
          ++ "Use `taxjar orders get <transaction-id>` to see order details.")]
  | _ => []
  end.

Definition three_orders : wire :=
  Answered 200 (VObj [("orders", VArr [VStr "B-2"; VStr "A-1"; VStr "ORDER-000123"])]).

(** *** Where the fields of a payload come from *)

(** A field of the payload and the flag it is taken from: the name of the
    field, the property of the options object, whether the text goes
    through [parseFloat], and whether the field is set in any case (in the
    object literal) or only for a text that is not empty (under [if]). *)
Record origin : Type := {
  field_name : string;
  attribute_name : string;
  numeric : bool;
  always : bool
}.

Definition from_flag (field attr : string) (num alw : bool) : origin :=
  {| field_name := field; attribute_name := attr; numeric := num; always := alw |}.

Definition payload_fields (c : command) : list origin :=
  match c with
  | TaxCalculate =>
      [from_flag "from_country" "fromCountry" false true;
       from_flag "from_zip" "fromZip" false true;
       from_flag "from_state" "fromState" false true;
       from_flag "to_country" "toCountry" false true;
       from_flag "to_zip" "toZip" false true;
       from_flag "to_state" "toState" false true;
       from_flag "amount" "amount" true true;
       from_flag "shipping" "shipping" true true;
       from_flag "from_city" "fromCity" false false;
       from_flag "from_street" "fromStreet" false false;
       from_flag "to_city" "toCity" false false;
       from_flag "to_street" "toStreet" false false]
  | RatesGet =>
      [from_flag "country" "country" false true;
       from_flag "city" "city" false false;
       from_flag "street" "street" false false;
       from_flag "state" "state" false false]
  | OrdersList =>
      [from_flag "from_transaction_date" "fromDate" false false;
       from_flag "to_transaction_date" "toDate" false false;
       from_flag "status" "status" false false]
  | OrdersCreate =>
      [from_flag "transaction_id" "transactionId" false true;
       from_flag "transaction_date" "transactionDate" false true;
       from_flag "to_country" "toCountry" false true;
       from_flag "to_zip" "toZip" false true;
       from_flag "to_state" "toState" false true;
       from_flag "amount" "amount" true true;
       from_flag "shipping" "shipping" true true;
       from_flag "sales_tax" "salesTax" true true;
       from_flag "from_country" "fromCountry" false false;
       from_flag "from_zip" "fromZip" false false;
       from_flag "from_state" "fromState" false false;
       from_flag "to_city" "toCity" false false;
       from_flag "from_city" "fromCity" false false]
  | OrdersUpdate =>
      [from_flag "amount" "amount" true false;
       from_flag "shipping" "shipping" true false;
       from_flag "sales_tax" "salesTax" true false;
       from_flag "transaction_date" "transactionDate" false false]
  | RefundsList =>
      [from_flag "from_transaction_date" "fromDate" false false;
       from_flag "to_transaction_date" "toDate" false false]
  | RefundsCreate =>
      [from_flag "transaction_id" "transactionId" false true;
       from_flag "transaction_date" "transactionDate" false true;
       from_flag "transaction_reference_id" "transactionReferenceId" false true;
       from_flag "to_country" "toCountry" false true;
       from_flag "to_zip" "toZip" false true;
       from_flag "to_state" "toState" false true;
       from_flag "amount" "amount" true true;
       from_flag "shipping" "shipping" true true;
       from_flag "sales_tax" "salesTax" true true]
  | ValidateAddress =>
      [from_flag "country" "country" false true;
       from_flag "state" "state" false false;
       from_flag "zip" "zip" false false;
       from_flag "city" "city" false false;
       from_flag "street" "street" false false]
  | _ => []
  end.

(** The field that holds the positional argument. *)
Definition argument_field (c : command) : option string :=
  match c with
  | OrdersUpdate => Some "transaction_id"
  | ValidateVat => Some "vat"
  | _ => None
  end.

(** What is sent for a field, given the options object. *)
Definition sent_value (o : options) (f : origin) : option value :=
  let v := opt o (attribute_name f) in
  let x := if numeric f then float_of v else v in
  if always f then Some x else if truthy v then Some x else None.

Definition calculate_with_empty_city : options :=
  [("fromCountry", VStr "US"); ("fromZip", VStr "94025"); ("fromState", VStr "CA");
   ("toCountry", VStr "US"); ("toZip", VStr "10001"); ("toState", VStr "NY");
   ("amount", VStr "100.00"); ("shipping", VStr "0");
   ("fromCity", VStr ""); ("toCity", VStr "New York")].

(** *** The path of a request *)

(** The API functions that put a text into the path of their request:
    the fixed part of the path, and the text. *)
Definition path_of (op : operation) : option (string * string) :=
  match op with
  | op_getRates zip _ => Some ("/rates/", zip)
  | op_getOrder id | op_updateOrder id _ | op_deleteOrder id =>
      Some ("/transactions/orders/", id)
  | op_getRefund id => Some ("/transactions/refunds/", id)
  | _ => None
  end.

(** A code unit that cannot end or split a segment of a path: a letter, a
    digit, one of [- _ . ! ~ * ' ( )], or the percent sign of an escape. *)
Definition segment_safe (c : ascii) : bool :=
  (is_unreserved c || (nat_of_ascii c =? 37)%nat)%bool.

Definition hex_value (c : ascii) : option nat :=
  let n := nat_of_ascii c in
  if ((48 <=? n) && (n <=? 57))%nat then Some (n - 48)
  else if ((65 <=? n) && (n <=? 70))%nat then Some (n - 55)
  else None.

(** Reads one escape [%XY] at the head of a text. *)
Definition read_escape (s : string) : option (nat * string) :=
  match s with
  | String p (String x (String y rest)) =>
      if (nat_of_ascii p =? 37)%nat then
        match hex_value x, hex_value y with
        | Some a, Some b => Some (16 * a + b, rest)
        | _, _ => None
        end
      else None
  | _ => None
  end.

(** Reads back the first code unit of an encoded text: the inverse of
    [encode_char], by which encoding is shown to lose nothing. *)
Definition decode_first (s : string) : option (ascii * string) :=
  match s with
  | EmptyString => None
  | String c rest =>
      if (nat_of_ascii c =? 37)%nat then
        match read_escape s with
        | Some (b, rest1) =>
            if (b <? 128)%nat then Some (ascii_of_nat b, rest1)
            else
              match read_escape rest1 with
              | Some (b', rest2) =>
                  Some (ascii_of_nat ((b - 192) * 64 + (b' - 128)), rest2)
              | None => None
              end
        | None => None
        end
      else Some (c, rest)
  end.

(** *** The configuration after a run *)

(** The world a later run finds: the same, with the key the run stored. *)
Definition world_after (w : world) (events : list event) : world :=
  {| env_TAXJAR_API_KEY := env_TAXJAR_API_KEY w;
     env_TAXJAR_BASE_URL := env_TAXJAR_BASE_URL w;
     stored_apiKey := stored_after w events;
     stored_baseUrl := stored_baseUrl w;
     config_path := config_path w;
     respond := respond w;
     color_level := color_level w;
     percent4 := percent4 w |}.

Definition config_set_line (key : string) : invocation :=
  {| inv_command := ConfigSet; inv_argument := None;
     inv_flags := [("--api-key", VStr key)] |}.

(** *** The breakdown of a tax *)

(** The parts of a breakdown [tax calculate] prints, with their labels. *)
Definition breakdown_parts : list (string * string) :=
  [("state_tax_collectable", "State Tax:          ");
   ("county_tax_collectable", "County Tax:         ");
   ("city_tax_collectable", "City Tax:           ");
   ("special_district_tax_collectable", "Special District:   ")].

(* ------------------------------------------------------------------------- *)
(** ** Laws of the effect monad *)

Section MonadLaws.

Context {A B : Type}.

Lemma bind_ret (a : A) (f : A -> M B) : bind (ret a) f = f a.
Proof. unfold bind, ret. destruct (f a); reflexivity. Qed.

Lemma trace_bind (m : M A) (f : A -> M B) (a : A) :
  result m = Return a -> trace (bind m f) = (trace m ++ trace (f a))%list.
Proof.
  destruct m as [tr r]; simpl; intros ->.
  unfold bind. destruct (f a); reflexivity.
Qed.

Lemma result_bind (m : M A) (f : A -> M B) (a : A) :
  result m = Return a -> result (bind m f) = result (f a).
Proof.
  destruct m as [tr r]; simpl; intros ->.
  unfold bind. destruct (f a); reflexivity.
Qed.

Lemma bind_return (tr : list event) (a : A) (f : A -> M B) :
  bind (tr, Return a) f = ((tr ++ trace (f a))%list, result (f a)).
Proof. unfold bind, trace, result. destruct (f a); reflexivity. Qed.

Lemma trace_bind_prefix (m : M A) (f : A -> M B) :
  exists rest, trace (bind m f) = (trace m ++ rest)%list.
Proof.
  destruct m as [tr [a | e | c]]; unfold bind; simpl.
  - destruct (f a) as [tr' r]; simpl; eauto.
  - exists []; now rewrite app_nil_r.
  - exists []; now rewrite app_nil_r.
Qed.

End MonadLaws.

(** *** Computations that send nothing *)

Lemma requests_app {A B} (m : M A) (tr : list event) (r : outcome B) :
  requests ((trace m ++ tr)%list, r) = (requests m ++ requests (tr, r))%list.
Proof. unfold requests; simpl. apply flat_map_app. Qed.

Lemma requests_bind {A B} (m : M A) (f : A -> M B) :
  (forall a, quiet (f a)) -> requests (bind m f) = requests m.
Proof.
  intros Hf. destruct m as [tr [a | e | c]]; unfold bind; try reflexivity.
  specialize (Hf a). destruct (f a) as [tr' r] eqn:E.
  unfold quiet, requests in *; simpl in *.
  now rewrite flat_map_app, Hf, app_nil_r.
Qed.

Lemma requests_try_catch {A} (m : M A) (h : error -> M A) :
  (forall e, quiet (h e)) -> requests (try_catch m h) = requests m.
Proof.
  intros Hh. destruct m as [tr [a | e | c]]; unfold try_catch; try reflexivity.
  specialize (Hh e). destruct (h e) as [tr' r] eqn:E.
  unfold quiet, requests in *; simpl in *.
  now rewrite flat_map_app, Hh, app_nil_r.
Qed.

Lemma quiet_bind {A B} (m : M A) (f : A -> M B) :
  quiet m -> (forall a, quiet (f a)) -> quiet (bind m f).
Proof. intros Hm Hf. unfold quiet. now rewrite requests_bind. Qed.

Lemma quiet_try_catch {A} (m : M A) (h : error -> M A) :
  quiet m -> (forall e, quiet (h e)) -> quiet (try_catch m h).
Proof. intros Hm Hh. unfold quiet. now rewrite requests_try_catch. Qed.

Lemma quiet_ret {A} (a : A) : quiet (ret a).
Proof. reflexivity. Qed.

Lemma quiet_throw {A} (e : error) : quiet (@throw A e).
Proof. reflexivity. Qed.

Lemma quiet_exit {A} (c : Z) : quiet (@process_exit A c).
Proof. reflexivity. Qed.

Lemma quiet_log (line : string) : quiet (console_log line).
Proof. reflexivity. Qed.

Lemma quiet_error (line : string) : quiet (console_error line).
Proof. reflexivity. Qed.

Lemma quiet_succeed (text : string) : quiet (spinner_succeed text).
Proof. reflexivity. Qed.

Lemma quiet_fail (text : string) : quiet (spinner_fail text).
Proof. reflexivity. Qed.

Lemma quiet_prop (v : value) (k : string) : quiet (prop v k).
Proof. unfold prop. destruct (get v k); reflexivity. Qed.

Lemma quiet_when (b : bool) (m : M unit) : quiet m -> quiet (when b m).
Proof. destruct b; simpl; auto using quiet_ret. Qed.

Lemma quiet_items (name meth : string) (v : value) :
  quiet (items_for name meth v).
Proof. destruct v; reflexivity. Qed.

Create HintDb quiet.
#[local] Hint Resolve quiet_bind quiet_try_catch quiet_ret quiet_throw
  quiet_exit quiet_log quiet_error quiet_succeed quiet_fail quiet_prop
  quiet_when quiet_items : quiet.

(** Splits on the tests the program makes, then closes by the hints. *)
Ltac quiet_tac :=
  repeat (intros;
          match goal with
          | |- quiet (if ?b then _ else _) => destruct b
          | |- quiet (match ?x with _ => _ end) => destruct x
          | |- quiet (bind _ _) => apply quiet_bind
          | |- quiet (try_catch _ _) => apply quiet_try_catch
          | |- quiet (when _ _) => apply quiet_when
          | |- quiet _ => solve [auto with quiet]
          end).

Lemma quiet_printJson (v : value) : quiet (printJson v).
Proof. unfold printJson; auto with quiet. Qed.

Lemma quiet_fail_with w (text : string) (e : error) :
  quiet (fail_with w text e).
Proof. unfold fail_with; quiet_tac. Qed.

Lemma quiet_log_if (obj : value) (field : string) (line : value -> string) :
  quiet (log_if obj field line).
Proof. unfold log_if; quiet_tac. Qed.

Lemma quiet_cell (row : value) (col : column) : quiet (cell row col).
Proof. unfold cell; quiet_tac. Qed.

#[local] Hint Resolve quiet_fail_with quiet_log_if quiet_cell : quiet.

Lemma quiet_widen (col : column) (rows : list value) :
  forall colWidths, quiet (widen col rows colWidths).
Proof. induction rows; simpl; quiet_tac. Qed.

#[local] Hint Resolve quiet_widen : quiet.

Lemma quiet_measure (d : value) (columns : list column) :
  forall colWidths, quiet (measure d columns colWidths).
Proof. induction columns; simpl; quiet_tac. Qed.

Lemma quiet_mapM {A B} (f : A -> M B) (l : list A) :
  (forall a, quiet (f a)) -> quiet (mapM f l).
Proof. intros Hf. induction l; simpl; quiet_tac. Qed.

Lemma quiet_forEach {A} (f : A -> M unit) (l : list A) :
  (forall a, quiet (f a)) -> quiet (forEach f l).
Proof. intros Hf. induction l; simpl; quiet_tac. Qed.

#[local] Hint Resolve quiet_measure quiet_mapM quiet_forEach : quiet.

Lemma quiet_printTable w (d : value) (columns : list column) :
  quiet (printTable w d columns).
Proof.
  unfold printTable. quiet_tac.
Qed.

Lemma quiet_tax_breakdown w (b : value) : quiet (tax_breakdown w b).
Proof. unfold tax_breakdown; quiet_tac. Qed.

Lemma quiet_transaction_summary w (text : string) (t : value) :
  quiet (transaction_summary w text t).
Proof. unfold transaction_summary; quiet_tac. Qed.

Lemma quiet_print_matches w (l : list value) :
  forall from, quiet (print_matches w from l).
Proof.
  induction l as [| addr rest IH]; intros from.
  - apply quiet_ret.
  - change (print_matches w from (addr :: rest))
      with (console_log "" ;;
            console_log (chalk w [bold]
                           ("Match " ++ number_to_string (of_nat (from + 1)) ++ ":")) ;;
            log_if addr "street"
              (fun v => "Street:  " ++ chalk w [white] (to_string v)) ;;
            log_if addr "city"
              (fun v => "City:    " ++ chalk w [white] (to_string v)) ;;
            log_if addr "state"
              (fun v => "State:   " ++ chalk w [white] (to_string v)) ;;
            log_if addr "zip"
              (fun v => "ZIP:     " ++ chalk w [white] (to_string v)) ;;
            log_if addr "country"
              (fun v => "Country: " ++ chalk w [white] (to_string v)) ;;
            print_matches w (S from) rest).
    quiet_tac.
Qed.

Lemma quiet_as_rows (name : string) (v : value) :
  quiet (as_transaction_rows name v).
Proof. unfold as_transaction_rows; quiet_tac. Qed.

Lemma quiet_handleError {A} (e : error) : quiet (@handleError A e).
Proof. unfold handleError. destruct (err_response e) as [[st d]|]; quiet_tac. Qed.

#[local] Hint Resolve quiet_printJson quiet_printTable quiet_tax_breakdown
  quiet_transaction_summary quiet_print_matches quiet_as_rows
  quiet_handleError : quiet.

(** *** Every API function makes exactly one call *)

Lemma requests_seq {A B} (m : M A) (f : A -> M B) (a : A) :
  result m = Return a ->
  requests (bind m f) = (requests m ++ requests (f a))%list.
Proof.
  intros H. unfold requests. rewrite (trace_bind m f a H). apply flat_map_app.
Qed.

Lemma requests_axios w (c : client) (m : method) (url : string)
      (params body : option value) :
  requests (axios w c m url params body)
  = [ {| req_method := m; req_baseURL := baseURL c; req_url := url;
         req_headers := headers c; req_timeout := timeout c;
         req_params := params; req_data := body |} ].
Proof.
  unfold axios. rewrite requests_bind; [reflexivity |].
  intros _. quiet_tac.
Qed.

Lemma requests_unwrap w (apiKey field : string) (m : method) (url : string)
      (params body : option value) :
  configured w apiKey ->
  requests (unwrap w field (fun c => axios w c m url params body))
  = [request_of w apiKey m url params body].
Proof.
  intros Hkey. unfold unwrap, createClient. rewrite Hkey, !bind_ret.
  rewrite requests_try_catch by auto with quiet.
  rewrite requests_bind by auto with quiet.
  apply requests_axios.
Qed.

(** Peels an action down to its API call. *)
Ltac to_the_call :=
  rewrite (requests_seq _ _ tt) by reflexivity;
  rewrite requests_try_catch by auto with quiet;
  cbv zeta;
  rewrite requests_bind by (intros; quiet_tac);
  simpl app.

Lemma requests_action w (apiKey : string) (c : command) (arg : option string)
      (o : options) :
  configured w apiKey -> calls_api c = true -> argument_given c arg ->
  requests (action w c arg o) = [request_for w apiKey c arg o].
Proof.
  intros Hkey Hc Harg.
  destruct c; try discriminate Hc; unfold action;
    try (destruct arg as [id |];
         [ unfold with_argument | exfalso; apply Harg; [discriminate | reflexivity] ]);
    match goal with
    | |- requests (?f _ _ _) = _ => unfold f
    | |- requests (?f _ _) = _ => unfold f
    end;
    to_the_call;
    match goal with
    | |- requests (?api _ _ _) = _ => unfold api
    | |- requests (?api _ _) = _ => unfold api
    | |- requests (?api _) = _ => unfold api
    end;
    unfold client_get, client_post, client_put, client_delete;
    now rewrite (requests_unwrap w apiKey).
Qed.

(** *** What an API function returns, for everything that can come back *)

Lemma api_error_message_spec (st : Z) (d : value) :
  Error (api_error_message st d) = thrown (ApiError st (body_message d)).
Proof.
  unfold api_error_message, thrown, body_message, or_else.
  destruct (truthy (get_opt d "detail")) eqn:E; [now rewrite E | reflexivity].
Qed.

Lemma unwrap_spec w (apiKey field : string) (m : method) (url : string)
      (params body : option value) :
  configured w apiKey ->
  let r := request_of w apiKey m url params body in
  unwrap w field (fun c => axios w c m url params body)
  = ([Axios r], translated field (respond w r)).
Proof.
  intros Hkey r. unfold unwrap, createClient. rewrite Hkey, !bind_ret.
  unfold axios; cbn [baseURL headers timeout].
  fold (request_of w apiKey m url params body). fold r.
  unfold translated, is_2xx.
  destruct (respond w r) as [st d | msg | msg]; cbn -[Error api_error_message].
  - destruct ((200 <=? st)%Z && (st <? 300)%Z)%bool;
      cbn -[Error api_error_message].
    + unfold prop. destruct (get d field); reflexivity.
    + now rewrite api_error_message_spec.
  - reflexivity.
  - reflexivity.
Qed.

Lemma perform_spec w (apiKey : string) (op : operation) :
  configured w apiKey ->
  perform w op
  = ([Axios (op_request w apiKey op)],
     translated (envelope op) (respond w (op_request w apiKey op))).
Proof.
  intros Hkey.
  destruct op; cbn [perform envelope op_request];
    match goal with
    | |- ?api _ _ _ = _ => unfold api
    | |- ?api _ _ = _ => unfold api
    | |- ?api _ = _ => unfold api
    end;
    unfold client_get, client_post, client_put, client_delete;
    now rewrite (unwrap_spec w apiKey).
Qed.

(** *** Objects built field by field *)

Lemma eqb_eq_false (a b : string) : (a =? b) = false <-> a <> b.
Proof. apply String.eqb_neq. Qed.

Lemma assoc_assign {A} (k k' : string) (v : A) (fields : list (string * A)) :
  assoc k (assign k' v fields) = if k' =? k then Some v else assoc k fields.
Proof.
  induction fields as [| [k0 v0] rest IH]; simpl.
  - reflexivity.
  - destruct (String.eqb_spec k0 k') as [-> | Hne]; simpl.
    + destruct (k' =? k); reflexivity.
    + destruct (String.eqb_spec k0 k) as [-> | Hne'].
      * apply eqb_eq_false in Hne. rewrite String.eqb_sym in Hne.
        now rewrite Hne.
      * exact IH.
Qed.

Lemma assoc_assign_if (k k' : string) (v : value)
      (fields : list (string * value)) :
  assoc k (assign_if k' v fields)
  = if ((k' =? k) && truthy v)%bool then Some v else assoc k fields.
Proof.
  unfold assign_if. destruct (truthy v).
  - rewrite assoc_assign, andb_true_r. reflexivity.
  - now rewrite andb_false_r.
Qed.

Lemma assoc_assign_float_if (k k' : string) (v : value)
      (fields : list (string * value)) :
  assoc k (assign_float_if k' v fields)
  = if ((k' =? k) && truthy v)%bool then Some (float_of v) else assoc k fields.
Proof.
  unfold assign_float_if. destruct (truthy v).
  - rewrite assoc_assign, andb_true_r. reflexivity.
  - now rewrite andb_false_r.
Qed.

(** *** The options object commander builds *)

Lemma assoc_collect_absent (decls : list declaration)
      (given : list (string * value)) (k : string) :
  ~ In k (map attribute decls) -> assoc k (collect decls given) = None.
Proof.
  induction decls as [| d rest IH]; simpl; intros Hk.
  - reflexivity.
  - unfold collect in *; simpl.
    destruct (is_undefined (flag_value given d)); simpl.
    + apply IH; tauto.
    + destruct (attribute d =? k) eqn:E.
      * apply String.eqb_eq in E. tauto.
      * apply IH; tauto.
Qed.

Lemma opt_collect (decls : list declaration) (given : list (string * value))
      (d : declaration) :
  NoDup (map attribute decls) -> In d decls ->
  opt (collect decls given) (attribute d) = flag_value given d.
Proof.
  induction decls as [| d0 rest IH]; simpl; intros Hnd Hin; [tauto |].
  inversion Hnd as [| x l Hnotin Hnd']; subst.
  unfold opt, collect in *; simpl.
  destruct Hin as [-> | Hin].
  - destruct (is_undefined (flag_value given d)) eqn:Hu; simpl.
    + fold (collect rest given).
      rewrite (assoc_collect_absent rest given _ Hnotin).
      destruct (flag_value given d); now try discriminate Hu.
    + now rewrite String.eqb_refl.
  - assert (Hne : attribute d0 <> attribute d).
    { intros E. apply Hnotin. rewrite E. now apply in_map. }
    destruct (is_undefined (flag_value given d0)); simpl.
    + now apply IH.
    + apply eqb_eq_false in Hne. rewrite Hne. now apply IH.
Qed.

Lemma declared_attributes_differ (c : command) :
  NoDup (map attribute (declared c)).
Proof.
  destruct c; cbv [declared map json_flag];
    repeat (constructor; [ cbv; intuition discriminate | ]); constructor.
Qed.

Lemma parseOptions_ret (decls : list declaration)
      (given : list (string * value)) (o : options) :
  parseOptions decls given = ret o -> o = collect decls given.
Proof.
  unfold parseOptions.
  destruct (asks_version given); [discriminate |].
  destruct (asks_help given); [discriminate |].
  destruct (find _ decls); [discriminate |].
  destruct (find _ given) as [[name v] |]; [discriminate |].
  unfold ret. now intros [= <-].
Qed.

Lemma run_accepted w (inv : invocation) (o : options) :
  parseOptions (declared (inv_command inv)) (inv_flags inv) = ret o ->
  run w inv = action w (inv_command inv) (inv_argument inv) o.
Proof. intros H. unfold run. now rewrite H, bind_ret. Qed.

(* ------------------------------------------------------------------------- *)
(** ** The properties of the specification *)

(** C3.  Every API function ends in one of three ways when it fails, and
    the way is decided as the specification says: an answer outside 2xx
    gives an [ApiError] with the status and the message of the body (its
    [detail], else its [error], else the body itself serialised); a request
    that got no answer gives a [NetworkError]; anything else, a failure to
    send or to read the answer, gives a [RequestError] with the underlying
    message.  [handleError] maps every caught error to its kind, and one
    call is handed to axios whatever comes back: nothing is tried again. *)
Theorem error_translation_three_kinds w (apiKey : string) (op : operation) :
  configured w apiKey ->
  let r := op_request w apiKey op in
  trace (perform w op) = [Axios r]
  /\ result (perform w op) = translated (envelope op) (respond w r)
  /\ (forall e, result (perform w op) = Throw e -> exists f, e = thrown f)
  /\ (forall e, @handleError value e = throw (thrown (classify e))).
Proof.
  intros Hkey r. rewrite (perform_spec w apiKey op Hkey). fold r.
  repeat split.
  - cbn [result snd]. unfold translated.
    destruct (respond w r) as [st d | msg | msg].
    + destruct (is_2xx st).
      * destruct (get d (envelope op)); [discriminate |].
        intros e [= <-]. eauto.
      * intros e [= <-]. eauto.
    + intros e [= <-]. eauto.
    + intros e [= <-]. eauto.
  - intros e. unfold handleError, classify.
    destruct (err_response e) as [[st d] |].
    + now rewrite api_error_message_spec.
    + destruct (err_request e); reflexivity.
Qed.

Lemma error_translation_three_kinds_witness :
  configured (demo_world (Answered 404 (VObj [("error", VStr "Not Found");
                                             ("detail", VStr "No such order")])))
             "0123456789abcdef"
  /\ result (perform (demo_world (Answered 404
                                    (VObj [("error", VStr "Not Found");
                                           ("detail", VStr "No such order")])))
                     (op_deleteOrder "ORDER-123"))
     = Throw (thrown (ApiError 404 "No such order")).
Proof.
  split; [reflexivity |].
  exact (proj1 (proj2 (error_translation_three_kinds
                         (demo_world (Answered 404
                                        (VObj [("error", VStr "Not Found");
                                               ("detail", VStr "No such order")])))
                         "0123456789abcdef" (op_deleteOrder "ORDER-123")
                         eq_refl))).
Defined.

(** C1, as the code has it.  A numeric flag ([--amount], [--shipping],
    [--sales-tax]) is passed through [parseFloat] and nothing checks the
    result: whenever a key is configured and commander accepts the command
    line, the one request of the command is still made, and the field holds
    [parseFloat] of the text the flag was last written with, which is [NaN],
    [null] in the JSON text of the body, when the text has no numeric
    prefix.  [orders update], which sets its numeric fields under [if],
    leaves the field out when the text is empty. *)
Theorem numeric_flag_is_not_checked w (apiKey : string) (inv : invocation)
        (d : declaration) (field text : string) :
  configured w apiKey ->
  accepted inv ->
  In (d, field) (numeric_flags (inv_command inv)) ->
  written (long_name d) (inv_flags inv) = Some (VStr text) ->
  exists r, requests (run w inv) = [r]
            /\ sent_field r field
               = (if (sets_under_if (inv_command inv) && (text =? ""))%bool
                  then None
                  else Some (VNum (parseFloat text)))
            /\ (parse_decimal (trimStart text) = None ->
                parseFloat text = NaN
                /\ JSON_stringify (VNum (parseFloat text)) = Some "null").
Proof.
  intros Hkey [[o Ho] Harg] Hin Hflag.
  assert (Hnan : parse_decimal (trimStart text) = None ->
                 parseFloat text = NaN
                 /\ JSON_stringify (VNum (parseFloat text)) = Some "null")
    by (unfold parseFloat; intros ->; split; reflexivity).
  rewrite (run_accepted w inv o Ho).
  apply parseOptions_ret in Ho.
  destruct inv as [c arg given]; cbn [inv_command inv_argument inv_flags] in *.
  assert (Hopt : opt o (attribute d) = VStr text).
  { subst o. rewrite opt_collect.
    - unfold flag_value. now rewrite Hflag.
    - apply declared_attributes_differ.
    - unfold numeric_flags in Hin. apply in_flat_map in Hin.
      destruct Hin as [d' [Hd' Hin]].
      destruct (numeric_field (long_name d')); [| contradiction].
      destruct Hin as [[= <- _] | []]. exact Hd'. }
  assert (Hc : calls_api c = true) by (destruct c; try reflexivity; contradiction).
  rewrite (requests_action w apiKey c arg o Hkey Hc Harg).
  eexists; split; [reflexivity |]. split; [| exact Hnan]. clear Hnan.
  assert (Ht : truthy (VStr text) = negb (text =? "")) by reflexivity.
  destruct c; vm_compute in Hin; try contradiction;
    repeat match goal with
           | H : _ \/ _ |- _ => destruct H as [H | H]
           | H : False |- _ => contradiction
           | H : (_, _) = (_, _) |- _ => injection H as <- <-
           end;
    match type of Hopt with
    | opt o ?a = _ => let a' := eval vm_compute in a in change a with a' in Hopt
    end;
    unfold sent_field, payload, request_for, request_of; cbn [req_data req_params];
    unfold tax_calculate_params, orders_create_params, orders_update_params,
      refunds_create_params;
    rewrite ?assoc_assign_if, ?assoc_assign_float_if;
    cbn [assoc String.eqb Ascii.eqb Bool.eqb andb sets_under_if];
    rewrite ?Hopt, ?Ht; try reflexivity.
  all: destruct (text =? ""); reflexivity.
Qed.

Lemma numeric_flag_is_not_checked_witness :
  exists r, requests (run (demo_world no_tax) calculate_abc) = [r]
            /\ sent_field r "amount" = Some (VNum (parseFloat "abc"))
            /\ (parse_decimal (trimStart "abc") = None ->
                parseFloat "abc" = NaN
                /\ JSON_stringify (VNum (parseFloat "abc")) = Some "null").
Proof.
  apply (numeric_flag_is_not_checked (demo_world no_tax) "0123456789abcdef"
           calculate_abc (requiredOption "--amount <amount>") "amount" "abc").
  - reflexivity.
  - split; [eexists; reflexivity | intros H; contradiction H; reflexivity].
  - vm_compute. tauto.
  - reflexivity.
Defined.

Example orders_update_drops_an_empty_amount :
  exists r,
    requests (run (demo_world no_tax)
                  {| inv_command := OrdersUpdate; inv_argument := Some "ORDER-1";
                     inv_flags := flags_of_texts [("--amount", "");
                                                  ("--shipping", "1e400")] |})
    = [r]
    /\ sent_field r "amount" = None
    /\ sent_field r "shipping" = Some (VNum (Infinity false))
    /\ sent_names r = ["transaction_id"; "shipping"].
Proof. eexists. split; [reflexivity |]. repeat split; vm_compute; reflexivity. Qed.

(** C1 fails as it is written: [tax calculate --amount abc] with a key
    configured is not refused.  One POST goes to [/taxes], its [amount] is
    [NaN] (which is [null] in the JSON text of the body), and the process
    ends with status 0. *)
Lemma non_numeric_amount_is_sent :
  parseFloat "abc" = NaN
  /\ (exists r,
        requests (run (demo_world no_tax) calculate_abc) = [r]
        /\ req_method r = POST /\ req_url r = "/taxes"
        /\ sent_field r "amount" = Some (VNum NaN)
        /\ option_map JSON_stringify (req_data r)
           = Some (Some ("{" ++ quote ++ "from_country" ++ quote ++ ":"
                         ++ quote ++ "US" ++ quote ++ ","
                         ++ quote ++ "from_zip" ++ quote ++ ":"
                         ++ quote ++ "94025" ++ quote ++ ","
                         ++ quote ++ "from_state" ++ quote ++ ":"
                         ++ quote ++ "CA" ++ quote ++ ","
                         ++ quote ++ "to_country" ++ quote ++ ":"
                         ++ quote ++ "US" ++ quote ++ ","
                         ++ quote ++ "to_zip" ++ quote ++ ":"
                         ++ quote ++ "10001" ++ quote ++ ","
                         ++ quote ++ "to_state" ++ quote ++ ":"
                         ++ quote ++ "NY" ++ quote ++ ","
                         ++ quote ++ "amount" ++ quote ++ ":null,"
                         ++ quote ++ "shipping" ++ quote ++ ":0}")))
  /\ exit_status (run (demo_world no_tax) calculate_abc) = 0%Z.
Proof.
  split; [reflexivity |]. split; [| reflexivity].
  eexists. split; [reflexivity |]. repeat split; reflexivity.
Qed.

(** C2, as the code has it.  For every command that calls the API, the
    command line that gives a text to every required flag (and the
    positional argument where there is one) and no optional flag makes,
    with a key configured, exactly one request, and its body or query is
    [minimal_payload]: the fields of the required flags and of the
    positional argument, and besides them the optional flags that declare
    a default, [shipping] (0) for [tax calculate] and [country] (US) for
    [rates get].  No optional flag without a default adds a field.
    [config set] and [config show] make no request. *)
Theorem minimal_command_line_payload w (apiKey : string) (c : command)
        (arg : option string) (text : string -> string) :
  configured w apiKey ->
  argument_given c arg ->
  if calls_api c then
    exists r, requests (run w (minimal c arg text)) = [r]
              /\ payload r = minimal_payload c arg text
  else requests (run w (minimal c arg text)) = [].
Proof.
  intros Hkey Harg.
  destruct c; cbn [calls_api];
    match goal with
    | |- requests _ = [] => reflexivity
    | |- exists r, requests (run w (minimal ?c arg text)) = _ /\ _ =>
        assert (Ho : parseOptions (declared (inv_command (minimal c arg text)))
                                  (inv_flags (minimal c arg text))
                     = ret (collect (declared c) (required_flags c text)))
          by reflexivity;
        rewrite (run_accepted w _ _ Ho);
        cbn [minimal inv_command inv_argument];
        rewrite (requests_action w apiKey c arg _ Hkey eq_refl Harg);
        eexists; split; [reflexivity | reflexivity]
    end.
Qed.

Lemma minimal_command_line_payload_witness :
  exists r,
    requests (run (demo_world no_tax)
                  (minimal RatesGet None (fun _ => "90002"))) = [r]
    /\ payload r = Some (VObj [("country", VStr "US")]).
Proof.
  apply (minimal_command_line_payload (demo_world no_tax) "0123456789abcdef"
           RatesGet None (fun _ => "90002")).
  - reflexivity.
  - intros H; contradiction H; reflexivity.
Defined.

(** C2 fails as it is written: [tax calculate] with its seven required
    flags and no other sends a [shipping] field, although [--shipping] is
    an optional flag that was not written. *)
Lemma omitted_shipping_is_sent :
  In (option_ "--shipping <amount>" (Some "0")) (declared TaxCalculate)
  /\ assoc "--shipping" (inv_flags calculate_required_only) = None
  /\ exists r,
       requests (run (demo_world no_tax) calculate_required_only) = [r]
       /\ sent_field r "shipping" = Some (VNum (Dec false 0 0))
       /\ sent_names r
          = ["from_country"; "from_zip"; "from_state"; "to_country"; "to_zip";
             "to_state"; "amount"; "shipping"].
Proof.
  split; [cbn; tauto |]. split; [reflexivity |].
  eexists. split; [reflexivity |]. split; reflexivity.
Qed.

(** *** Strings as lists of code units *)

Lemma string_of_app (l1 l2 : list ascii) :
  string_of_list_ascii (l1 ++ l2)
  = string_of_list_ascii l1 ++ string_of_list_ascii l2.
Proof. induction l1; simpl; congruence. Qed.

Lemma list_of_app (s1 s2 : string) :
  list_ascii_of_string (s1 ++ s2)
  = (list_ascii_of_string s1 ++ list_ascii_of_string s2)%list.
Proof. induction s1; simpl; congruence. Qed.

Lemma length_string_of (l : list ascii) :
  String.length (string_of_list_ascii l) = List.length l.
Proof. induction l; simpl; congruence. Qed.

Lemma length_list_of (s : string) :
  List.length (list_ascii_of_string s) = String.length s.
Proof. induction s; simpl; congruence. Qed.

Lemma length_append (a b : string) :
  String.length (a ++ b) = String.length a + String.length b.
Proof. induction a; simpl; congruence. Qed.

Lemma append_inv_tail (x y b : string) : x ++ b = y ++ b -> x = y.
Proof.
  intros H. apply (f_equal list_ascii_of_string) in H.
  rewrite !list_of_app in H. apply app_inv_tail in H.
  rewrite <- (string_of_list_ascii_of_string x),
          <- (string_of_list_ascii_of_string y).
  now f_equal.
Qed.

Lemma append_inv_head (a x y : string) : a ++ x = a ++ y -> x = y.
Proof. induction a; simpl; [auto | intros [= H]; auto]. Qed.

(** The two slices of [mask], for a key of four code units or more. *)
Lemma slice_first4 (k : string) :
  4 <= String.length k ->
  slice k 0 (Some 4%Z) = string_of_list_ascii (firstn 4 (list_ascii_of_string k)).
Proof.
  intros H. unfold slice, clamp_index. rewrite length_list_of.
  cbn [Z.ltb Z.compare]. f_equal.
  replace (Z.to_nat (Z.max (Z.min 4 (Z.of_nat (String.length k))
                            - Z.min 0 (Z.of_nat (String.length k))) 0))
    with 4 by lia.
  replace (Z.to_nat (Z.min 0 (Z.of_nat (String.length k)))) with 0 by lia.
  reflexivity.
Qed.

Lemma slice_last4 (k : string) :
  4 <= String.length k ->
  slice k (-4) None
  = string_of_list_ascii (skipn (String.length k - 4) (list_ascii_of_string k)).
Proof.
  intros H. unfold slice, clamp_index. rewrite length_list_of.
  cbn [Z.ltb Z.compare]. f_equal.
  set (n := String.length k) in *.
  replace (Z.to_nat (Z.max (Z.of_nat n - Z.max (Z.of_nat n + -4) 0) 0))
    with 4 by lia.
  replace (Z.to_nat (Z.max (Z.of_nat n + -4) 0)) with (n - 4) by lia.
  apply firstn_all2. rewrite length_skipn, length_list_of. fold n. lia.
Qed.

Lemma shown_stored w (k : string) :
  stored_apiKey w = Some k -> k <> "" ->
  shown_apiKey (showConfig w) = mask k.
Proof.
  intros Hk Hne. unfold showConfig, config_get_apiKey, or_str. rewrite Hk.
  apply eqb_eq_false in Hne. cbn [shown_apiKey]. rewrite Hne.
  destruct (k =? "") eqn:E; [congruence | reflexivity].
Qed.

Lemma getApiKey_environment w (k : string) :
  env_TAXJAR_API_KEY w = Some k -> k <> "" -> getApiKey w = ret k.
Proof.
  intros He Hk. unfold getApiKey, or_str. rewrite He.
  apply eqb_eq_false in Hk. rewrite Hk. now rewrite Hk.
Qed.

(** C4, as the code has it.  [getApiKey] returns the key of the
    environment whenever [TAXJAR_API_KEY] holds a text that is not empty,
    whatever is stored; a variable that is missing or empty counts as not
    set, and then the stored key is returned; the base URL is resolved the
    same way and falls back on the production endpoint; with no key in
    either place the process prints how to configure one and ends with
    status 1, before any request. *)
Theorem credential_precedence w :
  (forall k, env_TAXJAR_API_KEY w = Some k -> k <> "" -> getApiKey w = ret k)
  /\ (forall k, absent (env_TAXJAR_API_KEY w) -> stored_apiKey w = Some k ->
                k <> "" -> getApiKey w = ret k)
  /\ (absent (env_TAXJAR_API_KEY w) -> absent (stored_apiKey w) ->
      getApiKey w = (missing_key_report w, Exit 1)
      /\ exit_status (getApiKey w) = 1%Z)
  /\ (forall u, env_TAXJAR_BASE_URL w = Some u -> u <> "" -> getBaseUrl w = u)
  /\ (forall u, absent (env_TAXJAR_BASE_URL w) -> stored_baseUrl w = Some u ->
                getBaseUrl w = u)
  /\ (absent (env_TAXJAR_BASE_URL w) -> stored_baseUrl w = None ->
      getBaseUrl w = "https://api.taxjar.com/v2").
Proof.
  unfold getApiKey, getBaseUrl, config_get_apiKey, config_get_baseUrl, or_str,
    absent.
  repeat split; intros;
    repeat match goal with
           | H : _ \/ _ |- _ => destruct H
           | H : _ <> "" |- _ => apply eqb_eq_false in H
           | H : _ = Some _ |- _ => rewrite H
           | H : _ = None |- _ => rewrite H
           end;
    cbn [String.eqb];
    repeat match goal with
           | H : (_ =? "") = false |- _ => rewrite H
           end;
    reflexivity.
Qed.

Lemma credential_precedence_witness :
  getApiKey (key_world (Some "env-key-12345678") (Some "stored-key-1234"))
  = ret "env-key-12345678"
  /\ getApiKey (key_world None (Some "stored-key-1234")) = ret "stored-key-1234"
  /\ exit_status (getApiKey (key_world None None)) = 1%Z.
Proof.
  split; [| split].
  - apply (proj1 (credential_precedence
                    (key_world (Some "env-key-12345678") (Some "stored-key-1234")))
                 "env-key-12345678"); [reflexivity | discriminate].
  - apply (proj1 (proj2 (credential_precedence
                           (key_world None (Some "stored-key-1234"))))
                 "stored-key-1234");
      [left; reflexivity | reflexivity | discriminate].
  - apply (proj1 (proj2 (proj2 (credential_precedence (key_world None None)))));
      left; reflexivity.
Defined.

(** C4 fails as it is written: with [TAXJAR_API_KEY] set to the empty text
    and a key stored, the variable is set but the stored key is returned. *)
Lemma empty_variable_is_not_used :
  env_TAXJAR_API_KEY (key_world (Some "") (Some "stored-key-1234")) = Some ""
  /\ getApiKey (key_world (Some "") (Some "stored-key-1234"))
     = ret "stored-key-1234"
  /\ getApiKey (key_world (Some "") (Some "stored-key-1234")) <> ret "".
Proof. repeat split. discriminate. Qed.

(** C5, as the code has it.  For a stored key of eight code units or more,
    [showConfig] shows its first four and its last four code units with
    the four asterisks between them, twelve code units whatever the length
    of the key.  That is the key itself exactly when the key is its first
    four, four asterisks, and its last four. *)
Theorem masked_view w (k : string) :
  stored_apiKey w = Some k ->
  8 <= String.length k ->
  exists a mid b,
    k = a ++ mid ++ b
    /\ String.length a = 4 /\ String.length b = 4
    /\ shown_apiKey (showConfig w) = a ++ "****" ++ b
    /\ String.length (shown_apiKey (showConfig w)) = 12
    /\ (shown_apiKey (showConfig w) = k <-> mid = "****").
Proof.
  intros Hk Hlen.
  assert (Hne : k <> "") by (destruct k; [cbn in Hlen; lia | discriminate]).
  rewrite (shown_stored w k Hk Hne). unfold mask.
  rewrite slice_first4, slice_last4 by lia.
  set (chars := list_ascii_of_string k).
  set (n := String.length k) in *.
  assert (Hn : List.length chars = n) by apply length_list_of.
  exists (string_of_list_ascii (firstn 4 chars)),
         (string_of_list_ascii (firstn (n - 8) (skipn 4 chars))),
         (string_of_list_ascii (skipn (n - 4) chars)).
  assert (Hsplit : k = string_of_list_ascii (firstn 4 chars)
                       ++ string_of_list_ascii (firstn (n - 8) (skipn 4 chars))
                       ++ string_of_list_ascii (skipn (n - 4) chars)).
  { rewrite <- !string_of_app.
    replace (skipn (n - 4) chars) with (skipn (n - 8) (skipn 4 chars))
      by (rewrite skipn_skipn; f_equal; lia).
    rewrite (firstn_skipn (n - 8)), (firstn_skipn 4).
    symmetry. apply string_of_list_ascii_of_string. }
  assert (Ha : String.length (string_of_list_ascii (firstn 4 chars)) = 4)
    by (rewrite length_string_of, length_firstn; lia).
  assert (Hb : String.length (string_of_list_ascii (skipn (n - 4) chars)) = 4)
    by (rewrite length_string_of, length_skipn; lia).
  repeat split; auto.
  - rewrite !length_append, Ha, Hb. reflexivity.
  - intros H. rewrite Hsplit in H.
    apply append_inv_head, append_inv_tail in H. now symmetry.
  - intros H. rewrite Hsplit. now rewrite H.
Qed.

Lemma masked_view_witness :
  exists a mid b,
    "0123456789abcdef" = a ++ mid ++ b
    /\ String.length a = 4 /\ String.length b = 4
    /\ shown_apiKey (showConfig (key_world None (Some "0123456789abcdef")))
       = a ++ "****" ++ b
    /\ String.length
         (shown_apiKey (showConfig (key_world None (Some "0123456789abcdef"))))
       = 12
    /\ (shown_apiKey (showConfig (key_world None (Some "0123456789abcdef")))
        = "0123456789abcdef" <-> mid = "****").
Proof.
  apply (masked_view (key_world None (Some "0123456789abcdef"))
                     "0123456789abcdef").
  - reflexivity.
  - cbn. lia.
Defined.

(** C5 fails as it is written: for the stored key [abcd****wxyz], twelve
    code units long, [showConfig] returns the key itself. *)
Lemma masked_view_can_be_the_key :
  8 <= String.length "abcd****wxyz"
  /\ shown_apiKey (showConfig (key_world None (Some "abcd****wxyz")))
     = "abcd****wxyz".
Proof. split; [cbn; lia | reflexivity]. Qed.

(** C8.  With [TAXJAR_API_KEY] set and a stored key that is not empty,
    [showConfig] masks the stored key, while [getApiKey], when the variable
    is not empty, returns the key of the environment: the display can show
    another credential than the one the requests carry. *)
Theorem show_masks_the_stored_key :
  (forall w e s,
      env_TAXJAR_API_KEY w = Some e -> stored_apiKey w = Some s -> s <> "" ->
      shown_apiKey (showConfig w) = mask s
      /\ (e <> "" -> getApiKey w = ret e))
  /\ (exists w e s,
         env_TAXJAR_API_KEY w = Some e /\ stored_apiKey w = Some s
         /\ getApiKey w = ret e
         /\ shown_apiKey (showConfig w) = mask s
         /\ shown_apiKey (showConfig w) <> mask e).
Proof.
  split.
  - intros w e s He Hs Hne. split.
    + now apply shown_stored.
    + intros Hne'. now apply getApiKey_environment.
  - exists (key_world (Some "env-key-12345678") (Some "stored-key-1234")),
           "env-key-12345678", "stored-key-1234".
    repeat split. discriminate.
Qed.

Lemma show_masks_the_stored_key_witness :
  shown_apiKey
    (showConfig (key_world (Some "env-key-12345678") (Some "stored-key-1234")))
  = "stor****1234"
  /\ getApiKey (key_world (Some "env-key-12345678") (Some "stored-key-1234"))
     = ret "env-key-12345678".
Proof.
  destruct (proj1 show_masks_the_stored_key
                  (key_world (Some "env-key-12345678") (Some "stored-key-1234"))
                  "env-key-12345678" "stored-key-1234"
                  eq_refl eq_refl ltac:(discriminate)) as [Hshow Hget].
  split; [exact Hshow | apply Hget; discriminate].
Defined.

(** C9.  For a stored key of one to eight code units nothing is hidden:
    the two slices together are at least as long as the key, and every
    code unit of the key stands in the masked text, at its own place when
    it is among the first four and at the matching place of the last four
    otherwise. *)
Theorem short_key_is_fully_shown w (k : string) :
  stored_apiKey w = Some k ->
  1 <= String.length k <= 8 ->
  let view := shown_apiKey (showConfig w) in
  view = slice k 0 (Some 4%Z) ++ "****" ++ slice k (-4) None
  /\ String.length k
     <= String.length (slice k 0 (Some 4%Z)) + String.length (slice k (-4) None)
  /\ forall i c, String.get i k = Some c ->
       String.get (if (i <? 4)%nat then i else i + 12 - String.length k) view = Some c.
Proof.
  intros Hk Hlen view.
  assert (Hne : k <> "") by (destruct k; [cbn in Hlen; lia | discriminate]).
  unfold view. rewrite (shown_stored w k Hk Hne). clear view Hk Hne.
  split; [reflexivity |].
  destruct k as [| c1 [| c2 [| c3 [| c4 [| c5 [| c6 [| c7 [| c8 [| c9 k]]]]]]]]];
    cbn [String.length] in Hlen; try lia;
    (split; [vm_compute; lia |]);
    intros i c Hi;
    do 8 (destruct i as [| i];
          [cbn in Hi; first [discriminate Hi | vm_compute; exact Hi] |]);
    cbn in Hi; discriminate Hi.
Qed.

Lemma short_key_is_fully_shown_witness :
  1 <= String.length "secret" <= 8
  /\ String.get 5 "secret" = Some "t"%char
  /\ shown_apiKey (showConfig (key_world None (Some "secret"))) = "secr****cret"
  /\ String.get 11 (shown_apiKey (showConfig (key_world None (Some "secret"))))
     = Some "t"%char.
Proof.
  assert (Hlen : 1 <= String.length "secret" <= 8) by (cbn; lia).
  split; [exact Hlen |]. split; [reflexivity |]. split; [reflexivity |].
  exact (proj2 (proj2 (short_key_is_fully_shown
                         (key_world None (Some "secret")) "secret"
                         eq_refl Hlen))
               5 "t"%char eq_refl).
Defined.

(** *** Following a computation step by step *)

Lemma in_trace_here {A B} (m : M A) (f : A -> M B) (e : event) :
  In e (trace m) -> In e (trace (bind m f)).
Proof.
  intros H. destruct (trace_bind_prefix m f) as [rest ->].
  apply in_or_app; now left.
Qed.

Lemma in_trace_later {A B} (m : M A) (f : A -> M B) (a : A) (e : event) :
  result m = Return a -> In e (trace (f a)) -> In e (trace (bind m f)).
Proof.
  intros Hm H. rewrite (trace_bind m f a Hm). apply in_or_app; now right.
Qed.

Lemma in_trace_try {A} (m : M A) (h : error -> M A) (e : event) :
  In e (trace m) -> In e (trace (try_catch m h)).
Proof.
  destruct m as [tr [a | err | c]]; unfold try_catch; cbn; auto.
  destruct (h err); cbn. intros H. apply in_or_app; now left.
Qed.

Lemma in_logged {A} (m : M A) (line : string) :
  In (Log line) (trace m) -> In line (logged m).
Proof.
  intros H. unfold logged. apply in_flat_map. exists (Log line).
  split; [exact H | now left].
Qed.

Lemma prop_defined (v x : value) (k0 : string) :
  get v k0 = Some x -> forall k, prop v k = ret (get_opt v k).
Proof.
  intros H k. unfold prop, get_opt.
  destruct v; try discriminate H; reflexivity.
Qed.

Lemma includes_dollars (level : nat) :
  includes ("Tax to Collect:     " ++ chalk_at level [green; bold] "$8.88")
           "$8.88" = true.
Proof. destruct level; reflexivity. Qed.

(** C6.  Scenario A: [tax calculate] from 94025, CA to 10001, NY with
    amount 100.00 and shipping 5.00 (and any two countries), with a key
    configured, hands exactly one request to axios, a POST to [/taxes]
    whose body holds the four texts and the numbers 100 and 5; and when
    the answer is a 2xx whose [tax] object has [amount_to_collect] 8.88,
    a line printed by [console.log] contains [$8.88]. *)
Theorem scenario_A_request_and_output w (apiKey from_country to_country : string) :
  configured w apiKey ->
  let r := request_of w apiKey POST "/taxes" None
                      (Some (scenario_A_body from_country to_country)) in
  let m := run w (scenario_A from_country to_country) in
  requests m = [r]
  /\ sent_field r "from_zip" = Some (VStr "94025")
  /\ sent_field r "from_state" = Some (VStr "CA")
  /\ sent_field r "to_zip" = Some (VStr "10001")
  /\ sent_field r "to_state" = Some (VStr "NY")
  /\ sent_field r "amount" = Some (VNum (of_Z 100))
  /\ sent_field r "shipping" = Some (VNum (of_Z 5))
  /\ forall st d tax,
       respond w r = Answered st d -> is_2xx st = true ->
       get d "tax" = Some tax ->
       get tax "amount_to_collect" = Some (VNum n_8_88) ->
       exists line, In line (logged m) /\ includes line "$8.88" = true.
Proof.
  intros Hkey r m.
  assert (Ho : parseOptions
                 (declared (inv_command (scenario_A from_country to_country)))
                 (inv_flags (scenario_A from_country to_country))
               = ret (collect (declared TaxCalculate)
                              (inv_flags (scenario_A from_country to_country))))
    by reflexivity.
  assert (Hrun : m = tax_calculate w
                       (collect (declared TaxCalculate)
                                (inv_flags (scenario_A from_country to_country))))
    by (unfold m; now rewrite (run_accepted w _ _ Ho)).
  split; [| repeat (split; [reflexivity |])].
  - unfold m. rewrite (run_accepted w _ _ Ho).
    now rewrite (requests_action w apiKey TaxCalculate None _ Hkey eq_refl)
      by (intros H; contradiction H; reflexivity).
  - intros st d tax Hback H2xx Htax Hamount.
    exists ("Tax to Collect:     " ++ chalk w [green; bold] "$8.88").
    split; [| apply includes_dollars].
    apply in_logged. rewrite Hrun. unfold tax_calculate.
    eapply in_trace_later; [reflexivity |].
    apply in_trace_try.
    unfold calculateTax, client_post.
    rewrite (unwrap_spec w apiKey "tax" POST "/taxes" None _ Hkey).
    change (request_of w apiKey POST "/taxes" None
              (Some (tax_calculate_params
                       (collect (declared TaxCalculate)
                                (inv_flags (scenario_A from_country to_country))))))
      with r.
    rewrite Hback. unfold translated. rewrite H2xx, Htax.
    eapply in_trace_later; [reflexivity |].
    eapply in_trace_later; [reflexivity |].
    change (truthy (opt (collect (declared TaxCalculate)
                                 (inv_flags (scenario_A from_country to_country)))
                        "json")) with false.
    cbv iota.
    rewrite !(prop_defined tax _ _ Hamount).
    unfold get_opt at 4. rewrite Hamount.
    do 12 (eapply in_trace_later; [reflexivity |]).
    apply in_trace_here. now left.
Qed.

Lemma scenario_A_request_and_output_witness :
  exists line,
    In line (logged (run (demo_world tax_of_8_88) (scenario_A "US" "US")))
    /\ includes line "$8.88" = true.
Proof.
  apply (proj2 (proj2 (proj2 (proj2 (proj2 (proj2 (proj2
           (scenario_A_request_and_output (demo_world tax_of_8_88)
              "0123456789abcdef" "US" "US" eq_refl))))))))
    with (st := 200%Z)
         (d := VObj [("tax", VObj [("taxable_amount", VNum (of_Z 105));
                                   ("amount_to_collect", VNum n_8_88);
                                   ("rate", VNum (Dec false 8875 (-5)));
                                   ("has_nexus", VBool true);
                                   ("freight_taxable", VBool true)])])
         (tax := VObj [("taxable_amount", VNum (of_Z 105));
                       ("amount_to_collect", VNum n_8_88);
                       ("rate", VNum (Dec false 8875 (-5)));
                       ("has_nexus", VBool true);
                       ("freight_taxable", VBool true)]);
    reflexivity.
Defined.

(** C7, on the code.  [validate address] returns a list, and for an empty
    one without [--json] [console.log] prints nothing at all: the run is
    the spinner, the request and the spinner's count, where C7 wants a line
    that says that nothing was found.  [orders list], on the same answer,
    prints such a line, as do the other commands that return a list. *)
Lemma validate_address_prints_no_sentinel :
  listing ValidateAddress = Some "addresses"
  /\ logged (run (demo_world nothing_found) validate_us) = []
  /\ (exists r,
        trace (run (demo_world nothing_found) validate_us)
        = [SpinnerStart "Validating address..."; Axios r;
           SpinnerSucceed "Found 0 address match(es)"])
  /\ exit_status (run (demo_world nothing_found) validate_us) = 0%Z
  /\ logged (run (demo_world nothing_found) orders_list_plain)
     = ["No orders found for the given criteria."].
Proof.
  split; [reflexivity |]. split; [reflexivity |].
  split; [eexists; reflexivity |]. split; reflexivity.
Qed.

(** *** Numbers of things are zero only for nothing *)

Lemma strip10_nonzero (fuel : nat) :
  forall m e, m <> 0%N -> fst (strip10 fuel m e) <> 0%N.
Proof.
  induction fuel as [| f IH]; intros m e Hm; cbn [strip10 fst]; [exact Hm |].
  destruct ((m mod 10 =? 0) && negb (m =? 0))%N eqn:E; [| exact Hm].
  apply IH. apply andb_true_iff in E. destruct E as [E _].
  apply N.eqb_eq in E. intros Hdiv.
  pose proof (N.div_mod m 10 ltac:(discriminate)) as H.
  rewrite E, Hdiv in H. lia.
Qed.

Lemma is_zero_of_nat (n : nat) : n <> 0 -> is_zero (VNum (of_nat n)) = false.
Proof.
  intros Hn. unfold of_nat, of_N, normal.
  pose proof (strip10_nonzero (N.to_nat (N.size (N.of_nat n))) (N.of_nat n) 0
                              ltac:(lia)) as H.
  destruct (strip10 _ _ _) as [m e]; cbn [fst] in H.
  apply N.eqb_neq in H. rewrite H. cbn. exact H.
Qed.

(** *** What [printTable] prints for rows that have properties *)

Lemma cell_spec (row : value) (col : column) :
  has_properties row -> cell row col = ret (text_at row (key col)).
Proof.
  unfold has_properties, cell, prop, text_at, get_opt.
  destruct row; cbn; intros H; try discriminate H; reflexivity.
Qed.

Lemma assign_assign {A} (k : string) (v v' : A) (fields : list (string * A)) :
  assign k v (assign k v' fields) = assign k v fields.
Proof.
  induction fields as [| [k0 v0] rest IH]; simpl.
  - now rewrite String.eqb_refl.
  - destruct (k0 =? k) eqn:E; simpl.
    + now rewrite String.eqb_refl.
    + now rewrite E, IH.
Qed.

Lemma width_of_assign (k k' : string) (n : nat) (cw : list (string * nat)) :
  width_of (assign k' n cw) k = if k' =? k then n else width_of cw k.
Proof. unfold width_of. rewrite assoc_assign. now destruct (k' =? k). Qed.

Lemma widen_spec (col : column) (rows : list value) :
  Forall has_properties rows ->
  forall (n : nat) (cw : list (string * nat)),
    widen col rows (assign (key col) n cw)
    = ret (assign (key col)
                  (fold_left
                     (fun acc row =>
                        Nat.max acc (String.length (text_at row (key col))))
                     rows n)
                  cw).
Proof.
  induction 1 as [| row rest Hrow _ IH]; intros n cw;
    cbn [widen fold_left].
  - reflexivity.
  - rewrite (cell_spec row col Hrow), bind_ret.
    rewrite width_of_assign, String.eqb_refl, assign_assign.
    apply IH.
Qed.

Lemma measure_spec (rows : list value) (columns : list column) :
  Forall has_properties rows ->
  forall cw,
    measure (VArr rows) columns cw
    = ret (fold_left (fun cw col => assign (key col) (column_width rows col) cw)
                     columns cw).
Proof.
  intros Hrows. induction columns as [| col rest IH]; intros cw;
    cbn [measure items_for fold_left].
  - reflexivity.
  - rewrite bind_ret, (widen_spec col rows Hrows), bind_ret. apply IH.
Qed.

Lemma cells_spec (row : value) (width : column -> nat) (columns : list column) :
  has_properties row ->
  mapM (fun col => val <- cell row col ;; ret (padEnd val (width col))) columns
  = ret (map (fun col => padEnd (text_at row (key col)) (width col)) columns).
Proof.
  intros Hrow. induction columns as [| col rest IH]; cbn [mapM map].
  - reflexivity.
  - now rewrite (cell_spec row col Hrow), !bind_ret, IH, !bind_ret.
Qed.

Lemma rows_spec (width : column -> nat) (columns : list column)
      (rows : list value) :
  Forall has_properties rows ->
  forEach (fun row =>
             cells <- mapM (fun col =>
                              val <- cell row col ;;
                              ret (padEnd val (width col)))
                           columns ;;
             console_log (join "  " cells))
          rows
  = (map (fun row =>
            Log (join "  " (map (fun col =>
                                   padEnd (text_at row (key col)) (width col))
                                columns)))
         rows,
     Return tt).
Proof.
  induction 1 as [| row rest Hrow _ IH]; cbn [forEach map].
  - reflexivity.
  - rewrite (cells_spec row width columns Hrow), bind_ret, IH. reflexivity.
Qed.

Lemma printTable_spec w (rows : list value) (columns : list column) :
  rows <> [] ->
  Forall has_properties rows ->
  let cw := fold_left (fun cw col => assign (key col) (column_width rows col) cw)
                      columns [] in
  let width col := width_of cw (key col) in
  printTable w (VArr rows) columns
  = (Log (chalk w [bold; cyan]
            (join "  " (map (fun col => padEnd (label col) (width col)) columns)))
     :: Log (chalk w [dim]
               (join "  " (map (fun col => repeat_str "-" (width col)) columns)))
     :: map (fun row =>
               Log (join "  " (map (fun col =>
                                      padEnd (text_at row (key col)) (width col))
                                   columns)))
            rows,
     Return tt).
Proof.
  intros Hne Hrows cw width. unfold printTable.
  assert (Hlen : is_zero (get_opt (VArr rows) "length") = false)
    by (apply is_zero_of_nat; destruct rows; [contradiction | discriminate]).
  cbn [truthy negb orb]. rewrite Hlen.
  rewrite (measure_spec rows columns Hrows), bind_ret. fold cw.
  cbn [items_for]. rewrite bind_ret.
  rewrite (rows_spec _ columns rows Hrows). reflexivity.
Qed.

Lemma logged_lines {A} (lines : list string) (r : outcome A) :
  logged (map Log lines, r) = lines.
Proof.
  unfold logged; cbn. induction lines; cbn; congruence.
Qed.

Lemma column_width_of_empty_cells (rows : list value) (col : column) :
  Forall (fun row => text_at row (key col) = "") rows ->
  column_width rows col = String.length (label col).
Proof.
  unfold column_width. intros H. generalize (String.length (label col)).
  induction H as [| row rest Hrow _ IH]; intros start; simpl.
  - reflexivity.
  - rewrite Hrow. cbn [String.length]. rewrite Nat.max_0_r. apply IH.
Qed.

Lemma summary_row_cells (row : value) :
  summary_row row ->
  has_properties row
  /\ text_at row "minimum_rate.rate" = ""
  /\ text_at row "average_rate.rate" = "".
Proof.
  intros [fields [-> [Hmin Havg]]].
  unfold has_properties, text_at, get_opt, get. now rewrite Hmin, Havg.
Qed.

(** C10.  For every answer to [rates summary] whose rows are summary
    objects, the table printed without [--json] has nothing in its Min
    Rate and Avg Rate columns: [printTable] reads the property whose name
    is the whole dotted text, a summary object has none, and the cell is
    the empty text padded to the eight code units of the label, in every
    row, whatever sits under [minimum_rate] and [average_rate]. *)
Theorem summary_rate_columns_are_empty w (apiKey : string) (o : options)
        (st : Z) (d : value) (rows : list value) :
  configured w apiKey ->
  truthy (opt o "json") = false ->
  respond w (request_for w apiKey RatesSummary None o) = Answered st d ->
  is_2xx st = true ->
  get d "summary_rates" = Some (VArr rows) ->
  rows <> [] ->
  Forall summary_row rows ->
  let width k l := column_width rows {| key := k; label := l |} in
  logged (action w RatesSummary None o)
  = chalk w [bold; cyan]
      (join "  " [padEnd "Country" (width "country_code" "Country");
                  padEnd "Country Name" (width "country" "Country Name");
                  padEnd "Region" (width "region_code" "Region");
                  padEnd "Region Name" (width "region" "Region Name");
                  "Min Rate"; "Avg Rate"])
    :: chalk w [dim]
         (join "  " [repeat_str "-" (width "country_code" "Country");
                     repeat_str "-" (width "country" "Country Name");
                     repeat_str "-" (width "region_code" "Region");
                     repeat_str "-" (width "region" "Region Name");
                     "--------"; "--------"])
    :: map (fun row =>
              join "  "
                   [padEnd (text_at row "country_code")
                           (width "country_code" "Country");
                    padEnd (text_at row "country")
                           (width "country" "Country Name");
                    padEnd (text_at row "region_code")
                           (width "region_code" "Region");
                    padEnd (text_at row "region")
                           (width "region" "Region Name");
                    "        "; "        "])
           rows.
Proof.
  intros Hkey Hjson Hback H2xx Hget Hne Hrows width.
  assert (Hprops : Forall has_properties rows).
  { eapply Forall_impl; [| exact Hrows]. intros row H.
    apply (summary_row_cells row H). }
  assert (Hmin : column_width rows {| key := "minimum_rate.rate";
                                      label := "Min Rate" |} = 8).
  { apply column_width_of_empty_cells.
    eapply Forall_impl; [| exact Hrows]. intros row H.
    apply (summary_row_cells row H). }
  assert (Havg : column_width rows {| key := "average_rate.rate";
                                      label := "Avg Rate" |} = 8).
  { apply column_width_of_empty_cells.
    eapply Forall_impl; [| exact Hrows]. intros row H.
    apply (summary_row_cells row H). }
  unfold action, rates_summary, getSummaryRates, client_get.
  rewrite (unwrap_spec w apiKey) by exact Hkey.
  unfold request_for in Hback; cbv zeta in Hback |- *. rewrite Hback.
  unfold translated. rewrite H2xx, Hget, Hjson.
  rewrite bind_return.
  change (prop (VArr rows) "length")
    with (ret (VNum (of_nat (List.length rows)))).
  rewrite bind_ret.
  rewrite (printTable_spec w rows summary_columns Hne Hprops).
  cbv zeta. unfold summary_columns.
  cbn [fold_left key label map].
  rewrite !width_of_assign. cbn [String.eqb Ascii.eqb Bool.eqb].
  rewrite Hmin, Havg.
  unfold logged, trace, result, bind, try_catch, spinner_start,
    spinner_succeed, emit.
  cbn [fst snd app flat_map].
  subst width. cbv beta.
  generalize (column_width rows {| key := "country_code"; label := "Country" |}),
    (column_width rows {| key := "country"; label := "Country Name" |}),
    (column_width rows {| key := "region_code"; label := "Region" |}),
    (column_width rows {| key := "region"; label := "Region Name" |}).
  intros w1 w2 w3 w4.
  change (padEnd "Min Rate" 8) with "Min Rate".
  change (padEnd "Avg Rate" 8) with "Avg Rate".
  change (repeat_str "-" 8) with "--------".
  do 2 f_equal.
  clear - Hrows.
  induction Hrows as [| row rest Hrow _ IH]; [reflexivity |].
  cbn [map flat_map app]. f_equal; [| exact IH].
  destruct (summary_row_cells row Hrow) as [_ [-> ->]]. reflexivity.
Qed.

Lemma summary_rate_columns_are_empty_witness :
  logged (action (demo_world summary_of_two) RatesSummary None [])
  = ["Country  Country Name   Region  Region Name       Min Rate  Avg Rate";
     "-------  -------------  ------  ----------------  --------  --------";
     "US       United States  CA      California                          ";
     "CA       Canada         BC      British Columbia                    "].
Proof.
  refine (summary_rate_columns_are_empty (demo_world summary_of_two)
            "0123456789abcdef" [] 200 _ _ eq_refl eq_refl eq_refl eq_refl
            eq_refl _ _).
  - discriminate.
  - repeat constructor; eexists; repeat split; reflexivity.
Defined.

(** *** The built-ins on the texts the scenarios use *)

Example parseFloat_100 : parseFloat "100.00" = Dec false 1 2.
Proof. reflexivity. Qed.
Example parseFloat_abc : parseFloat "abc" = NaN.
Proof. reflexivity. Qed.
Example parseFloat_prefix : parseFloat " -12.50e1xyz" = Dec true 125 0.
Proof. reflexivity. Qed.
Example parseFloat_tenth : parseFloat "0.1" = Dec false 1 (-1).
Proof. vm_compute. reflexivity. Qed.
Example parseFloat_rounds_to_binary64 :
  parseFloat "9007199254740993" = Dec false 9007199254740992 0.
Proof. vm_compute. reflexivity. Qed.
Example parseFloat_beyond_the_largest : parseFloat "1e400" = Infinity false.
Proof. vm_compute. reflexivity. Qed.
Example parseFloat_below_the_smallest : parseFloat "-1e-400" = Dec true 0 0.
Proof. vm_compute. reflexivity. Qed.
Example parseFloat_long_literal :
  number_to_string (parseFloat "123456789012345678901234567890")
  = "1.2345678901234568e+29".
Proof. vm_compute. reflexivity. Qed.
Example percent_of_1_005 :
  times100_toFixed4 (VNum (Dec false 1005 (-3))) = "100.5000".
Proof. vm_compute. reflexivity. Qed.
Example percent_of_the_rate : times100_toFixed4 (VStr "0.08875") = "8.8750".
Proof. vm_compute. reflexivity. Qed.
Example to_string_888 : number_to_string (Dec false 888 (-2)) = "8.88".
Proof. reflexivity. Qed.
Example to_string_100 : number_to_string (parseFloat "100.00") = "100".
Proof. reflexivity. Qed.

(** Scenario B of the specification, on the model: [orders delete ORDER-123]
    answered with 404 ends with status 1 and a message that holds 404. *)
Example orders_delete_404 :
  let m := run (demo_world (Answered 404 (VObj [("error", VStr "Not Found");
                                               ("detail", VStr "No such order")])))
               {| inv_command := OrdersDelete; inv_argument := Some "ORDER-123";
                  inv_flags := [] |} in
  exit_status m = 1%Z
  /\ In (LogError "TaxJar API Error (404): No such order") (trace m).
Proof. split; [reflexivity | cbn; tauto]. Qed.

(** Scenario C: [nexus list --json] prints the two regions in their order. *)
Example nexus_list_json :
  logged (run (demo_world
                 (Answered 200
                    (VObj [("regions",
                            VArr [VObj [("region_code", VStr "CA")];
                                  VObj [("region_code", VStr "NY")]])])))
              {| inv_command := NexusList; inv_argument := None;
                 inv_flags := [("--json", VBool true)] |})
  = ["[" ++ newline
     ++ "  {" ++ newline
     ++ "    " ++ quote ++ "region_code" ++ quote ++ ": " ++ quote ++ "CA" ++ quote
     ++ newline ++ "  }," ++ newline
     ++ "  {" ++ newline
     ++ "    " ++ quote ++ "region_code" ++ quote ++ ": " ++ quote ++ "NY" ++ quote
     ++ newline ++ "  }" ++ newline ++ "]"].
Proof. reflexivity. Qed.

(* ------------------------------------------------------------------------- *)
(** ** Further properties of the code *)

(** *** The two ways [getApiKey] ends *)

Lemma getApiKey_cases w :
  (exists k, k <> "" /\ getApiKey w = ret k)
  \/ getApiKey w = (missing_key_report w, Exit 1).
Proof.
  unfold getApiKey.
  destruct (or_str (env_TAXJAR_API_KEY w) (config_get_apiKey w) =? "") eqn:E.
  - right. reflexivity.
  - left. eexists. split; [| reflexivity]. now apply eqb_eq_false.
Qed.

Lemma unwrap_without_key w (field : string) (call : client -> M response) :
  getApiKey w = (missing_key_report w, Exit 1) ->
  unwrap w field call = (missing_key_report w, Exit 1).
Proof. intros H. unfold unwrap, createClient. now rewrite H. Qed.

(** Unfolds an action and the API function it calls. *)
Ltac open_action :=
  unfold action, with_argument;
  unfold tax_calculate, rates_get, rates_summary, nexus_list, categories_list,
    orders_list, orders_get, orders_create, orders_update, orders_delete,
    refunds_list, refunds_get, refunds_create, validate_address, validate_vat;
  unfold calculateTax, getRates, getSummaryRates, getNexusRegions,
    getCategories, listOrders, getOrder, createOrder, updateOrder, deleteOrder,
    listRefunds, getRefund, createRefund, validateAddress, validateVat;
  unfold client_get, client_post, client_put, client_delete;
  cbv zeta.

Lemma action_without_key w (c : command) (arg : option string) (o : options) :
  getApiKey w = (missing_key_report w, Exit 1) ->
  calls_api c = true ->
  argument_given c arg ->
  action w c arg o
  = (SpinnerStart (start_text c arg o) :: missing_key_report w, Exit 1).
Proof.
  intros Hkey Hc Harg.
  destruct c; try discriminate Hc;
    try (destruct arg as [id |];
         [| exfalso; apply Harg; [discriminate | reflexivity]]);
    open_action; rewrite (unwrap_without_key w _ _ Hkey); reflexivity.
Qed.

(** X1.  With no key in the environment and none stored, no command
    reaches the network: the spinner is started, [getApiKey] prints how to
    configure a key and ends the process with status 1; the spinner is left
    as it is, and nothing goes to [console.log]. *)
Theorem no_key_no_request w (c : command) (arg : option string) (o : options) :
  absent (env_TAXJAR_API_KEY w) ->
  absent (stored_apiKey w) ->
  calls_api c = true ->
  argument_given c arg ->
  action w c arg o
  = (SpinnerStart (start_text c arg o) :: missing_key_report w, Exit 1).
Proof.
  intros Henv Hstored Hc Harg.
  apply action_without_key; try assumption.
  unfold getApiKey, or_str, config_get_apiKey.
  destruct Henv as [-> | ->], Hstored as [-> | ->]; reflexivity.
Qed.

Lemma no_key_no_request_witness :
  action (key_world None None) OrdersDelete (Some "ORDER-123") []
  = (SpinnerStart "Deleting order ORDER-123..."
       :: missing_key_report (key_world None None),
     Exit 1).
Proof.
  apply (no_key_no_request (key_world None None) OrdersDelete
           (Some "ORDER-123") []).
  - left; reflexivity.
  - left; reflexivity.
  - reflexivity.
  - discriminate.
Defined.

(** X4.  When the call of a command fails, whatever the kind of failure,
    the run is the spinner, the one call, the spinner's failure text and
    the error's message in red on [console.error], in this order; it ends
    with status 1 and has printed nothing with [console.log]. *)
Theorem failed_call_prints_no_result w (apiKey : string) (c : command)
        (arg : option string) (o : options) (e : error) :
  configured w apiKey ->
  calls_api c = true ->
  argument_given c arg ->
  translated (command_envelope c) (respond w (request_for w apiKey c arg o))
  = Throw e ->
  action w c arg o
  = ([SpinnerStart (start_text c arg o);
      Axios (request_for w apiKey c arg o);
      SpinnerFail (fail_text c);
      LogError (chalk w [red] (err_message e))],
     Exit 1).
Proof.
  intros Hkey Hc Harg Hback.
  destruct c; try discriminate Hc;
    try (destruct arg as [id |];
         [| exfalso; apply Harg; [discriminate | reflexivity]]);
    open_action; rewrite (unwrap_spec w apiKey) by exact Hkey;
    unfold request_for in Hback; cbv zeta in Hback |- *;
    cbn [command_envelope text_of] in Hback; rewrite Hback; reflexivity.
Qed.

Lemma failed_call_prints_no_result_witness :
  action (demo_world (Answered 404 (VObj [("detail", VStr "No such order")])))
         OrdersDelete (Some "ORDER-123") []
  = ([SpinnerStart "Deleting order ORDER-123...";
      Axios (request_for
               (demo_world (Answered 404 (VObj [("detail", VStr "No such order")])))
               "0123456789abcdef" OrdersDelete (Some "ORDER-123") []);
      SpinnerFail "Failed to delete order";
      LogError "TaxJar API Error (404): No such order"],
     Exit 1).
Proof.
  apply (failed_call_prints_no_result
           (demo_world (Answered 404 (VObj [("detail", VStr "No such order")])))
           "0123456789abcdef" OrdersDelete (Some "ORDER-123") []
           (thrown (ApiError 404 "No such order"))).
  - reflexivity.
  - reflexivity.
  - discriminate.
  - reflexivity.
Defined.

(** *** The only status a run ends the process with is 1 *)

Lemma exits_bind {A B} (m : M A) (f : A -> M B) :
  exits_with_1 m -> (forall a, exits_with_1 (f a)) -> exits_with_1 (bind m f).
Proof.
  intros Hm Hf. destruct m as [tr [a | e | c]]; unfold exits_with_1 in *.
  - intros code. rewrite (result_bind (tr, Return a) f a eq_refl). apply Hf.
  - discriminate.
  - intros code [= <-]. now apply Hm.
Qed.

Lemma exits_try_catch {A} (m : M A) (h : error -> M A) :
  exits_with_1 m -> (forall e, exits_with_1 (h e)) ->
  exits_with_1 (try_catch m h).
Proof.
  intros Hm Hh. destruct m as [tr [a | e | c]]; unfold exits_with_1 in *;
    unfold try_catch; try exact Hm.
  specialize (Hh e). destruct (h e) as [tr' r]. exact Hh.
Qed.

Lemma exits_ret {A} (a : A) : exits_with_1 (ret a).
Proof. discriminate. Qed.

Lemma exits_throw {A} (e : error) : exits_with_1 (@throw A e).
Proof. discriminate. Qed.

Lemma exits_emit (e : event) : exits_with_1 (emit e).
Proof. discriminate. Qed.

Lemma exits_process_exit_1 {A} : exits_with_1 (@process_exit A 1).
Proof. now intros code [= <-]. Qed.

Lemma exits_prop (v : value) (k : string) : exits_with_1 (prop v k).
Proof. unfold prop. destruct (get v k); discriminate. Qed.

Lemma exits_when (b : bool) (m : M unit) :
  exits_with_1 m -> exits_with_1 (when b m).
Proof. destruct b; simpl; auto using exits_ret. Qed.

Lemma exits_items (name meth : string) (v : value) :
  exits_with_1 (items_for name meth v).
Proof. destruct v; discriminate. Qed.

Create HintDb exits.
#[local] Hint Resolve exits_bind exits_try_catch exits_ret exits_throw
  exits_emit exits_process_exit_1 exits_prop exits_when exits_items : exits.
#[local] Hint Unfold console_log console_error spinner_start spinner_succeed
  spinner_fail setApiKey : exits.

Ltac exits_tac :=
  repeat (intros;
          match goal with
          | |- exits_with_1 (if ?b then _ else _) => destruct b
          | |- exits_with_1 (match ?x with _ => _ end) => destruct x
          | |- exits_with_1 (bind _ _) => apply exits_bind
          | |- exits_with_1 (try_catch _ _) => apply exits_try_catch
          | |- exits_with_1 (when _ _) => apply exits_when
          | |- exits_with_1 (emit _) => apply exits_emit
          | |- exits_with_1 (console_log _) => apply exits_emit
          | |- exits_with_1 (console_error _) => apply exits_emit
          | |- exits_with_1 (spinner_succeed _) => apply exits_emit
          | |- exits_with_1 (spinner_start _) => apply exits_emit
          | |- exits_with_1 (spinner_fail _) => apply exits_emit
          | |- exits_with_1 _ => solve [auto with exits]
          end).

Lemma exits_getApiKey w : exits_with_1 (getApiKey w).
Proof. unfold getApiKey. exits_tac. Qed.

Lemma exits_handleError {A} (e : error) : exits_with_1 (@handleError A e).
Proof.
  unfold handleError. destruct (err_response e) as [[st d] |]; exits_tac.
Qed.

Lemma exits_axios w (c : client) (m : method) (url : string)
      (params body : option value) :
  exits_with_1 (axios w c m url params body).
Proof. unfold axios. exits_tac. Qed.

#[local] Hint Resolve exits_getApiKey exits_handleError exits_axios : exits.

Lemma exits_unwrap w (field : string) (m : method) (url : string)
      (params body : option value) :
  exits_with_1 (unwrap w field (fun c => axios w c m url params body)).
Proof. unfold unwrap, createClient. exits_tac. Qed.

Lemma exits_printJson (v : value) : exits_with_1 (printJson v).
Proof. unfold printJson. exits_tac. Qed.

Lemma exits_log_if (obj : value) (field : string) (line : value -> string) :
  exits_with_1 (log_if obj field line).
Proof. unfold log_if. exits_tac. Qed.

Lemma exits_cell (row : value) (col : column) : exits_with_1 (cell row col).
Proof. unfold cell. exits_tac. Qed.

#[local] Hint Resolve exits_unwrap exits_printJson exits_log_if exits_cell
  : exits.

Lemma exits_widen (col : column) (rows : list value) :
  forall colWidths, exits_with_1 (widen col rows colWidths).
Proof. induction rows; cbn [widen]; exits_tac. Qed.

#[local] Hint Resolve exits_widen : exits.

Lemma exits_measure (d : value) (columns : list column) :
  forall colWidths, exits_with_1 (measure d columns colWidths).
Proof. induction columns; cbn [measure]; exits_tac. Qed.

Lemma exits_mapM {A B} (f : A -> M B) (l : list A) :
  (forall a, exits_with_1 (f a)) -> exits_with_1 (mapM f l).
Proof. intros Hf. induction l; cbn [mapM]; exits_tac. Qed.

Lemma exits_forEach {A} (f : A -> M unit) (l : list A) :
  (forall a, exits_with_1 (f a)) -> exits_with_1 (forEach f l).
Proof. intros Hf. induction l; cbn [forEach]; exits_tac. Qed.

#[local] Hint Resolve exits_measure exits_mapM exits_forEach : exits.

Lemma exits_printTable w (d : value) (columns : list column) :
  exits_with_1 (printTable w d columns).
Proof.
  unfold printTable. exits_tac.
  intros rows. apply exits_forEach. intros row. apply exits_bind.
  - apply exits_mapM. intros col. exits_tac.
  - intros cells. apply exits_emit.
Qed.

Lemma exits_tax_breakdown w (b : value) : exits_with_1 (tax_breakdown w b).
Proof. unfold tax_breakdown. exits_tac. Qed.

Lemma exits_transaction_summary w (text : string) (t : value) :
  exits_with_1 (transaction_summary w text t).
Proof. unfold transaction_summary. exits_tac. Qed.

Lemma exits_print_matches w (l : list value) :
  forall from, exits_with_1 (print_matches w from l).
Proof.
  induction l as [| addr rest IH]; intros from; cbn [print_matches]; exits_tac.
Qed.

Lemma exits_as_rows (name : string) (v : value) :
  exits_with_1 (as_transaction_rows name v).
Proof. unfold as_transaction_rows. exits_tac. Qed.

#[local] Hint Resolve exits_printTable exits_tax_breakdown
  exits_transaction_summary exits_print_matches exits_as_rows : exits.

Lemma handled_after_spinner w (start text : string) (body : M unit) :
  exits_with_1 body ->
  handled (spinner_start start ;; try_catch body (fail_with w text)).
Proof.
  intros Hbody. unfold handled.
  rewrite (result_bind (spinner_start start) _ tt eq_refl).
  destruct body as [tr [[] | e | c]]; cbn.
  - exact I.
  - reflexivity.
  - now apply Hbody.
Qed.

Lemma handled_commander_error (n : notice) :
  handled (@commander_error n unit).
Proof. reflexivity. Qed.

(** The three ways commander ends with the options of a command line. *)
Lemma parseOptions_cases (decls : list declaration)
      (given : list (string * value)) :
  ((asks_version given || asks_help given)%bool = false
   /\ parseOptions decls given = ret (collect decls given))
  \/ ((asks_version given || asks_help given)%bool = false
      /\ exists n, parseOptions decls given = ([Commander n], Exit 1))
  \/ ((asks_version given || asks_help given)%bool = true
      /\ exists n, parseOptions decls given = ([Commander n], Exit 0)).
Proof.
  unfold parseOptions.
  destruct (asks_version given);
    [right; right; split; [reflexivity | eexists; reflexivity] |].
  destruct (asks_help given);
    [right; right; split; [reflexivity | eexists; reflexivity] |].
  destruct (find _ decls);
    [right; left; split; [reflexivity | eexists; reflexivity] |].
  destruct (find _ given) as [[name v] |];
    [right; left; split; [reflexivity | eexists; reflexivity] |].
  left; split; reflexivity.
Qed.

(** X3.  Whatever the command line, the environment and the answer of the
    service, a run lets no exception out and ends with status 0 or 1.  A
    command line that asks commander for the version or for help is
    answered by commander, which ends the process with status 0; any other
    run returns, which leaves status 0, or ends the process with status
    1. *)
Theorem every_run_ends_with_0_or_1 w (inv : invocation) :
  (if answered_by_commander inv
   then result (run w inv) = Exit 0
   else handled (run w inv))
  /\ (exit_status (run w inv) = 0%Z \/ exit_status (run w inv) = 1%Z).
Proof.
  assert (H : if answered_by_commander inv
              then result (run w inv) = Exit 0
              else handled (run w inv)).
  { unfold run, answered_by_commander.
    destruct (parseOptions_cases (declared (inv_command inv)) (inv_flags inv))
      as [[-> ->] | [[-> [n ->]] | [-> [n ->]]]]; [| reflexivity | reflexivity].
    rewrite bind_ret.
    destruct inv as [c arg given]; cbn [inv_command inv_argument inv_flags].
    generalize (collect (declared c) given) as o. intros o.
    destruct c; unfold action, with_argument;
      try (destruct arg as [id |]; [| reflexivity]);
      try reflexivity;
      match goal with
      | |- handled (?f w o) => unfold f
      | |- handled (?f w _ o) => unfold f
      end;
      apply handled_after_spinner;
      unfold calculateTax, getRates, getSummaryRates, getNexusRegions,
        getCategories, listOrders, getOrder, createOrder, updateOrder,
        deleteOrder, listRefunds, getRefund, createRefund, validateAddress,
        validateVat, client_get, client_post, client_put, client_delete;
      cbv zeta; exits_tac. }
  split; [exact H |].
  unfold handled, exit_status in *.
  destruct (answered_by_commander inv); [rewrite H; now left |].
  destruct (result (run w inv)); [now left | contradiction | now right].
Qed.

(** X2.  A run hands at most one request to axios, and only with a key
    that is not empty: the request goes to the base URL of [getBaseUrl],
    with the key as bearer token, the JSON content type and the time-out
    of 30 seconds. *)
Theorem at_most_one_request w (inv : invocation) :
  requests (run w inv) = []
  \/ exists k r,
       k <> "" /\ getApiKey w = ret k
       /\ requests (run w inv) = [r]
       /\ req_baseURL r = getBaseUrl w
       /\ req_timeout r = 30000%Z
       /\ req_headers r = [("Authorization", "Bearer " ++ k);
                           ("Content-Type", "application/json")].
Proof.
  unfold run.
  destruct (parseOptions_cases (declared (inv_command inv)) (inv_flags inv))
    as [[_ ->] | [[_ [n ->]] | [_ [n ->]]]];
    [| left; reflexivity | left; reflexivity].
  rewrite bind_ret.
  destruct inv as [c arg given]; cbn [inv_command inv_argument inv_flags].
  generalize (collect (declared c) given) as o. intros o.
  destruct (calls_api c) eqn:Hc;
    [| left; destruct c; try discriminate Hc; reflexivity].
  assert (Harg : argument_given c arg \/ (argument_of c <> None /\ arg = None)).
  { destruct arg; [left; discriminate |].
    destruct (argument_of c) eqn:E;
      [right; split; [discriminate | reflexivity] | left; intros H; contradiction]. }
  destruct Harg as [Harg | [Hwant ->]].
  - destruct (getApiKey_cases w) as [[k [Hk Hkey]] | Hkey].
    + right. exists k, (request_for w k c arg o).
      rewrite (requests_action w k c arg o Hkey Hc Harg).
      repeat split; try assumption; destruct c; reflexivity.
    + left. now rewrite (action_without_key w c arg o Hkey Hc Harg).
  - left. destruct c; try (exfalso; apply Hwant; reflexivity); reflexivity.
Qed.

Lemma prop_of_value (v : value) (k : string) :
  nullish v = false -> prop v k = ret (get_opt v k).
Proof.
  unfold prop, get_opt. destruct v; cbn; intros H; try discriminate H;
    reflexivity.
Qed.

Lemma prop_of_nothing (v : value) (k : string) :
  nullish v = true ->
  prop v k = throw (Error ("Cannot read properties of " ++ to_string v
                           ++ " (reading '" ++ k ++ "')")).
Proof.
  unfold prop. destruct v; cbn; intros H; try discriminate H; reflexivity.
Qed.

(** X5.  With [--json], a command whose call succeeds prints one thing
    with [console.log], the unwrapped value as [JSON.stringify(value, null,
    2)] gives it, without labels or colour, and returns.  For a command
    that returns a list the value must not be [undefined] or [null] (its
    length is read first); for the others an envelope without the field
    prints the text [undefined] and still returns. *)
Theorem json_mode_prints_the_value w (apiKey : string) (c : command)
        (arg : option string) (o : options) (v : value) :
  configured w apiKey ->
  calls_api c = true ->
  argument_given c arg ->
  truthy (opt o "json") = true ->
  translated (command_envelope c) (respond w (request_for w apiKey c arg o))
  = Return v ->
  (listing c <> None -> nullish v = false) ->
  logged (action w c arg o) = [template (JSON_stringify_2 v)]
  /\ result (action w c arg o) = Return tt.
Proof.
  intros Hkey Hc Harg Hjson Hback Hlist.
  destruct c; try discriminate Hc;
    try (destruct arg as [id |];
         [| exfalso; apply Harg; [discriminate | reflexivity]]);
    open_action; rewrite (unwrap_spec w apiKey) by exact Hkey;
    unfold request_for in Hback; cbv zeta in Hback |- *;
    cbn [command_envelope text_of] in Hback; rewrite Hback;
    rewrite bind_return;
    rewrite ?(prop_of_value v "length") by (apply Hlist; discriminate);
    rewrite Hjson; split; reflexivity.
Qed.

Lemma json_mode_prints_the_value_witness :
  logged (action (demo_world nothing_found) OrdersList None
                 [("json", VBool true)])
  = ["[]"]
  /\ result (action (demo_world nothing_found) OrdersList None
                    [("json", VBool true)])
     = Return tt.
Proof.
  apply (json_mode_prints_the_value (demo_world nothing_found)
           "0123456789abcdef" OrdersList None [("json", VBool true)] (VArr []));
    try reflexivity.
  - intros H; contradiction H; reflexivity.
Defined.

(** X6.  A command that returns a list fails when the answer is a 2xx
    whose envelope has no list (or a [null] one): reading its length raises
    before the spinner is told of any success, so the run is the spinner,
    the call, the failure text and the TypeError's message, with status 1,
    with or without [--json]. *)
Theorem missing_list_fails w (apiKey : string) (c : command) (o : options)
        (field : string) (v : value) :
  configured w apiKey ->
  listing c = Some field ->
  translated field (respond w (request_for w apiKey c None o)) = Return v ->
  nullish v = true ->
  action w c None o
  = ([SpinnerStart (start_text c None o);
      Axios (request_for w apiKey c None o);
      SpinnerFail (fail_text c);
      LogError (chalk w [red]
                  ("Cannot read properties of " ++ to_string v
                   ++ " (reading 'length')"))],
     Exit 1).
Proof.
  intros Hkey Hlist Hback Hnull.
  destruct c; try discriminate Hlist; injection Hlist as <-;
    open_action; rewrite (unwrap_spec w apiKey) by exact Hkey;
    unfold request_for in Hback; cbv zeta in Hback |- *; rewrite Hback;
    rewrite bind_return, (prop_of_nothing v "length" Hnull); reflexivity.
Qed.

Lemma missing_list_fails_witness :
  action (demo_world (Answered 200 (VObj []))) NexusList None []
  = ([SpinnerStart "Fetching nexus regions...";
      Axios (request_for (demo_world (Answered 200 (VObj [])))
                         "0123456789abcdef" NexusList None []);
      SpinnerFail "Failed to fetch nexus regions";
      LogError "Cannot read properties of undefined (reading 'length')"],
     Exit 1).
Proof.
  apply (missing_list_fails (demo_world (Answered 200 (VObj [])))
           "0123456789abcdef" NexusList [] "regions" VUndef);
    reflexivity.
Defined.

(** X7.  A command that prints the fields of one entity, run without
    [--json] on a 2xx answer whose envelope has no such entity, tells the
    spinner of success, prints the lines that need no field, and then fails
    on the first field it reads: the spinner is told of failure, the
    TypeError's message goes to [console.error] and the status is 1. *)
Theorem missing_entity_fails_after_success w (apiKey : string) (c : command)
        (arg : option string) (o : options) (field : string) (v : value) :
  configured w apiKey ->
  first_read c = Some field ->
  argument_given c arg ->
  truthy (opt o "json") = false ->
  translated (command_envelope c) (respond w (request_for w apiKey c arg o))
  = Return v ->
  nullish v = true ->
  exists lines,
    action w c arg o
    = ((SpinnerStart (start_text c arg o)
          :: Axios (request_for w apiKey c arg o)
          :: SpinnerSucceed (succeed_text c)
          :: map Log lines
          ++ [SpinnerFail (fail_text c);
              LogError (chalk w [red]
                          ("Cannot read properties of " ++ to_string v
                           ++ " (reading '" ++ field ++ "')"))])%list,
       Exit 1).
Proof.
  intros Hkey Hread Harg Hjson Hback Hnull.
  destruct c; try discriminate Hread; injection Hread as <-;
    try (destruct arg as [id |];
         [| exfalso; apply Harg; [discriminate | reflexivity]]);
    open_action; unfold transaction_summary, log_if;
    rewrite (unwrap_spec w apiKey) by exact Hkey;
    unfold request_for in Hback; cbv zeta in Hback |- *;
    cbn [command_envelope text_of] in Hback; rewrite Hback;
    rewrite bind_return, Hjson;
    match goal with
    | |- context [prop v ?k] => rewrite (prop_of_nothing v k Hnull)
    end.
  - exists [""; chalk w [bold] "Tax Calculation Result"; chalk w [dim] (rule 22);
            "Order Amount:       "
            ++ chalk w [white] ("$" ++ to_string (opt o "amount"))].
    reflexivity.
  - exists [""; chalk w [bold] ("Tax Rates for " ++ to_string (opt o "zip")
                                ++ " (" ++ to_string (opt o "country") ++ ")");
            chalk w [dim] (rule 34)].
    reflexivity.
  - exists [""]. reflexivity.
  - exists []. reflexivity.
  - exists []. reflexivity.
  - exists [""]. reflexivity.
  - exists []. reflexivity.
  - exists [""; chalk w [bold] "VAT Validation Result"; chalk w [dim] (rule 21)].
    reflexivity.
Qed.

Lemma missing_entity_fails_after_success_witness :
  exists lines,
    action (demo_world (Answered 200 (VObj []))) OrdersGet (Some "ORDER-123") []
    = ((SpinnerStart "Fetching order ORDER-123..."
          :: Axios (request_for (demo_world (Answered 200 (VObj [])))
                                "0123456789abcdef" OrdersGet (Some "ORDER-123") [])
          :: SpinnerSucceed "Order retrieved"
          :: map Log lines
          ++ [SpinnerFail "Failed to fetch order";
              LogError
                "Cannot read properties of undefined (reading 'transaction_id')"])%list,
       Exit 1).
Proof.
  apply (missing_entity_fails_after_success (demo_world (Answered 200 (VObj [])))
           "0123456789abcdef" OrdersGet (Some "ORDER-123") [] "transaction_id"
           VUndef);
    try reflexivity.
  discriminate.
Defined.

(** *** More on [printTable] *)

Lemma first_bad_row (rows : list value) :
  Exists (fun row => nullish row = true) rows ->
  exists good bad rest,
    rows = (good ++ bad :: rest)%list
    /\ Forall has_properties good /\ nullish bad = true.
Proof.
  induction rows as [| row rows IH]; intros H; [inversion H |].
  destruct (nullish row) eqn:E.
  - exists [], row, rows. repeat split; [constructor | exact E].
  - assert (H' : Exists (fun row => nullish row = true) rows)
      by (inversion H; subst; [congruence | assumption]).
    destruct (IH H') as [good [bad [rest [-> [Hgood Hbad]]]]].
    exists (row :: good), bad, rest. repeat split; [constructor |]; assumption.
Qed.

Lemma widen_bad_row (col : column) (good : list value) (bad : value)
      (rest : list value) :
  Forall has_properties good -> nullish bad = true ->
  forall cw,
    widen col (good ++ bad :: rest) cw
    = throw (Error ("Cannot read properties of " ++ to_string bad
                    ++ " (reading '" ++ key col ++ "')")).
Proof.
  intros Hgood Hbad.
  induction Hgood as [| row good Hrow _ IH]; intros cw; cbn [app widen].
  - unfold cell. now rewrite (prop_of_nothing bad (key col) Hbad).
  - rewrite (cell_spec row col Hrow), bind_ret. apply IH.
Qed.

(** X8.  [printTable] prints no part of a table that has a row it cannot
    read: when a row is [null] or [undefined] (and there is a column), the
    TypeError of the first such row is raised while the widths are
    measured, before the header is printed. *)
Theorem printTable_prints_no_partial_table w (rows : list value)
        (col : column) (columns : list column) :
  Exists (fun row => nullish row = true) rows ->
  exists bad,
    In bad rows /\ nullish bad = true
    /\ printTable w (VArr rows) (col :: columns)
       = ([], Throw (Error ("Cannot read properties of " ++ to_string bad
                            ++ " (reading '" ++ key col ++ "')"))).
Proof.
  intros H. destruct (first_bad_row rows H) as [good [bad [rest [-> [Hgood Hbad]]]]].
  exists bad. split; [apply in_or_app; right; now left |]. split; [exact Hbad |].
  unfold printTable.
  assert (Hlen : is_zero (get_opt (VArr (good ++ bad :: rest)) "length") = false)
    by (apply is_zero_of_nat; destruct good; discriminate).
  cbn [truthy negb orb]. rewrite Hlen.
  cbn [measure items_for]. rewrite bind_ret.
  now rewrite (widen_bad_row col good bad rest Hgood Hbad).
Qed.

Lemma printTable_prints_no_partial_table_witness :
  exists bad,
    In bad [VObj [("id", VStr "1")]; VNull] /\ nullish bad = true
    /\ printTable (demo_world nothing_found)
                  (VArr [VObj [("id", VStr "1")]; VNull])
                  [ {| key := "id"; label := "ID" |} ]
       = ([], Throw (Error ("Cannot read properties of " ++ to_string bad
                            ++ " (reading '" ++ "id" ++ "')"))).
Proof.
  apply (printTable_prints_no_partial_table (demo_world nothing_found)
           [VObj [("id", VStr "1")]; VNull] {| key := "id"; label := "ID" |} []).
  apply Exists_cons_tl, Exists_cons_hd. reflexivity.
Defined.












Lemma fold_left_over_map {A B C} (f : A -> C -> A) (g : B -> C) (l : list B) :
  forall a, fold_left f (map g l) a = fold_left (fun a x => f a (g x)) l a.
Proof. induction l; intros a0; cbn [map fold_left]; auto. Qed.

Lemma transaction_rows_can_be_read (ids : list value) :
  Forall has_properties (map (fun id => VObj [("transaction_id", id)]) ids).
Proof. induction ids; constructor; auto. reflexivity. Qed.

(** X10.  [orders list] and [refunds list], without [--json], print the
    ids of a non-empty answer one per line in the order of the answer,
    under the header and the separator, each padded to the width of the
    column; an id that is [null] gives an empty line, and no array of ids
    makes the command fail.  [orders list] adds its hint below. *)
Theorem transaction_list_keeps_the_order w (apiKey : string) (c : command)
        (o : options) (ids : list value) :
  configured w apiKey ->
  c = OrdersList \/ c = RefundsList ->
  truthy (opt o "json") = false ->
  translated (command_envelope c) (respond w (request_for w apiKey c None o))
  = Return (VArr ids) ->
  ids <> [] ->
  result (action w c None o) = Return tt
  /\ logged (action w c None o)
     = (chalk w [bold; cyan] (padEnd "Transaction ID" (id_width ids))
        :: chalk w [dim] (repeat_str "-" (id_width ids))
        :: map (fun id => padEnd (id_text id) (id_width ids)) ids
        ++ list_hint w c)%list.
Proof.
  intros Hkey Hc Hjson Hback Hne.
  assert (Hlen : is_zero (VNum (of_nat (List.length ids))) = false)
    by (apply is_zero_of_nat; destruct ids; [contradiction | discriminate]).
  assert (Hrows : map (fun id => VObj [("transaction_id", id)]) ids <> [])
    by (destruct ids; [contradiction | discriminate]).
  assert (Hwidth :
            width_of
              (assign "transaction_id"
                 (column_width (map (fun id => VObj [("transaction_id", id)]) ids)
                               {| key := "transaction_id";
                                  label := "Transaction ID" |}) [])
              "transaction_id"
            = id_width ids).
  { rewrite width_of_assign, String.eqb_refl. unfold column_width, id_width.
    now rewrite fold_left_over_map. }
  destruct Hc as [-> | ->];
    open_action; rewrite (unwrap_spec w apiKey) by exact Hkey;
    unfold request_for in Hback; cbv zeta in Hback |- *;
    cbn [command_envelope] in Hback; rewrite Hback;
    rewrite bind_return;
    change (prop (VArr ids) "length")
      with (ret (VNum (of_nat (List.length ids))));
    rewrite bind_ret, Hjson, Hlen;
    unfold as_transaction_rows; cbn [items_for]; rewrite !bind_ret;
    rewrite (printTable_spec w _ _ Hrows (transaction_rows_can_be_read ids));
    cbv zeta; cbn [fold_left key label map]; rewrite Hwidth;
    rewrite map_map;
    unfold logged, trace, result, bind, try_catch, spinner_start,
      spinner_succeed, console_log, emit;
    cbn [fst snd app flat_map list_hint];
    (split; [reflexivity |]);
    do 2 f_equal;
    rewrite ?flat_map_app; cbn [flat_map app]; rewrite ?app_nil_r;
    try f_equal;
    generalize (id_width ids); intros width;
    clear; induction ids as [| id rest IH]; cbn [map flat_map app];
      try reflexivity; now rewrite IH.
Qed.

Lemma transaction_list_keeps_the_order_witness :
  logged (action (demo_world three_orders) OrdersList None [])
  = ["Transaction ID"; "--------------";
     "B-2           "; "A-1           "; "ORDER-000123  ";
     newline ++ "Use `taxjar orders get <transaction-id>` to see order details."].
Proof.
  refine (proj2 (transaction_list_keeps_the_order (demo_world three_orders)
                   "0123456789abcdef" OrdersList []
                   [VStr "B-2"; VStr "A-1"; VStr "ORDER-000123"]
                   eq_refl (or_introl eq_refl) eq_refl eq_refl _)).
  discriminate.
Defined.

(** *** The fields of a payload *)

Lemma names_assign {A} (k k' : string) (v : A) (fields : list (string * A)) :
  In k (map fst (assign k' v fields)) -> k = k' \/ In k (map fst fields).
Proof.
  induction fields as [| [k0 v0] rest IH]; cbn [assign map fst In].
  - intros [<- | []]. now left.
  - destruct (k0 =? k'); cbn [map fst In].
    + intros [<- | H]; [now left | right; now right].
    + intros [<- | H]; [right; now left |].
      destruct (IH H); [now left | right; now right].
Qed.

Lemma names_assign_if (k k' : string) (v : value)
      (fields : list (string * value)) :
  In k (map fst (assign_if k' v fields)) -> k = k' \/ In k (map fst fields).
Proof.
  unfold assign_if. destruct (truthy v); [apply names_assign | now right].
Qed.

Lemma names_assign_float_if (k k' : string) (v : value)
      (fields : list (string * value)) :
  In k (map fst (assign_float_if k' v fields)) ->
  k = k' \/ In k (map fst fields).
Proof.
  unfold assign_float_if. destruct (truthy v); [apply names_assign | now right].
Qed.

(** X11.  Every field of a payload holds what its flag was given: a field
    of the object literal holds the text of its flag (through [parseFloat]
    for a numeric flag) whatever else was written, and a field set under
    [if] is sent with its text exactly when the text is not empty, so an
    optional flag written with an empty text is dropped, not sent as an
    empty string; for [orders update] this includes the numeric flags,
    where the text [0] is sent as the number 0. *)
Theorem payload_holds_the_flags w (apiKey : string) (c : command)
        (arg : option string) (o : options) (f : origin) :
  configured w apiKey ->
  calls_api c = true ->
  argument_given c arg ->
  In f (payload_fields c) ->
  exists r,
    requests (action w c arg o) = [r]
    /\ sent_field r (field_name f) = sent_value o f.
Proof.
  intros Hkey Hc Harg Hin.
  rewrite (requests_action w apiKey c arg o Hkey Hc Harg).
  eexists; split; [reflexivity |].
  destruct c; cbn [payload_fields In] in Hin; try contradiction;
    repeat match goal with
           | H : _ \/ _ |- _ => destruct H as [H | H]
           | H : False |- _ => contradiction
           | H : from_flag _ _ _ _ = f |- _ => subst f
           end;
    unfold sent_field, sent_value, payload, request_for, request_of;
    cbn [req_data req_params from_flag field_name attribute_name numeric always];
    unfold tax_calculate_params, rates_get_params, orders_list_params,
      orders_create_params, orders_update_params, refunds_list_params,
      refunds_create_params, validate_address_params;
    rewrite ?assoc_assign_if, ?assoc_assign_float_if;
    cbn [assoc String.eqb Ascii.eqb Bool.eqb andb];
    reflexivity.
Qed.

Lemma payload_holds_the_flags_witness :
  exists r,
    requests (action (demo_world no_tax) TaxCalculate None
                     calculate_with_empty_city) = [r]
    /\ sent_field r "from_city" = None.
Proof.
  apply (payload_holds_the_flags (demo_world no_tax) "0123456789abcdef"
           TaxCalculate None calculate_with_empty_city
           (from_flag "from_city" "fromCity" false false)).
  - reflexivity.
  - reflexivity.
  - intros H; contradiction H; reflexivity.
  - cbn. tauto.
Defined.

(** X12.  Nothing else is sent: every field of the payload of a request is
    the field of one of the command's flags, or the field that holds the
    positional argument. *)
Theorem payload_holds_nothing_else w (apiKey : string) (c : command)
        (arg : option string) (o : options) :
  configured w apiKey ->
  calls_api c = true ->
  argument_given c arg ->
  exists r,
    requests (action w c arg o) = [r]
    /\ forall k, In k (sent_names r) ->
         In k (map field_name (payload_fields c)) \/ argument_field c = Some k.
Proof.
  intros Hkey Hc Harg.
  rewrite (requests_action w apiKey c arg o Hkey Hc Harg).
  eexists; split; [reflexivity |].
  intros k Hk.
  destruct c; try discriminate Hc;
    unfold sent_names, payload, request_for, request_of in Hk;
    cbn [req_data req_params] in Hk;
    unfold tax_calculate_params, rates_get_params, orders_list_params,
      orders_create_params, orders_update_params, refunds_list_params,
      refunds_create_params, validate_address_params in Hk;
    try contradiction;
    repeat match goal with
           | H : In _ (map fst (assign_if _ _ _)) |- _ =>
               apply names_assign_if in H; destruct H as [-> | H]
           | H : In _ (map fst (assign_float_if _ _ _)) |- _ =>
               apply names_assign_float_if in H; destruct H as [-> | H]
           end;
    cbn [map fst In] in *; cbn [payload_fields map field_name from_flag In
                                  argument_field];
    try tauto;
    repeat match goal with
           | H : _ \/ _ |- _ => destruct H as [<- | H]
           | H : False |- _ => contradiction
           end;
    tauto.
Qed.

Lemma payload_holds_nothing_else_witness :
  exists r,
    requests (action (demo_world no_tax) OrdersUpdate (Some "ORDER-123")
                     [("amount", VStr "0")]) = [r]
    /\ forall k, In k (sent_names r) ->
         In k ["amount"; "shipping"; "sales_tax"; "transaction_date"]
         \/ Some "transaction_id" = Some k.
Proof.
  apply (payload_holds_nothing_else (demo_world no_tax) "0123456789abcdef"
           OrdersUpdate (Some "ORDER-123") [("amount", VStr "0")]).
  - reflexivity.
  - reflexivity.
  - discriminate.
Defined.

(** *** The path of a request *)

(** A test that holds for each of the 256 code units holds for all. *)
Lemma every_code_unit (test : ascii -> bool) :
  forallb test (map ascii_of_nat (seq 0 256)) = true ->
  forall c, test c = true.
Proof.
  intros H c. rewrite forallb_forall in H. apply H.
  rewrite <- (ascii_nat_embedding c). apply in_map, in_seq.
  pose proof (nat_ascii_bounded c). lia.
Qed.

Lemma encode_char_is_safe (c : ascii) :
  Forall (fun x => segment_safe x = true) (list_ascii_of_string (encode_char c)).
Proof.
  apply Forall_forall. intros x Hx.
  pose proof (every_code_unit
                (fun c => forallb segment_safe
                                  (list_ascii_of_string (encode_char c)))
                ltac:(vm_compute; reflexivity) c) as H.
  rewrite forallb_forall in H. now apply H.
Qed.

Lemma encodeURIComponent_is_safe (s : string) :
  Forall (fun x => segment_safe x = true)
         (list_ascii_of_string (encodeURIComponent s)).
Proof.
  induction s as [| c rest IH]; cbn [encodeURIComponent].
  - constructor.
  - rewrite list_of_app. apply Forall_app. split; [apply encode_char_is_safe | exact IH].
Qed.

Lemma safe_is_no_separator (x : ascii) :
  segment_safe x = true ->
  x <> "/"%char /\ x <> "?"%char /\ x <> "#"%char /\ x <> "&"%char
  /\ x <> "="%char /\ x <> " "%char.
Proof. intros H. repeat split; intros ->; discriminate H. Qed.

Lemma requests_perform w (apiKey : string) (op : operation) :
  configured w apiKey ->
  requests (perform w op) = [op_request w apiKey op].
Proof. intros Hkey. now rewrite (perform_spec w apiKey op Hkey). Qed.

(** X13.  A text that an API function puts into the path of its request
    (the ZIP in [getRates], the transaction id in [getOrder],
    [updateOrder], [deleteOrder] and [getRefund]) cannot leave its segment:
    the path of the one request the function makes is the fixed part
    followed by [encodeURIComponent] of the text, and no code unit after
    the fixed part is a slash, a question mark, a hash, an ampersand, an
    equals sign or a space. *)
Theorem path_text_stays_in_its_segment w (apiKey : string) (op : operation)
        (fixed text : string) :
  configured w apiKey ->
  path_of op = Some (fixed, text) ->
  exists r segment,
    requests (perform w op) = [r]
    /\ req_url r = fixed ++ segment
    /\ segment = encodeURIComponent text
    /\ forall x, In x (list_ascii_of_string segment) ->
         x <> "/"%char /\ x <> "?"%char /\ x <> "#"%char /\ x <> "&"%char
         /\ x <> "="%char /\ x <> " "%char.
Proof.
  intros Hkey Hop.
  exists (op_request w apiKey op), (encodeURIComponent text).
  split; [now apply requests_perform |].
  split; [destruct op; try discriminate Hop; injection Hop as <- <-; reflexivity |].
  split; [reflexivity |].
  intros x Hx. apply safe_is_no_separator.
  pose proof (encodeURIComponent_is_safe text) as H.
  rewrite Forall_forall in H. now apply H.
Qed.

Lemma path_text_stays_in_its_segment_witness :
  exists r segment,
    requests (perform (demo_world no_tax) (op_deleteOrder "../refunds/R 1?x=1"))
    = [r]
    /\ req_url r = "/transactions/orders/" ++ segment
    /\ segment = "..%2Frefunds%2FR%201%3Fx%3D1"
    /\ forall x, In x (list_ascii_of_string segment) ->
         x <> "/"%char /\ x <> "?"%char /\ x <> "#"%char /\ x <> "&"%char
         /\ x <> "="%char /\ x <> " "%char.
Proof.
  exact (path_text_stays_in_its_segment (demo_world no_tax) "0123456789abcdef"
           (op_deleteOrder "../refunds/R 1?x=1") "/transactions/orders/"
           "../refunds/R 1?x=1" eq_refl eq_refl).
Defined.

Lemma read_escape_app (s rest r : string) (b : nat) :
  read_escape s = Some (b, r) -> read_escape (s ++ rest) = Some (b, r ++ rest).
Proof.
  destruct s as [| p [| x [| y s']]]; cbn [read_escape append];
    try discriminate.
  destruct (nat_of_ascii p =? 37)%nat; [| discriminate].
  destruct (hex_value x); [| discriminate].
  destruct (hex_value y); [| discriminate].
  now intros [= <- <-].
Qed.

Lemma decode_first_app (s rest r : string) (c : ascii) :
  decode_first s = Some (c, r) ->
  decode_first (s ++ rest) = Some (c, r ++ rest).
Proof.
  destruct s as [| p s']; [discriminate |].
  change (String p s' ++ rest) with (String p (s' ++ rest)).
  unfold decode_first.
  destruct (nat_of_ascii p =? 37)%nat; [| now intros [= <- <-]].
  change (String p (s' ++ rest)) with (String p s' ++ rest).
  destruct (read_escape (String p s')) as [[b r1] |] eqn:E1; [| discriminate].
  rewrite (read_escape_app _ rest _ _ E1).
  destruct (b <? 128)%nat; [now intros [= <- <-] |].
  destruct (read_escape r1) as [[b' r2] |] eqn:E2; [| discriminate].
  rewrite (read_escape_app _ rest _ _ E2). now intros [= <- <-].
Qed.

Lemma decode_first_encode_char (c : ascii) (rest : string) :
  decode_first (encode_char c ++ rest) = Some (c, rest).
Proof.
  pose proof (every_code_unit
                (fun c => match decode_first (encode_char c) with
                          | Some (c', EmptyString) => Ascii.eqb c' c
                          | _ => false
                          end)
                ltac:(vm_compute; reflexivity) c) as H.
  cbv beta in H.
  destruct (decode_first (encode_char c)) as [[c' [| x r]] |] eqn:E;
    try discriminate H.
  apply Ascii.eqb_eq in H. subst c'.
  now rewrite (decode_first_app _ rest _ _ E).
Qed.

Lemma encodeURIComponent_injective (s1 s2 : string) :
  encodeURIComponent s1 = encodeURIComponent s2 -> s1 = s2.
Proof.
  revert s2. induction s1 as [| c1 r1 IH]; intros [| c2 r2] H;
    cbn [encodeURIComponent] in H.
  - reflexivity.
  - apply (f_equal decode_first) in H.
    rewrite decode_first_encode_char in H. discriminate H.
  - apply (f_equal decode_first) in H.
    rewrite decode_first_encode_char in H. discriminate H.
  - apply (f_equal decode_first) in H.
    rewrite !decode_first_encode_char in H. injection H as <- H.
    f_equal. now apply IH.
Qed.

(** X14.  Two different texts never give the same path: with the same
    fixed part, the requests two API functions make for two different
    transaction ids (or ZIPs) have different paths, also when one text is
    the encoded form of the other. *)
Theorem different_texts_different_paths w (apiKey : string)
        (op1 op2 : operation) (fixed text1 text2 : string) :
  configured w apiKey ->
  path_of op1 = Some (fixed, text1) ->
  path_of op2 = Some (fixed, text2) ->
  text1 <> text2 ->
  exists r1 r2,
    requests (perform w op1) = [r1]
    /\ requests (perform w op2) = [r2]
    /\ req_url r1 <> req_url r2.
Proof.
  intros Hkey H1 H2 Hne.
  exists (op_request w apiKey op1), (op_request w apiKey op2).
  split; [now apply requests_perform |].
  split; [now apply requests_perform |].
  assert (U1 : req_url (op_request w apiKey op1)
               = fixed ++ encodeURIComponent text1)
    by (destruct op1; try discriminate H1; injection H1 as <- <-; reflexivity).
  assert (U2 : req_url (op_request w apiKey op2)
               = fixed ++ encodeURIComponent text2)
    by (destruct op2; try discriminate H2; injection H2 as <- <-; reflexivity).
  rewrite U1, U2. intros H. apply Hne.
  apply encodeURIComponent_injective. now apply append_inv_head in H.
Qed.

Lemma different_texts_different_paths_witness :
  exists r1 r2,
    requests (perform (demo_world no_tax) (op_getOrder "A/1")) = [r1]
    /\ requests (perform (demo_world no_tax) (op_deleteOrder "A%2F1")) = [r2]
    /\ req_url r1 <> req_url r2.
Proof.
  apply (different_texts_different_paths (demo_world no_tax) "0123456789abcdef"
           (op_getOrder "A/1") (op_deleteOrder "A%2F1")
           "/transactions/orders/" "A/1" "A%2F1").
  - reflexivity.
  - reflexivity.
  - reflexivity.
  - discriminate.
Defined.

(** *** The configuration *)

(** X15.  [config set --api-key k] needs no key and no network: it stores
    [k], prints its two lines and returns.  A later run without the
    environment variable then uses [k], and [config show] shows it masked;
    storing the empty text leaves the later run without a key. *)
Theorem config_set_then_get w (k : string) :
  let m := run w (config_set_line k) in
  let later := world_after w (trace m) in
  result m = Return tt
  /\ requests m = []
  /\ stored_apiKey later = Some k
  /\ (absent (env_TAXJAR_API_KEY w) ->
      (k <> "" -> getApiKey later = ret k)
      /\ (k = "" -> getApiKey later = (missing_key_report later, Exit 1)))
  /\ (k <> "" -> shown_apiKey (showConfig later) = mask k).
Proof.
  cbv zeta.
  assert (Hstored : stored_apiKey (world_after w (trace (run w (config_set_line k))))
                    = Some k) by reflexivity.
  repeat split; try reflexivity.
  - intros Hk. unfold getApiKey, or_str, config_get_apiKey.
    rewrite Hstored. cbn [world_after env_TAXJAR_API_KEY].
    apply eqb_eq_false in Hk.
    destruct H as [-> | ->]; cbn [String.eqb]; now rewrite Hk.
  - intros ->. unfold getApiKey, or_str, config_get_apiKey.
    rewrite Hstored. cbn [world_after env_TAXJAR_API_KEY].
    destruct H as [-> | ->]; reflexivity.
  - intros Hk. now apply shown_stored.
Qed.

Lemma config_set_then_get_witness :
  getApiKey (world_after (key_world None None)
               (trace (run (key_world None None)
                           (config_set_line "0123456789abcdef"))))
  = ret "0123456789abcdef"
  /\ shown_apiKey
       (showConfig (world_after (key_world None None)
                      (trace (run (key_world None None)
                                  (config_set_line "0123456789abcdef")))))
     = "0123****cdef".
Proof.
  destruct (config_set_then_get (key_world None None) "0123456789abcdef")
    as (_ & _ & _ & Hget & Hshow).
  split.
  - apply Hget; [left; reflexivity | discriminate].
  - rewrite Hshow by discriminate. reflexivity.
Defined.

Lemma length_slice_first4 (k : string) :
  String.length (slice k 0 (Some 4%Z)) = Nat.min 4 (String.length k).
Proof.
  unfold slice, clamp_index. rewrite length_string_of, length_firstn, length_skipn,
    length_list_of.
  cbn [Z.ltb Z.compare]. lia.
Qed.

Lemma length_slice_last4 (k : string) :
  String.length (slice k (-4) None) = Nat.min 4 (String.length k).
Proof.
  unfold slice, clamp_index. rewrite length_string_of, length_firstn, length_skipn,
    length_list_of.
  cbn [Z.ltb Z.compare]. lia.
Qed.

Lemma length_mask (k : string) :
  String.length (mask k) = 2 * Nat.min 4 (String.length k) + 4.
Proof.
  unfold mask. rewrite !length_append, length_slice_first4, length_slice_last4.
  cbn [String.length]. lia.
Qed.

(** X16.  The masked text of a key has twice the smaller of 4 and the
    length of the key, plus 4, code units: a key shorter than four code
    units shows its length, a key of four or more always gives twelve. *)
Theorem length_of_masked_text (k : string) :
  String.length (mask k) = 2 * Nat.min 4 (String.length k) + 4
  /\ (4 <= String.length k -> String.length (mask k) = 12).
Proof. split; [apply length_mask | intros H; rewrite length_mask; lia]. Qed.

Lemma length_of_masked_text_witness :
  String.length (mask "0123456789abcdef") = 12.
Proof.
  apply (proj2 (length_of_masked_text "0123456789abcdef")). cbn. lia.
Defined.

Lemma mask_is_not_the_placeholder (k : string) : mask k <> "(not set)".
Proof.
  intros H. apply (f_equal String.length) in H.
  rewrite length_mask in H. cbn [String.length] in H. lia.
Qed.

(** X17.  [config show] and [getApiKey] agree on whether there is a key:
    the display says [(not set)] exactly when a command that needs the key
    would end with the report of the missing key. *)
Theorem show_says_not_set_when_no_key w :
  shown_apiKey (showConfig w) = "(not set)"
  <-> getApiKey w = (missing_key_report w, Exit 1).
Proof.
  unfold showConfig, getApiKey, or_str, config_get_apiKey.
  cbn [shown_apiKey].
  destruct (stored_apiKey w) as [s |], (env_TAXJAR_API_KEY w) as [e |];
    try destruct (s =? "") eqn:Es; try destruct (e =? "") eqn:Ee;
    rewrite ?Es, ?Ee; cbn [String.eqb];
    split; intros H; rewrite ?Es, ?Ee in H; try reflexivity;
    try discriminate H;
    exfalso; eapply mask_is_not_the_placeholder; exact H.
Qed.

Lemma required_flag_missing (decls : list declaration)
      (given : list (string * value)) (d : declaration) :
  (asks_version given || asks_help given)%bool = false ->
  In d decls -> is_required d = true ->
  written (long_name d) given = None ->
  exists d',
    In d' decls /\ is_required d' = true
    /\ parseOptions decls given
       = ([Commander (MissingOption (flags_of d'))], Exit 1).
Proof.
  intros Hask Hin Hreq Hgiven.
  apply orb_false_elim in Hask. destruct Hask as [Hv Hh].
  unfold parseOptions. rewrite Hv, Hh.
  destruct (find (fun d0 => (is_required d0
                             && is_undefined (flag_value given d0))%bool) decls)
    as [d' |] eqn:E.
  - apply find_some in E. destruct E as [Hd' Hmiss].
    apply andb_true_iff in Hmiss.
    exists d'. repeat split; [exact Hd' | apply Hmiss].
  - exfalso. apply (find_none _ _ E) in Hin. cbv beta in Hin.
    unfold flag_value in Hin. rewrite Hreq, Hgiven in Hin.
    destruct d; [discriminate Hin | discriminate Hreq].
Qed.

(** X18.  A command line that leaves out a flag declared with
    [requiredOption], and asks neither for the version nor for help, is
    refused before the action runs, whatever else it holds: commander
    names a missing required flag on stderr and ends the process with
    status 1; there is no spinner, no request and no write to the
    configuration. *)
Theorem missing_required_flag_is_refused w (inv : invocation)
        (d : declaration) :
  answered_by_commander inv = false ->
  In d (declared (inv_command inv)) ->
  is_required d = true ->
  written (long_name d) (inv_flags inv) = None ->
  exists d',
    In d' (declared (inv_command inv)) /\ is_required d' = true
    /\ run w inv = ([Commander (MissingOption (flags_of d'))], Exit 1).
Proof.
  intros Hask Hin Hreq Hgiven.
  destruct (required_flag_missing _ _ d Hask Hin Hreq Hgiven)
    as [d' [Hd' [Hreq' H]]].
  exists d'. repeat split; [exact Hd' | exact Hreq' |].
  unfold run. now rewrite H.
Qed.

Lemma missing_required_flag_is_refused_witness :
  exists d',
    In d' (declared TaxCalculate) /\ is_required d' = true
    /\ run (demo_world no_tax)
           {| inv_command := TaxCalculate; inv_argument := None;
              inv_flags := flags_of_texts [("--from-country", "US");
                                           ("--colour", "red")] |}
       = ([Commander (MissingOption (flags_of d'))], Exit 1).
Proof.
  apply (missing_required_flag_is_refused (demo_world no_tax)
           {| inv_command := TaxCalculate; inv_argument := None;
              inv_flags := flags_of_texts [("--from-country", "US");
                                           ("--colour", "red")] |}
           (requiredOption "--amount <amount>")).
  - reflexivity.
  - cbn. tauto.
  - reflexivity.
  - reflexivity.
Defined.

(** commander on the command lines of its own: the version and the help
    come before every check, a missing required flag before a flag that
    is not declared, and the last text of a repeated flag is the one that
    counts. *)
Example version_is_answered_first :
  run (key_world None None)
      {| inv_command := TaxCalculate; inv_argument := None;
         inv_flags := [("--help", VBool true); ("--version", VBool true)] |}
  = ([Commander ShowVersion], Exit 0).
Proof. reflexivity. Qed.

Example help_is_answered_before_the_checks :
  run (key_world None None)
      {| inv_command := TaxCalculate; inv_argument := None;
         inv_flags := [("--colour", VStr "red"); ("--help", VBool true)] |}
  = ([Commander ShowHelp], Exit 0).
Proof. reflexivity. Qed.

Example missing_flag_is_named_before_unknown_flag :
  run (key_world None None)
      {| inv_command := ConfigSet; inv_argument := None;
         inv_flags := [("--colour", VStr "red")] |}
  = ([Commander (MissingOption "--api-key <key>")], Exit 1).
Proof. reflexivity. Qed.

Example unknown_flag_is_refused :
  run (key_world None None)
      {| inv_command := ConfigShow; inv_argument := None;
         inv_flags := [("--colour", VStr "red")] |}
  = ([Commander (UnknownOption "--colour")], Exit 1).
Proof. reflexivity. Qed.

Example missing_argument_is_refused :
  run (key_world None None)
      {| inv_command := OrdersGet; inv_argument := None; inv_flags := [] |}
  = ([Commander (MissingArgument "transaction-id")], Exit 1).
Proof. reflexivity. Qed.

Example repeated_flag_keeps_its_last_text :
  exists r,
    requests (run (demo_world no_tax)
                  {| inv_command := TaxCalculate; inv_argument := None;
                     inv_flags :=
                       flags_of_texts
                         [("--from-country", "US"); ("--from-zip", "94025");
                          ("--from-state", "CA"); ("--to-country", "US");
                          ("--to-zip", "10001"); ("--to-state", "NY");
                          ("--amount", "abc"); ("--amount", "2")] |}) = [r]
    /\ sent_field r "amount" = Some (VNum (Dec false 2 0)).
Proof. eexists. split; reflexivity. Qed.

(** *** What is printed for a reader *)

(** X19.  The breakdown of a tax lists, under its title, the parts that
    are there and not zero, in the order state, county, city, special
    district: a part that is 0, empty or missing gets no line. *)
Theorem breakdown_lists_the_parts_that_count w (b : value) :
  nullish b = false ->
  tax_breakdown w b
  = (map Log
         (app [""; chalk w [bold] "Breakdown"; chalk w [dim] (rule 9)]
              (flat_map (fun part =>
                           let v := get_opt b (fst part) in
                           if truthy v
                           then [snd part ++ chalk w [white] ("$" ++ to_string v)]
                           else [])
                        breakdown_parts)),
     Return tt).
Proof.
  intros Hb. unfold tax_breakdown, log_if, breakdown_parts.
  rewrite !(prop_of_value b _ Hb), !bind_ret.
  cbn [flat_map fst snd app].
  destruct (truthy (get_opt b "state_tax_collectable")),
    (truthy (get_opt b "county_tax_collectable")),
    (truthy (get_opt b "city_tax_collectable")),
    (truthy (get_opt b "special_district_tax_collectable")); reflexivity.
Qed.

Lemma breakdown_lists_the_parts_that_count_witness :
  logged (tax_breakdown (demo_world no_tax)
            (VObj [("state_tax_collectable", VNum (Dec false 4 0));
                   ("county_tax_collectable", VNum (Dec false 0 0));
                   ("city_tax_collectable", VNum (Dec false 488 (-2)))]))
  = [""; "Breakdown"; rule 9;
     "State Tax:          $4"; "City Tax:           $4.88"].
Proof.
  rewrite breakdown_lists_the_parts_that_count by reflexivity.
  reflexivity.
Defined.

(** X20.  [orders delete], without [--json], confirms with the id of the
    command line and never looks at the answer: any 2xx answer, whatever
    its body holds under [order], gives the one line with that id and
    status 0. *)
Theorem orders_delete_confirms_with_its_argument w (apiKey id : string)
        (o : options) (v : value) :
  configured w apiKey ->
  truthy (opt o "json") = false ->
  translated "order" (respond w (request_for w apiKey OrdersDelete (Some id) o))
  = Return v ->
  action w OrdersDelete (Some id) o
  = ([SpinnerStart ("Deleting order " ++ id ++ "...");
      Axios (request_for w apiKey OrdersDelete (Some id) o);
      SpinnerSucceed "Order deleted successfully";
      Log ("Deleted transaction: " ++ chalk w [cyan] id)],
     Return tt).
Proof.
  intros Hkey Hjson Hback.
  open_action. rewrite (unwrap_spec w apiKey) by exact Hkey.
  unfold request_for in Hback; cbv zeta in Hback |- *; cbn [text_of] in Hback.
  rewrite Hback, bind_return, Hjson. reflexivity.
Qed.

Lemma orders_delete_confirms_with_its_argument_witness :
  logged (action (demo_world (Answered 200 (VObj []))) OrdersDelete
                 (Some "ORDER-123") [])
  = ["Deleted transaction: ORDER-123"].
Proof.
  rewrite (orders_delete_confirms_with_its_argument
             (demo_world (Answered 200 (VObj []))) "0123456789abcdef"
             "ORDER-123" [] VUndef eq_refl eq_refl eq_refl).
  reflexivity.
Defined.

(** *** Empty lists *)

(** X21.  An empty list is no error for a command that returns a list:
    the action returns, so the process ends with status 0.  With [--json]
    the text [[]] is printed.  Without it, each of the five commands that
    print a table ([rates summary], [nexus list], [categories list],
    [orders list], [refunds list]) prints one yellow line that says that
    nothing was found. *)
Theorem empty_list_is_not_an_error w (apiKey : string) (c : command)
        (o : options) (field : string) (st : Z) (d : value) :
  configured w apiKey ->
  listing c = Some field ->
  respond w (request_for w apiKey c None o) = Answered st d ->
  is_2xx st = true ->
  get d field = Some (VArr []) ->
  result (action w c None o) = Return tt
  /\ exit_status (action w c None o) = 0%Z
  /\ (truthy (opt o "json") = true -> logged (action w c None o) = ["[]"])
  /\ (truthy (opt o "json") = false -> prints_a_table c = true ->
      exists line, empty_report w c = [line]
                   /\ logged (action w c None o) = [line]).
Proof.
  intros Hkey Hlist Hback H2xx Hget.
  assert (Hres : translated field (respond w (request_for w apiKey c None o))
                 = Return (VArr []))
    by (rewrite Hback; unfold translated; now rewrite H2xx, Hget).
  unfold exit_status.
  destruct c; try discriminate Hlist; injection Hlist as <-;
    unfold action;
    match goal with
    | |- context [result (?f w o)] => unfold f
    end;
    match goal with
    | |- context [getSummaryRates] => unfold getSummaryRates
    | |- context [getNexusRegions] => unfold getNexusRegions
    | |- context [getCategories] => unfold getCategories
    | |- context [listOrders] => unfold listOrders
    | |- context [listRefunds] => unfold listRefunds
    | |- context [validateAddress] => unfold validateAddress
    end;
    unfold client_get, client_post;
    rewrite (unwrap_spec w apiKey) by exact Hkey;
    unfold request_for in Hres; cbv zeta in Hres |- *; rewrite Hres;
    destruct (truthy (opt o "json"));
    (split; [reflexivity |]); (split; [reflexivity |]);
    (split; [intros Hj; try discriminate Hj; reflexivity |]);
    intros Hj Ht; try discriminate Hj; try discriminate Ht;
    eexists; split; reflexivity.
Qed.

Lemma empty_list_is_not_an_error_witness :
  result (action (demo_world nothing_found) OrdersList None []) = Return tt
  /\ logged (action (demo_world nothing_found) OrdersList None [])
     = ["No orders found for the given criteria."].
Proof.
  destruct (empty_list_is_not_an_error (demo_world nothing_found)
              "0123456789abcdef" OrdersList [] "orders" 200
              (VObj [("addresses", VArr []); ("orders", VArr [])])
              eq_refl eq_refl eq_refl eq_refl eq_refl)
    as [Hres [_ [_ Hlog]]].
  split; [exact Hres |].
  destruct (Hlog eq_refl eq_refl) as [line [Hline ->]].
  now injection Hline as <-.
Defined.
